(** * DeFi Autopilot: the rebalancing contracts, embedded and verified

    A shallow embedding of the three Solidity contracts of
    [contracts/RebalancingEngine.sol] (PortfolioManager, YieldOracle and
    RebalancingEngine) together with the properties of the specification
    that concern them.

    Conventions of the embedding:
    - a [uint256] is a [Z]; Solidity 0.8 arithmetic is checked, so every
      [+], [-], [*] of the source is a call that either yields the exact
      result or reverts with [Panic 0x11]; OpenZeppelin 4.x [SafeMath]
      ([add], [sub], [mul], [div]) is the same checked arithmetic;
    - an external call either returns a new state or reverts; a revert
      carries its failure ([Error reason] for [require]/[revert] with a
      message, [Panic code] for a failed built-in check) and leaves the
      caller with the state it had before the call;
    - a Solidity [mapping] is a [gmap] read with the zero value as default;
    - [block.timestamp] and [msg.sender] are explicit arguments;
    - the [nonReentrant] guards are left out of the functions of the three
      modules: a call of a trace does not re-enter the contract that is
      running it, the transfer of [withdrawFunds] being represented by
      its outcome; [Reentry.withdrawFunds] adds the calls the receiver of
      the transfer makes back into the manager, and the guard they meet;
    - [RebalancingEngine.World] is the engine with the PortfolioManager and
      the YieldOracle its two references point to; [Network] adds the
      references themselves, their setters and the contracts deployed, by
      address;
    - [keccak256(bytes(a)) == keccak256(bytes(b))] is string equality. *)

From Stdlib Require Import ZArith Lia List Bool String.
From stdpp Require Import base gmap strings list.

Local Open Scope string_scope.
Local Open Scope list_scope.
Local Open Scope Z_scope.

(** ** Failures and the result of a call *)

Inductive failure : Type :=
| Error (reason : string)
| Panic (code : Z).

Inductive result (A : Type) : Type :=
| Ok (a : A)
| Revert (f : failure).

Arguments Ok {A} a.
Arguments Revert {A} f.

Definition bind {A B : Type} (m : result A) (k : A -> result B) : result B :=
  match m with
  | Ok a => k a
  | Revert f => Revert f
  end.

Notation "'do' x <- m ; k" := (bind m (fun x => k))
  (at level 10, x name, m at level 100, k at level 200, only parsing).
Notation "'check' m ; k" := (bind m (fun _ : unit => k))
  (at level 10, m at level 100, k at level 200, only parsing).

Definition require (cond : bool) (reason : string) : result unit :=
  if cond then Ok tt else Revert (Error reason).

Definition succeeded {A : Type} (r : result A) : bool :=
  match r with Ok _ => true | Revert _ => false end.

(** ** Checked 256-bit arithmetic *)

Definition address : Type := Z.

Definition MAX_UINT256 : Z := 2 ^ 256 - 1.
Definition ether : Z := 10 ^ 18.

Definition ARITHMETIC_PANIC : Z := 17.   (* 0x11 *)
Definition DIVISION_PANIC : Z := 18.     (* 0x12 *)
Definition ENUM_PANIC : Z := 33.         (* 0x21 *)

Definition checked_add (a b : Z) : result Z :=
  if a + b <=? MAX_UINT256 then Ok (a + b) else Revert (Panic ARITHMETIC_PANIC).

Definition checked_sub (a b : Z) : result Z :=
  if b <=? a then Ok (a - b) else Revert (Panic ARITHMETIC_PANIC).

Definition checked_mul (a b : Z) : result Z :=
  if a * b <=? MAX_UINT256 then Ok (a * b) else Revert (Panic ARITHMETIC_PANIC).

Definition checked_div (a b : Z) : result Z :=
  if b =? 0 then Revert (Panic DIVISION_PANIC) else Ok (a / b).

(** OpenZeppelin 4.x [SafeMath]: thin wrappers over checked arithmetic. *)
Module SafeMath.
Definition add := checked_add.
Definition sub := checked_sub.
Definition mul := checked_mul.
Definition div := checked_div.
End SafeMath.

(** OpenZeppelin [Pausable.whenNotPaused] and [Ownable.onlyOwner]. *)
Definition whenNotPaused (paused : bool) : result unit :=
  require (negb paused) "Pausable: paused".

Definition onlyOwner (owner sender : address) : result unit :=
  require (sender =? owner) "Ownable: caller is not the owner".

(** * PortfolioManager *)

Module PortfolioManager.

Inductive RiskProfile : Type := CONSERVATIVE | BALANCED | AGGRESSIVE.

(** [uint8(riskProfile)]: the enum's ordinal. *)
Definition RiskProfile_to_uint8 (r : RiskProfile) : Z :=
  match r with
  | CONSERVATIVE => 0
  | BALANCED => 1
  | AGGRESSIVE => 2
  end.

(** [RiskProfile(n)]: conversion from an integer, a panic out of range. *)
Definition RiskProfile_of_uint8 (n : Z) : result RiskProfile :=
  if n =? 0 then Ok CONSERVATIVE
  else if n =? 1 then Ok BALANCED
  else if n =? 2 then Ok AGGRESSIVE
  else Revert (Panic ENUM_PANIC).

Record Portfolio : Type := mkPortfolio {
  totalValue : Z;
  currentYield : Z;
  currentProtocol : string;
  riskProfile : RiskProfile;
  autoRebalanceEnabled : bool;
  lastRebalance : Z;
  totalProfit : Z
}.

(** The value of [portfolios[a]] for a key never written. *)
Definition zeroPortfolio : Portfolio :=
  mkPortfolio 0 0 "" CONSERVATIVE false 0 0.

Inductive Event : Type :=
| PortfolioCreated (user : address) (amount : Z) (rp : RiskProfile)
| FundsDeposited (user : address) (amount : Z)
| FundsWithdrawn (user : address) (amount : Z)
| PortfolioRebalanced (user : address) (fromProtocol toProtocol : string)
    (expectedYield : Z)
| RiskProfileUpdated (user : address) (oldProfile newProfile : RiskProfile)
| AutoRebalanceToggled (user : address) (enabled : bool).

Record State : Type := mkState {
  portfolios : gmap Z Portfolio;
  authorizedRebalancers : gmap Z bool;
  paused : bool;
  owner : address;
  events : list Event
}.

Definition MIN_DEPOSIT : Z := ether / 100.           (* 0.01 ether *)
Definition MIN_YIELD_IMPROVEMENT : Z := 50.
Definition MAX_GAS_THRESHOLD : Z := 2 * ether / 100. (* 0.02 ether *)

Definition portfolio_of (s : State) (user : address) : Portfolio :=
  default zeroPortfolio (portfolios s !! user).

Definition is_rebalancer (s : State) (a : address) : bool :=
  default false (authorizedRebalancers s !! a).

Definition set_portfolio (s : State) (user : address) (p : Portfolio) : State :=
  mkState (<[user := p]> (portfolios s)) (authorizedRebalancers s)
          (paused s) (owner s) (events s).

Definition emit (s : State) (e : Event) : State :=
  mkState (portfolios s) (authorizedRebalancers s) (paused s) (owner s)
          (events s ++ [e]).

(** Field assignments [portfolios[user].f = v]. *)
Definition with_totalValue (p : Portfolio) (v : Z) : Portfolio :=
  mkPortfolio v (currentYield p) (currentProtocol p) (riskProfile p)
              (autoRebalanceEnabled p) (lastRebalance p) (totalProfit p).
Definition with_currentYield (p : Portfolio) (v : Z) : Portfolio :=
  mkPortfolio (totalValue p) v (currentProtocol p) (riskProfile p)
              (autoRebalanceEnabled p) (lastRebalance p) (totalProfit p).
Definition with_currentProtocol (p : Portfolio) (v : string) : Portfolio :=
  mkPortfolio (totalValue p) (currentYield p) v (riskProfile p)
              (autoRebalanceEnabled p) (lastRebalance p) (totalProfit p).
Definition with_riskProfile (p : Portfolio) (v : RiskProfile) : Portfolio :=
  mkPortfolio (totalValue p) (currentYield p) (currentProtocol p) v
              (autoRebalanceEnabled p) (lastRebalance p) (totalProfit p).
Definition with_autoRebalanceEnabled (p : Portfolio) (v : bool) : Portfolio :=
  mkPortfolio (totalValue p) (currentYield p) (currentProtocol p)
              (riskProfile p) v (lastRebalance p) (totalProfit p).
Definition with_lastRebalance (p : Portfolio) (v : Z) : Portfolio :=
  mkPortfolio (totalValue p) (currentYield p) (currentProtocol p)
              (riskProfile p) (autoRebalanceEnabled p) v (totalProfit p).
Definition with_totalProfit (p : Portfolio) (v : Z) : Portfolio :=
  mkPortfolio (totalValue p) (currentYield p) (currentProtocol p)
              (riskProfile p) (autoRebalanceEnabled p) (lastRebalance p) v.

(** [constructor]: nothing but the Ownable owner is set. *)
Definition deploy (deployer : address) : State :=
  mkState ∅ ∅ false deployer [].

(** [createPortfolio(uint8 riskProfile) external payable whenNotPaused] *)
Definition createPortfolio (now : Z) (sender : address) (value : Z)
    (rp : Z) (s : State) : result State :=
  check whenNotPaused (paused s);
  check require (MIN_DEPOSIT <=? value) "Minimum deposit required";
  check require (rp <=? 2) "Invalid risk profile";
  check require (totalValue (portfolio_of s sender) =? 0)
                "Portfolio already exists";
  do profile <- RiskProfile_of_uint8 rp;
  let s1 := set_portfolio s sender
              (mkPortfolio value 320 "Aave" profile true now 0) in
  Ok (emit s1 (PortfolioCreated sender value profile)).

(** [depositFunds() external payable nonReentrant whenNotPaused] *)
Definition depositFunds (sender : address) (value : Z) (s : State)
    : result State :=
  check whenNotPaused (paused s);
  check require (0 <? totalValue (portfolio_of s sender))
                "Portfolio does not exist";
  check require (0 <? value) "Amount must be greater than 0";
  do v <- SafeMath.add (totalValue (portfolio_of s sender)) value;
  let s1 := set_portfolio s sender
              (with_totalValue (portfolio_of s sender) v) in
  Ok (emit s1 (FundsDeposited sender value)).

(** [withdrawFunds(uint256 amount) external nonReentrant whenNotPaused].
    [transferred] is the outcome of [msg.sender.call{value: amount}("")]. *)
Definition withdrawFunds (sender : address) (amount : Z)
    (transferred : bool) (s : State) : result State :=
  check whenNotPaused (paused s);
  check require (amount <=? totalValue (portfolio_of s sender))
                "Insufficient balance";
  check require (0 <? amount) "Amount must be greater than 0";
  do v <- SafeMath.sub (totalValue (portfolio_of s sender)) amount;
  let s1 := set_portfolio s sender
              (with_totalValue (portfolio_of s sender) v) in
  check require transferred "Transfer failed";
  Ok (emit s1 (FundsWithdrawn sender amount)).

(** [updateRiskProfile(uint8 newProfile) external whenNotPaused] *)
Definition updateRiskProfile (sender : address) (newProfile : Z)
    (s : State) : result State :=
  check whenNotPaused (paused s);
  check require (newProfile <=? 2) "Invalid risk profile";
  check require (0 <? totalValue (portfolio_of s sender))
                "Portfolio does not exist";
  let oldProfile := riskProfile (portfolio_of s sender) in
  do profile <- RiskProfile_of_uint8 newProfile;
  let s1 := set_portfolio s sender
              (with_riskProfile (portfolio_of s sender) profile) in
  Ok (emit s1 (RiskProfileUpdated sender oldProfile profile)).

(** [toggleAutoRebalance() external whenNotPaused] *)
Definition toggleAutoRebalance (sender : address) (s : State)
    : result State :=
  check whenNotPaused (paused s);
  check require (0 <? totalValue (portfolio_of s sender))
                "Portfolio does not exist";
  let s1 := set_portfolio s sender
              (with_autoRebalanceEnabled (portfolio_of s sender)
                 (negb (autoRebalanceEnabled (portfolio_of s sender)))) in
  Ok (emit s1 (AutoRebalanceToggled sender
                 (autoRebalanceEnabled (portfolio_of s1 sender)))).

(** [checkRebalanceProfitability(user, newYield, gasCost) public view] *)
Definition checkRebalanceProfitability (s : State) (user : address)
    (newYield gasCost : Z) : result bool :=
  let portfolio := portfolio_of s user in
  do threshold <- SafeMath.add (currentYield portfolio) MIN_YIELD_IMPROVEMENT;
  if newYield <=? threshold then Ok false
  else
    do yieldImprovement <- SafeMath.sub newYield (currentYield portfolio);
    do product <- SafeMath.mul (totalValue portfolio) yieldImprovement;
    do annualProfit <- SafeMath.div product 10000;
    do margin <- SafeMath.mul gasCost 115;
    do requiredProfit <- SafeMath.div margin 100;
    Ok (requiredProfit <=? annualProfit).

(** [executeRebalance(user, fromProtocol, toProtocol, expectedYield, gasCost)
     external onlyAuthorizedRebalancer whenNotPaused].
    The three field writes come first, as in the source, so the yield
    difference below is read from the portfolio already updated. *)
Definition executeRebalance (now : Z) (sender : address) (user : address)
    (fromProtocol toProtocol : string) (expectedYield gasCost : Z)
    (s : State) : result State :=
  check require (is_rebalancer s sender) "Not authorized rebalancer";
  check whenNotPaused (paused s);
  check require (0 <? totalValue (portfolio_of s user))
                "Portfolio does not exist";
  check require (autoRebalanceEnabled (portfolio_of s user))
                "Auto-rebalance disabled";
  check require (gasCost <=? MAX_GAS_THRESHOLD) "Gas cost too high";
  do profitable <- checkRebalanceProfitability s user expectedYield gasCost;
  check require profitable "Rebalancing not profitable";
  let s1 := set_portfolio s user
              (with_currentProtocol (portfolio_of s user) toProtocol) in
  let s2 := set_portfolio s1 user
              (with_currentYield (portfolio_of s1 user) expectedYield) in
  let s3 := set_portfolio s2 user
              (with_lastRebalance (portfolio_of s2 user) now) in
  do yieldDifference <-
       SafeMath.sub expectedYield (currentYield (portfolio_of s3 user));
  do product <- SafeMath.mul (totalValue (portfolio_of s3 user)) yieldDifference;
  do annualProfit <- SafeMath.div product 10000;
  do netProfit <- SafeMath.sub annualProfit gasCost;
  do profit <- SafeMath.add (totalProfit (portfolio_of s3 user)) netProfit;
  let s4 := set_portfolio s3 user
              (with_totalProfit (portfolio_of s3 user) profit) in
  Ok (emit s4 (PortfolioRebalanced user fromProtocol toProtocol expectedYield)).

(** [getPortfolio(user) external view]: the seven fields of the record. *)
Definition getPortfolio (s : State) (user : address) : Portfolio :=
  portfolio_of s user.

(** [authorizeRebalancer(aiEngine, authorized) external onlyOwner] *)
Definition authorizeRebalancer (sender : address) (aiEngine : address)
    (authorized : bool) (s : State) : result State :=
  check onlyOwner (owner s) sender;
  Ok (mkState (portfolios s) (<[aiEngine := authorized]> (authorizedRebalancers s))
              (paused s) (owner s) (events s)).

(** [pause()] / [unpause()], owner only. *)
Definition pause (sender : address) (s : State) : result State :=
  check onlyOwner (owner s) sender;
  check whenNotPaused (paused s);
  Ok (mkState (portfolios s) (authorizedRebalancers s) true (owner s) (events s)).

Definition unpause (sender : address) (s : State) : result State :=
  check onlyOwner (owner s) sender;
  check require (paused s) "Pausable: not paused";
  Ok (mkState (portfolios s) (authorizedRebalancers s) false (owner s) (events s)).

End PortfolioManager.

(** * YieldOracle *)

Module YieldOracle.

Record YieldData : Type := mkYieldData {
  protocol : string;
  apy : Z;
  tvl : Z;
  riskScore : Z;
  timestamp : Z;
  active : bool
}.

Record HistoricalYield : Type := mkHistoricalYield {
  hist_apy : Z;
  hist_timestamp : Z
}.

Definition zeroYieldData : YieldData := mkYieldData "" 0 0 0 0 false.

Inductive Event : Type :=
| YieldUpdated (protocol : string) (newApy tvl riskScore timestamp : Z)
| ProtocolAdded (protocol : string) (riskScore : Z)
| ProtocolDeactivated (protocol reason : string)
| UpdaterAuthorized (updater : address) (authorized : bool).

Record State : Type := mkState {
  protocolYields : gmap string YieldData;
  yieldHistory : gmap string (list HistoricalYield);
  authorizedUpdaters : gmap Z bool;
  supportedProtocols : list string;
  paused : bool;
  owner : address;
  events : list Event
}.

Definition MAX_STALENESS : Z := 3600.
Definition MIN_TVL_THRESHOLD : Z := 1000000 * ether.

Definition yield_of (s : State) (p : string) : YieldData :=
  default zeroYieldData (protocolYields s !! p).

Definition history_of (s : State) (p : string) : list HistoricalYield :=
  default [] (yieldHistory s !! p).

Definition is_updater (s : State) (a : address) : bool :=
  default false (authorizedUpdaters s !! a).

Definition emit (s : State) (e : Event) : State :=
  mkState (protocolYields s) (yieldHistory s) (authorizedUpdaters s)
          (supportedProtocols s) (paused s) (owner s) (events s ++ [e]).

(** [_addProtocol(string memory _protocol, uint8 _riskScore) internal] *)
Definition _addProtocol (now : Z) (p : string) (risk : Z) (s : State)
    : result State :=
  check require (0 <? Z.of_nat (String.length p)) "Empty protocol name";
  check require ((1 <=? risk) && (risk <=? 10)) "Invalid risk score";
  check require (negb (active (yield_of s p))) "Protocol already exists";
  let s1 := mkState (<[p := mkYieldData p 0 0 risk now true]> (protocolYields s))
              (yieldHistory s) (authorizedUpdaters s)
              (supportedProtocols s ++ [p]) (paused s) (owner s) (events s) in
  Ok (emit s1 (ProtocolAdded p risk)).

(** [constructor]: the eight venues registered at deployment. *)
Definition deploy (now : Z) (deployer : address) : result State :=
  let s0 := mkState ∅ ∅ ∅ [] false deployer [] in
  do s1 <- _addProtocol now "Aave" 2 s0;
  do s2 <- _addProtocol now "Compound" 2 s1;
  do s3 <- _addProtocol now "Curve" 3 s2;
  do s4 <- _addProtocol now "Uniswap" 4 s3;
  do s5 <- _addProtocol now "Yearn" 3 s4;
  do s6 <- _addProtocol now "Convex" 4 s5;
  do s7 <- _addProtocol now "Lido" 2 s6;
  _addProtocol now "Rocket Pool" 3 s7.

(** [addProtocol(_protocol, _riskScore) external onlyOwner] *)
Definition addProtocol (now : Z) (sender : address) (p : string) (risk : Z)
    (s : State) : result State :=
  check onlyOwner (owner s) sender;
  _addProtocol now p risk s.

(** [_isStaleData(uint256 _timestamp) internal view] *)
Definition _isStaleData (now : Z) (ts : Z) : result bool :=
  do age <- checked_sub now ts;
  Ok (MAX_STALENESS <? age).

(** [updateYield(_protocol, _apy, _tvl, _riskScore)
     external onlyAuthorizedUpdater validProtocol(_protocol) whenNotPaused] *)
Definition updateYield (now : Z) (sender : address) (p : string)
    (newApy newTvl newRisk : Z) (s : State) : result State :=
  check require (is_updater s sender || (sender =? owner s)) "Not authorized";
  check require (active (yield_of s p)) "Protocol not active";
  check whenNotPaused (paused s);
  check require ((1 <=? newRisk) && (newRisk <=? 10)) "Invalid risk score";
  check require (newApy <=? 50000) "APY too high (>500%)";
  check require (MIN_TVL_THRESHOLD <=? newTvl) "TVL below minimum";
  let yieldData := yield_of s p in
  let archived := history_of s p
                  ++ [mkHistoricalYield (apy yieldData) (timestamp yieldData)] in
  let updated := mkYieldData (protocol yieldData) newApy newTvl newRisk now
                             (active yieldData) in
  let s1 := mkState (<[p := updated]> (protocolYields s))
              (<[p := archived]> (yieldHistory s)) (authorizedUpdaters s)
              (supportedProtocols s) (paused s) (owner s) (events s) in
  Ok (emit s1 (YieldUpdated p newApy newTvl newRisk now)).

(** The loop body of [getBestYieldForRisk]; the accumulator is
    [(topProtocol, highestYield, topRiskScore)].  The conjunction is
    evaluated left to right, [_isStaleData] last. *)
Fixpoint best_scan (now : Z) (maxRisk minTvl : Z) (s : State)
    (names : list string) (acc : string * Z * Z) : result (string * Z * Z) :=
  match names with
  | [] => Ok acc
  | name :: rest =>
      let '(topProtocol, highestYield, topRiskScore) := acc in
      let data := yield_of s name in
      if active data && (riskScore data <=? maxRisk) && (minTvl <=? tvl data)
         && (highestYield <? apy data)
      then
        do stale <- _isStaleData now (timestamp data);
        if negb stale
        then best_scan now maxRisk minTvl s rest (name, apy data, riskScore data)
        else best_scan now maxRisk minTvl s rest acc
      else best_scan now maxRisk minTvl s rest acc
  end.

(** [getBestYieldForRisk(uint8 _riskProfile, uint256 _minTvl) external view] *)
Definition getBestYieldForRisk (now : Z) (maxRisk minTvl : Z) (s : State)
    : result (string * Z * Z) :=
  check require ((1 <=? maxRisk) && (maxRisk <=? 10)) "Invalid risk profile";
  best_scan now maxRisk minTvl s (supportedProtocols s) ("", 0, 0).

(** [getYieldHistory(_protocol, _limit) external view]: entry [i] of the
    answer is [history[history.length - 1 - i]]. *)
Definition getYieldHistory (s : State) (p : string) (limit : Z)
    : list HistoricalYield :=
  let history := history_of s p in
  let len := Z.of_nat (List.length history) in
  let n := if limit <? len then limit else len in
  omap (fun i => history !! (List.length history - 1 - i)%nat)
       (seq 0 (Z.to_nat n)).

(** [deactivateProtocol(_protocol, _reason) external onlyOwner] *)
Definition deactivateProtocol (sender : address) (p reason : string)
    (s : State) : result State :=
  check onlyOwner (owner s) sender;
  check require (active (yield_of s p)) "Protocol already inactive";
  let d := yield_of s p in
  let s1 := mkState
              (<[p := mkYieldData (protocol d) (apy d) (tvl d) (riskScore d)
                                  (timestamp d) false]> (protocolYields s))
              (yieldHistory s) (authorizedUpdaters s)
              (supportedProtocols s) (paused s) (owner s) (events s) in
  Ok (emit s1 (ProtocolDeactivated p reason)).

(** [authorizeUpdater(_updater, _authorized) external onlyOwner] *)
Definition authorizeUpdater (sender : address) (updater : address)
    (authorized : bool) (s : State) : result State :=
  check onlyOwner (owner s) sender;
  let s1 := mkState (protocolYields s) (yieldHistory s)
              (<[updater := authorized]> (authorizedUpdaters s))
              (supportedProtocols s) (paused s) (owner s) (events s) in
  Ok (emit s1 (UpdaterAuthorized updater authorized)).


(** [getProtocolYield(_protocol) external view] *)
Definition getProtocolYield (s : State) (p : string)
    : Z * Z * Z * Z * bool :=
  let data := yield_of s p in
  (apy data, tvl data, riskScore data, timestamp data, active data).

(** [isDataFresh(_protocol) external view] *)
Definition isDataFresh (now : Z) (s : State) (p : string) : result bool :=
  do stale <- _isStaleData now (timestamp (yield_of s p));
  Ok (negb stale).

(** [getSupportedProtocols()] and [getTotalManagedProtocols()]. *)
Definition getSupportedProtocols (s : State) : list string :=
  supportedProtocols s.

Definition getTotalManagedProtocols (s : State) : Z :=
  Z.of_nat (length (supportedProtocols s)).

(** The loop of [_getActiveProtocolCount]. *)
Fixpoint active_count (s : State) (names : list string) (count : Z)
    : result Z :=
  match names with
  | [] => Ok count
  | name :: rest =>
      if active (yield_of s name)
      then do next <- checked_add count 1; active_count s rest next
      else active_count s rest count
  end.

(** [_getActiveProtocolCount() internal view] *)
Definition _getActiveProtocolCount (s : State) : result Z :=
  active_count s (supportedProtocols s) 0.

(** [a[i] = x] on a memory array: a panic out of bounds. *)
Definition INDEX_PANIC : Z := 50.   (* 0x32 *)

Definition array_set {A : Type} (a : list A) (i : Z) (x : A)
    : result (list A) :=
  if (0 <=? i) && (i <? Z.of_nat (length a))
  then Ok (<[Z.to_nat i := x]> a)
  else Revert (Panic INDEX_PANIC).

(** The second loop of [getAllActiveYields]; the three memory arrays are
    [(protocols, apys, riskScores)]. *)
Fixpoint fill_active (now : Z) (s : State) (names : list string)
    (arrays : list string * list Z * list Z) (index : Z)
    : result (list string * list Z * list Z) :=
  match names with
  | [] => Ok arrays
  | name :: rest =>
      let data := yield_of s name in
      if active data then
        do stale <- _isStaleData now (timestamp data);
        if negb stale then
          let '(protocols, apys, riskScores) := arrays in
          do protocols1 <- array_set protocols index name;
          do apys1 <- array_set apys index (apy data);
          do riskScores1 <- array_set riskScores index (riskScore data);
          do next <- checked_add index 1;
          fill_active now s rest (protocols1, apys1, riskScores1) next
        else fill_active now s rest arrays index
      else fill_active now s rest arrays index
  end.

(** [getAllActiveYields() external view]: the arrays are allocated with
    one slot per active venue and filled with the active venues that are
    not stale. *)
Definition getAllActiveYields (now : Z) (s : State)
    : result (list string * list Z * list Z) :=
  do activeCount <- _getActiveProtocolCount s;
  let n := Z.to_nat activeCount in
  fill_active now s (supportedProtocols s)
    (replicate n "", replicate n 0, replicate n 0) 0.

(** [uint8] addition, checked. *)
Definition checked_add8 (a b : Z) : result Z :=
  if a + b <=? 255 then Ok (a + b) else Revert (Panic ARITHMETIC_PANIC).

(** [(data.apy * 10) / (data.riskScore + 1)] *)
Definition adjusted_yield (data : YieldData) : result Z :=
  do scaled <- checked_mul (apy data) 10;
  do divisor <- checked_add8 (riskScore data) 1;
  checked_div scaled divisor.

(** [compareProtocols(_protocol1, _protocol2) external view] *)
Definition compareProtocols (now : Z) (s : State) (p1 p2 : string)
    : result (string * Z) :=
  let data1 := yield_of s p1 in
  let data2 := yield_of s p2 in
  check require (active data1 && active data2)
                "One or both protocols inactive";
  do stale1 <- _isStaleData now (timestamp data1);
  do fresh <-
    (if negb stale1
     then do stale2 <- _isStaleData now (timestamp data2); Ok (negb stale2)
     else Ok false);
  check require fresh "Stale data";
  do adjustedYield1 <- adjusted_yield data1;
  do adjustedYield2 <- adjusted_yield data2;
  if adjustedYield2 <? adjustedYield1
  then
    do difference <-
      (if apy data2 <? apy data1
       then checked_sub (apy data1) (apy data2) else Ok 0);
    Ok (p1, difference)
  else
    do difference <-
      (if apy data1 <? apy data2
       then checked_sub (apy data2) (apy data1) else Ok 0);
    Ok (p2, difference).

(** [pause()] / [unpause()], owner only; the inherited [Paused] and
    [Unpaused] events are not logged. *)
Definition pause (sender : address) (s : State) : result State :=
  check onlyOwner (owner s) sender;
  check whenNotPaused (paused s);
  Ok (mkState (protocolYields s) (yieldHistory s) (authorizedUpdaters s)
              (supportedProtocols s) true (owner s) (events s)).

Definition unpause (sender : address) (s : State) : result State :=
  check onlyOwner (owner s) sender;
  check require (paused s) "Pausable: not paused";
  Ok (mkState (protocolYields s) (yieldHistory s) (authorizedUpdaters s)
              (supportedProtocols s) false (owner s) (events s)).

End YieldOracle.

(** * RebalancingEngine *)

Module RebalancingEngine.

Record RebalanceRequest : Type := mkRequest {
  user : address;
  fromProtocol : string;
  toProtocol : string;
  amount : Z;
  expectedYield : Z;
  estimatedGas : Z;
  timestamp : Z;
  executed : bool;
  cancelled : bool
}.

Record OptimizationMetrics : Type := mkMetrics {
  totalRebalances : Z;
  totalProfitGenerated : Z;
  totalGasSaved : Z;
  averageYieldImprovement : Z;
  lastOptimizationRun : Z
}.

Definition zeroRequest : RebalanceRequest :=
  mkRequest 0 "" "" 0 0 0 0 false false.

Inductive Event : Type :=
| RebalanceRequested (requestId : Z) (user : address)
    (fromProtocol toProtocol : string) (expectedYield : Z)
| RebalanceExecuted (requestId : Z) (user : address)
    (fromProtocol toProtocol : string) (amount actualYield profit : Z)
| RebalanceCancelled (requestId : Z) (reason : string)
| AIEngineAuthorized (aiEngine : address) (authorized : bool)
| OptimizationCompleted (usersOptimized totalProfit : Z).

(** The engine's own storage; [self] is [address(this)]. *)
Record State : Type := mkState {
  rebalanceRequests : gmap Z RebalanceRequest;
  userRebalanceHistory : gmap Z (list Z);
  authorizedAIEngines : gmap Z bool;
  metrics : OptimizationMetrics;
  requestCounter : Z;
  paused : bool;
  owner : address;
  self : address;
  events : list Event
}.

(** The engine together with the two contracts it calls. *)
Record World : Type := mkWorld {
  engine : State;
  manager : PortfolioManager.State;
  oracle : YieldOracle.State
}.

Definition MIN_PROFIT_THRESHOLD : Z := 100.
Definition MAX_GAS_COST : Z := 2 * ether / 100.     (* 0.02 ether *)
Definition PROFIT_MARGIN_REQUIREMENT : Z := 1150.
Definition REBALANCE_COOLDOWN : Z := 3600.          (* 1 hours *)
Definition BATCH_MIN_TVL : Z := 50000000 * ether.   (* 50000000 * 1e18 *)

(** The three states of a request, read off its two flags. *)
Inductive Status : Type := Pending | Executed | Cancelled.

Definition status (r : RebalanceRequest) : Status :=
  if executed r then Executed
  else if cancelled r then Cancelled
  else Pending.

Definition request_of (e : State) (id : Z) : RebalanceRequest :=
  default zeroRequest (rebalanceRequests e !! id).

Definition history_of (e : State) (u : address) : list Z :=
  default [] (userRebalanceHistory e !! u).

Definition is_ai_engine (e : State) (a : address) : bool :=
  default false (authorizedAIEngines e !! a).

Definition set_request (e : State) (id : Z) (r : RebalanceRequest) : State :=
  mkState (<[id := r]> (rebalanceRequests e)) (userRebalanceHistory e)
          (authorizedAIEngines e) (metrics e) (requestCounter e)
          (paused e) (owner e) (self e) (events e).

Definition set_metrics (e : State) (m : OptimizationMetrics) : State :=
  mkState (rebalanceRequests e) (userRebalanceHistory e)
          (authorizedAIEngines e) m (requestCounter e)
          (paused e) (owner e) (self e) (events e).

Definition emit (e : State) (ev : Event) : State :=
  mkState (rebalanceRequests e) (userRebalanceHistory e)
          (authorizedAIEngines e) (metrics e) (requestCounter e)
          (paused e) (owner e) (self e) (events e ++ [ev]).

Definition with_executed (r : RebalanceRequest) (b : bool) : RebalanceRequest :=
  mkRequest (user r) (fromProtocol r) (toProtocol r) (amount r)
            (expectedYield r) (estimatedGas r) (timestamp r) b (cancelled r).

Definition with_cancelled (r : RebalanceRequest) (b : bool) : RebalanceRequest :=
  mkRequest (user r) (fromProtocol r) (toProtocol r) (amount r)
            (expectedYield r) (estimatedGas r) (timestamp r) (executed r) b.

(** [constructor]: the metrics' last run is the deployment time. *)
Definition deploy (now : Z) (deployer this : address) : State :=
  mkState ∅ ∅ ∅ (mkMetrics 0 0 0 0 now) 0 false deployer this [].

(** [modifier onlyAuthorizedAI] *)
Definition onlyAuthorizedAI (e : State) (sender : address) : result unit :=
  require (is_ai_engine e sender || (sender =? owner e))
          "Not authorized AI engine".

(** [modifier validRequest(_requestId)] *)
Definition validRequest (e : State) (id : Z) : result unit :=
  check require (id <? requestCounter e) "Invalid request ID";
  check require (negb (executed (request_of e id))) "Request already executed";
  require (negb (cancelled (request_of e id))) "Request cancelled".

(** [_isProfitableRebalance(...) internal pure] *)
Definition _isProfitableRebalance (u : address)
    (curYield newYield gasCost portfolioValue : Z) : result bool :=
  if newYield <=? curYield then Ok false
  else
    do yieldImprovement <- checked_sub newYield curYield;
    do product <- checked_mul portfolioValue yieldImprovement;
    do annualProfit <- checked_div product 10000;
    do margin <- checked_mul gasCost PROFIT_MARGIN_REQUIREMENT;
    do requiredProfit <- checked_div margin 1000;
    Ok (requiredProfit <=? annualProfit).

(** [_calculateProfit(...) internal pure] *)
Definition _calculateProfit (curYield newYield portfolioValue gasCost : Z)
    : result Z :=
  if newYield <=? curYield then Ok 0
  else
    do yieldImprovement <- checked_sub newYield curYield;
    do product <- checked_mul portfolioValue yieldImprovement;
    do annualProfit <- checked_div product 10000;
    if gasCost <? annualProfit then checked_sub annualProfit gasCost else Ok 0.

(** [_updateMetrics(RebalanceRequest storage _request, uint256 _oldYield)] *)
Definition _updateMetrics (e : State) (r : RebalanceRequest) (oldYield : Z)
    : result State :=
  let m := metrics e in
  do count <- checked_add (totalRebalances m) 1;
  do profit <- _calculateProfit oldYield (expectedYield r) (amount r)
                                (estimatedGas r);
  do generated <- checked_add (totalProfitGenerated m) profit;
  do yieldImprovement <-
    (if oldYield <? expectedYield r
     then checked_sub (expectedYield r) oldYield else Ok 0);
  do previous <- checked_sub count 1;
  do weighted <- checked_mul (averageYieldImprovement m) previous;
  do total <- checked_add weighted yieldImprovement;
  do average <- checked_div total count;
  Ok (set_metrics e (mkMetrics count generated (totalGasSaved m) average
                               (lastOptimizationRun m))).

(** [_mapRiskProfile(uint8 _portfolioRisk) internal pure] *)
Definition _mapRiskProfile (portfolioRisk : Z) : Z :=
  if portfolioRisk =? 1 then 3
  else if portfolioRisk =? 2 then 5
  else if portfolioRisk =? 3 then 8
  else 5.

(** [_estimateGasCost(_fromProtocol, _toProtocol) internal pure] *)
Definition _estimateGasCost (from to : string) : result Z :=
  let baseCost := 5 * ether / 1000 in
  do withCurve <-
    (if String.eqb from "Curve" || String.eqb to "Curve"
     then checked_add baseCost (3 * ether / 1000) else Ok baseCost);
  if String.eqb from "Yearn" || String.eqb to "Yearn"
  then checked_add withCurve (2 * ether / 1000) else Ok withCurve.

(** [requestRebalance(_user, _fromProtocol, _toProtocol, _expectedYield,
     _estimatedGas) external onlyAuthorizedAI whenNotPaused] *)
Definition requestRebalance (now : Z) (sender : address) (u : address)
    (from to : string) (newYield gas : Z) (w : World) : result (World * Z) :=
  let e := engine w in
  check onlyAuthorizedAI e sender;
  check whenNotPaused (paused e);
  check require (negb (u =? 0)) "Invalid user address";
  check require (gas <=? MAX_GAS_COST) "Gas cost too high";
  check require (0 <? Z.of_nat (String.length from)) "Empty from protocol";
  check require (0 <? Z.of_nat (String.length to)) "Empty to protocol";
  let p := PortfolioManager.getPortfolio (manager w) u in
  check require (PortfolioManager.autoRebalanceEnabled p)
                "Auto-rebalance disabled";
  check require (0 <? PortfolioManager.totalValue p) "Empty portfolio";
  check require (String.eqb (PortfolioManager.currentProtocol p) from)
                "From protocol mismatch";
  do profitable <-
    _isProfitableRebalance u (PortfolioManager.currentYield p) newYield gas
                           (PortfolioManager.totalValue p);
  check require profitable "Rebalancing not profitable";
  check (match last (history_of e u) with
         | Some lastRequestId =>
             do elapsed <-
               checked_sub now (timestamp (request_of e lastRequestId));
             require (REBALANCE_COOLDOWN <=? elapsed) "Cooldown period active"
         | None => Ok tt
         end);
  let requestId := requestCounter e in
  do next <- checked_add (requestCounter e) 1;
  let request := mkRequest u from to (PortfolioManager.totalValue p)
                           newYield gas now false false in
  let e1 := mkState (<[requestId := request]> (rebalanceRequests e))
              (<[u := history_of e u ++ [requestId]]> (userRebalanceHistory e))
              (authorizedAIEngines e) (metrics e) next
              (paused e) (owner e) (self e) (events e) in
  let e2 := emit e1 (RebalanceRequested requestId u from to newYield) in
  Ok (mkWorld e2 (manager w) (oracle w), requestId).

(** [executeRebalance(_requestId)
     external onlyAuthorizedAI nonReentrant validRequest whenNotPaused].
    The [try ... catch Error(string memory reason)] around the call into
    the PortfolioManager has one clause only: a revert with a reason
    string is caught, any other failure of the call propagates. *)
Definition executeRebalance (now : Z) (sender : address) (requestId : Z)
    (w : World) : result World :=
  let e := engine w in
  check onlyAuthorizedAI e sender;
  check validRequest e requestId;
  check whenNotPaused (paused e);
  let request := request_of e requestId in
  let p := PortfolioManager.getPortfolio (manager w) (user request) in
  let totalValue := PortfolioManager.totalValue p in
  let currentYield := PortfolioManager.currentYield p in
  check require (PortfolioManager.autoRebalanceEnabled p)
                "Auto-rebalance disabled";
  do profitable <-
    _isProfitableRebalance (user request) currentYield
      (expectedYield request) (estimatedGas request) totalValue;
  check require profitable "No longer profitable";
  match PortfolioManager.executeRebalance now (self e) (user request)
          (fromProtocol request) (toProtocol request)
          (expectedYield request) (estimatedGas request) (manager w) with
  | Ok manager' =>
      let done := with_executed request true in
      let e1 := set_request e requestId done in
      do e2 <- _updateMetrics e1 done currentYield;
      do profit <- _calculateProfit currentYield (expectedYield done)
                                    totalValue (estimatedGas done);
      let e3 := emit e2 (RebalanceExecuted requestId (user done)
                           (fromProtocol done) (toProtocol done)
                           (amount done) (expectedYield done) profit) in
      Ok (mkWorld e3 manager' (oracle w))
  | Revert (Error reason) =>
      let e1 := set_request e requestId (with_cancelled request true) in
      let e2 := emit e1 (RebalanceCancelled requestId reason) in
      Ok (mkWorld e2 (manager w) (oracle w))
  | Revert (Panic code) => Revert (Panic code)
  end.

(** [cancelRebalance(_requestId, _reason)
     external onlyAuthorizedAI validRequest] *)
Definition cancelRebalance (sender : address) (requestId : Z)
    (reason : string) (w : World) : result World :=
  let e := engine w in
  check onlyAuthorizedAI e sender;
  check validRequest e requestId;
  let e1 := set_request e requestId
              (with_cancelled (request_of e requestId) true) in
  Ok (mkWorld (emit e1 (RebalanceCancelled requestId reason))
              (manager w) (oracle w)).

(** [authorizeAIEngine(_aiEngine, _authorized) external onlyOwner] *)
Definition authorizeAIEngine (sender : address) (aiEngine : address)
    (authorized : bool) (w : World) : result World :=
  let e := engine w in
  check onlyOwner (owner e) sender;
  let e1 := mkState (rebalanceRequests e) (userRebalanceHistory e)
              (<[aiEngine := authorized]> (authorizedAIEngines e))
              (metrics e) (requestCounter e) (paused e) (owner e) (self e)
              (events e) in
  Ok (mkWorld (emit e1 (AIEngineAuthorized aiEngine authorized))
              (manager w) (oracle w)).

(** The loop of [batchOptimization].  [this.requestRebalance] and
    [this.executeRebalance] are external calls of the engine to itself:
    their [msg.sender] is [address(this)].  Only the first is the call
    guarded by [try ... catch { continue; }]; the second sits in the
    success block. *)
Fixpoint batch_loop (now : Z) (users : list address) (w : World)
    (optimizedCount totalProfit : Z) : result (World * Z * Z) :=
  match users with
  | [] => Ok (w, optimizedCount, totalProfit)
  | u :: rest =>
      let p := PortfolioManager.getPortfolio (manager w) u in
      let totalValue := PortfolioManager.totalValue p in
      let currentYield := PortfolioManager.currentYield p in
      let currentProtocol := PortfolioManager.currentProtocol p in
      let ceiling :=
        _mapRiskProfile
          (PortfolioManager.RiskProfile_to_uint8
             (PortfolioManager.riskProfile p)) in
      if negb (PortfolioManager.autoRebalanceEnabled p) || (totalValue =? 0)
      then batch_loop now rest w optimizedCount totalProfit
      else
        do best <- YieldOracle.getBestYieldForRisk now ceiling BATCH_MIN_TVL
                     (oracle w);
        let '(bestProtocol, bestYield, bestRiskScore) := best in
        if (0 <? Z.of_nat (String.length bestProtocol))
           && (currentYield <? bestYield) && (bestRiskScore <=? ceiling)
        then
          do gas <- _estimateGasCost currentProtocol bestProtocol;
          do profitable <-
            _isProfitableRebalance u currentYield bestYield gas totalValue;
          if profitable then
            match requestRebalance now (self (engine w)) u currentProtocol
                    bestProtocol bestYield gas w with
            | Ok (w1, requestId) =>
                do w2 <- executeRebalance now (self (engine w)) requestId w1;
                do count <- checked_add optimizedCount 1;
                do gain <- _calculateProfit currentYield bestYield
                                            totalValue gas;
                do profit <- checked_add totalProfit gain;
                batch_loop now rest w2 count profit
            | Revert _ => batch_loop now rest w optimizedCount totalProfit
            end
          else batch_loop now rest w optimizedCount totalProfit
        else batch_loop now rest w optimizedCount totalProfit
  end.

(** [batchOptimization(address[] calldata _users)
     external onlyAuthorizedAI whenNotPaused] *)
Definition batchOptimization (now : Z) (sender : address)
    (users : list address) (w : World) : result World :=
  check onlyAuthorizedAI (engine w) sender;
  check whenNotPaused (paused (engine w));
  do looped <- batch_loop now users w 0 0;
  let '(w1, optimizedCount, totalProfit) := looped in
  let e := engine w1 in
  let m := metrics e in
  let e1 := set_metrics e (mkMetrics (totalRebalances m)
              (totalProfitGenerated m) (totalGasSaved m)
              (averageYieldImprovement m) now) in
  Ok (mkWorld (emit e1 (OptimizationCompleted optimizedCount totalProfit))
              (manager w1) (oracle w1)).


(** [isProfitableRebalance(...) external view] *)
Definition isProfitableRebalance (u : address)
    (curYield newYield gasCost portfolioValue : Z) : result bool :=
  _isProfitableRebalance u curYield newYield gasCost portfolioValue.

(** [getRebalanceRequest(_requestId) external view] *)
Definition getRebalanceRequest (e : State) (id : Z)
    : result RebalanceRequest :=
  check require (id <? requestCounter e) "Invalid request ID";
  Ok (request_of e id).

(** [getUserRebalanceHistory(_user)] and [getOptimizationMetrics()]. *)
Definition getUserRebalanceHistory (e : State) (u : address) : list Z :=
  history_of e u.


Definition set_paused (e : State) (b : bool) : State :=
  mkState (rebalanceRequests e) (userRebalanceHistory e)
          (authorizedAIEngines e) (metrics e) (requestCounter e)
          b (owner e) (self e) (events e).

(** [pause()] / [unpause()], owner only; the inherited [Paused] and
    [Unpaused] events are not logged. *)
Definition pause (sender : address) (w : World) : result World :=
  let e := engine w in
  check onlyOwner (owner e) sender;
  check whenNotPaused (paused e);
  Ok (mkWorld (set_paused e true) (manager w) (oracle w)).

Definition unpause (sender : address) (w : World) : result World :=
  let e := engine w in
  check onlyOwner (owner e) sender;
  check require (paused e) "Pausable: not paused";
  Ok (mkWorld (set_paused e false) (manager w) (oracle w)).

End RebalancingEngine.

(** * Traces of the PortfolioManager *)

Module LedgerTrace.
Import PortfolioManager.

(** One external call into the PortfolioManager, arguments included. *)
Inductive Call : Type :=
| CreatePortfolio (now : Z) (sender : address) (value : Z) (rp : Z)
| DepositFunds (sender : address) (value : Z)
| WithdrawFunds (sender : address) (amount : Z) (transferred : bool)
| UpdateRiskProfile (sender : address) (newProfile : Z)
| ToggleAutoRebalance (sender : address)
| ExecuteRebalance (now : Z) (sender user : address)
    (fromProtocol toProtocol : string) (expectedYield gasCost : Z)
| AuthorizeRebalancer (sender aiEngine : address) (authorized : bool)
| Pause (sender : address)
| Unpause (sender : address).

Definition call (c : Call) (s : State) : result State :=
  match c with
  | CreatePortfolio now sender value rp => createPortfolio now sender value rp s
  | DepositFunds sender value => depositFunds sender value s
  | WithdrawFunds sender amount transferred =>
      withdrawFunds sender amount transferred s
  | UpdateRiskProfile sender newProfile => updateRiskProfile sender newProfile s
  | ToggleAutoRebalance sender => toggleAutoRebalance sender s
  | ExecuteRebalance now sender user from to y gas =>
      executeRebalance now sender user from to y gas s
  | AuthorizeRebalancer sender aiEngine authorized =>
      authorizeRebalancer sender aiEngine authorized s
  | Pause sender => pause sender s
  | Unpause sender => unpause sender s
  end.

(** A reverted call leaves the state as it was. *)
Definition step (s : State) (c : Call) : State :=
  match call c s with
  | Ok s' => s'
  | Revert _ => s
  end.

Fixpoint run (cs : list Call) (s : State) : State :=
  match cs with
  | [] => s
  | c :: rest => run rest (step s c)
  end.

(** Sum of [f] over the calls of the trace that succeeded. *)
Fixpoint tally (f : Call -> Z) (cs : list Call) (s : State) : Z :=
  match cs with
  | [] => 0
  | c :: rest =>
      (if succeeded (call c s) then f c else 0) + tally f rest (step s c)
  end.

Definition created (who : address) (c : Call) : Z :=
  match c with
  | CreatePortfolio _ sender value _ => if sender =? who then value else 0
  | _ => 0
  end.

Definition deposited (who : address) (c : Call) : Z :=
  match c with
  | DepositFunds sender value => if sender =? who then value else 0
  | _ => 0
  end.

Definition withdrawn (who : address) (c : Call) : Z :=
  match c with
  | WithdrawFunds sender amount _ => if sender =? who then amount else 0
  | _ => 0
  end.

End LedgerTrace.

(** * The properties of the specification, as predicates *)

Module Claims.

(** The profitability rule of the specification over unbounded integers. *)
Definition profitable (p : PortfolioManager.Portfolio) (newYield cost : Z)
    : Prop :=
  newYield > PortfolioManager.currentYield p
             + PortfolioManager.MIN_YIELD_IMPROVEMENT
  /\ PortfolioManager.totalValue p
       * (newYield - PortfolioManager.currentYield p) / 10000
     >= cost * 115 / 100.

(** No intermediate result of the rule leaves the 256-bit range. *)
Definition fits (p : PortfolioManager.Portfolio) (newYield cost : Z) : Prop :=
  PortfolioManager.currentYield p + PortfolioManager.MIN_YIELD_IMPROVEMENT
    <= MAX_UINT256
  /\ (newYield > PortfolioManager.currentYield p
                 + PortfolioManager.MIN_YIELD_IMPROVEMENT ->
      PortfolioManager.totalValue p
        * (newYield - PortfolioManager.currentYield p) <= MAX_UINT256
      /\ cost * 115 <= MAX_UINT256).

(** A record that [getBestYieldForRisk] may select, its yield apart:
    active, within the risk ceiling, liquid enough and not stale. *)
Definition eligible (now maxRisk minTvl : Z) (d : YieldOracle.YieldData)
    : Prop :=
  YieldOracle.active d = true
  /\ YieldOracle.riskScore d <= maxRisk
  /\ minTvl <= YieldOracle.tvl d
  /\ now - YieldOracle.timestamp d <= YieldOracle.MAX_STALENESS.

(** [name], at position [i] of [names], is the eligible venue of highest
    yield among [names], the earliest listed among equals. *)
Definition best_among (now maxRisk minTvl : Z) (s : YieldOracle.State)
    (names : list string) (i : nat) (name : string) : Prop :=
  names !! i = Some name
  /\ eligible now maxRisk minTvl (YieldOracle.yield_of s name)
  /\ forall (j : nat) (other : string),
       names !! j = Some other ->
       eligible now maxRisk minTvl (YieldOracle.yield_of s other) ->
       YieldOracle.apy (YieldOracle.yield_of s other)
         <= YieldOracle.apy (YieldOracle.yield_of s name)
       /\ (YieldOracle.apy (YieldOracle.yield_of s other)
             = YieldOracle.apy (YieldOracle.yield_of s name) -> (i <= j)%nat).

(** The answer standing for "none". *)
Definition none : string * Z * Z := ("", 0, 0).

(** What a scan of [names] answers: the best eligible venue when its
    yield is positive, "none" when no eligible venue has a positive
    yield. *)
Definition selection (now maxRisk minTvl : Z) (s : YieldOracle.State)
    (names : list string) (r : string * Z * Z) : Prop :=
  (exists (i : nat) (name : string),
      best_among now maxRisk minTvl s names i name
      /\ 0 < YieldOracle.apy (YieldOracle.yield_of s name)
      /\ r = (name, YieldOracle.apy (YieldOracle.yield_of s name),
              YieldOracle.riskScore (YieldOracle.yield_of s name)))
  \/ (r = none
      /\ forall (j : nat) (other : string),
           names !! j = Some other ->
           eligible now maxRisk minTvl (YieldOracle.yield_of s other) ->
           YieldOracle.apy (YieldOracle.yield_of s other) <= 0).

End Claims.

(** * The transfer of [withdrawFunds] and what its receiver may do *)

Module Reentry.
Import PortfolioManager LedgerTrace.

(** [depositFunds] and [withdrawFunds] are [nonReentrant]: called while a
    [withdrawFunds] is running they revert; no other function of the
    manager carries the guard. *)
Definition guarded (c : Call) : bool :=
  match c with
  | DepositFunds _ _ => true
  | WithdrawFunds _ _ _ => true
  | _ => false
  end.

(** A call that reaches the manager while [withdrawFunds] is running. *)
Definition nested_call (c : Call) (s : State) : result State :=
  if guarded c then Revert (Error "ReentrancyGuard: reentrant call")
  else call c s.

(** A nested call that reverts leaves the state as it was. *)
Definition nested_step (s : State) (c : Call) : State :=
  match nested_call c s with
  | Ok s' => s'
  | Revert _ => s
  end.

Fixpoint nested_run (inner : list Call) (s : State) : State :=
  match inner with
  | [] => s
  | c :: rest => nested_run rest (nested_step s c)
  end.

(** [withdrawFunds(uint256 amount)] together with the code run by the
    receiver of [msg.sender.call{value: amount}("")]: [inner] lists the
    calls that reach the manager during the transfer, by whatever sender,
    and [accepted] tells whether the receiver returns normally.  The new
    total is written before the transfer and the event is emitted after
    it.  [PortfolioManager.withdrawFunds] is the case of a receiver that
    makes no call into the manager. *)
Definition withdrawFunds (sender : address) (amount : Z)
    (inner : list Call) (accepted : bool) (s : State) : result State :=
  check whenNotPaused (paused s);
  check require (amount <=? totalValue (portfolio_of s sender))
                "Insufficient balance";
  check require (0 <? amount) "Amount must be greater than 0";
  do v <- SafeMath.sub (totalValue (portfolio_of s sender)) amount;
  let s1 := set_portfolio s sender
              (with_totalValue (portfolio_of s sender) v) in
  let s2 := nested_run inner s1 in
  check require accepted "Transfer failed";
  Ok (emit s2 (FundsWithdrawn sender amount)).

End Reentry.

(** * Traces of the YieldOracle, of the engine and of the three contracts *)

Module OracleTrace.
Import YieldOracle.

(** One external call into the YieldOracle at block time [now]. *)
Inductive Call : Type :=
| AddProtocol (sender : address) (p : string) (risk : Z)
| UpdateYield (sender : address) (p : string) (newApy newTvl newRisk : Z)
| DeactivateProtocol (sender : address) (p reason : string)
| AuthorizeUpdater (sender updater : address) (authorized : bool)
| Pause (sender : address)
| Unpause (sender : address).

Definition call (now : Z) (c : Call) (s : State) : result State :=
  match c with
  | AddProtocol sender p risk => addProtocol now sender p risk s
  | UpdateYield sender p newApy newTvl newRisk =>
      updateYield now sender p newApy newTvl newRisk s
  | DeactivateProtocol sender p reason => deactivateProtocol sender p reason s
  | AuthorizeUpdater sender updater authorized =>
      authorizeUpdater sender updater authorized s
  | Pause sender => pause sender s
  | Unpause sender => unpause sender s
  end.

(** The [msg.sender] of a call. *)
Definition sender_of (c : Call) : address :=
  match c with
  | AddProtocol sender _ _ => sender
  | UpdateYield sender _ _ _ _ => sender
  | DeactivateProtocol sender _ _ => sender
  | AuthorizeUpdater sender _ _ => sender
  | Pause sender => sender
  | Unpause sender => sender
  end.

Definition step (s : State) (tc : Z * Call) : State :=
  match call (fst tc) (snd tc) s with
  | Ok s' => s'
  | Revert _ => s
  end.

(** Runs timed calls in order; a reverted call leaves the state as it was. *)
Fixpoint run (cs : list (Z * Call)) (s : State) : State :=
  match cs with
  | [] => s
  | tc :: rest => run rest (step s tc)
  end.

(** Block times never decrease: every call happens at or after [t]. *)
Fixpoint chronological (t : Z) (cs : list (Z * Call)) : Prop :=
  match cs with
  | [] => True
  | tc :: rest => t <= fst tc /\ chronological (fst tc) rest
  end.

(** The time of the last call, [t] for an empty trace. *)
Fixpoint last_time (t : Z) (cs : list (Z * Call)) : Z :=
  match cs with
  | [] => t
  | tc :: rest => last_time (fst tc) rest
  end.

End OracleTrace.

Module EngineTrace.
Import RebalancingEngine.

(** One external call into the RebalancingEngine. *)
Inductive Call : Type :=
| RequestRebalance (now : Z) (sender u : address) (from to : string)
    (newYield gas : Z)
| ExecuteRebalance (now : Z) (sender : address) (requestId : Z)
| CancelRebalance (sender : address) (requestId : Z) (reason : string)
| BatchOptimization (now : Z) (sender : address) (users : list address)
| AuthorizeAIEngine (sender aiEngine : address) (authorized : bool)
| Pause (sender : address)
| Unpause (sender : address).

Definition call (c : Call) (w : World) : result World :=
  match c with
  | RequestRebalance now sender u from to newYield gas =>
      do admitted <- requestRebalance now sender u from to newYield gas w;
      Ok (fst admitted)
  | ExecuteRebalance now sender requestId =>
      executeRebalance now sender requestId w
  | CancelRebalance sender requestId reason =>
      cancelRebalance sender requestId reason w
  | BatchOptimization now sender users => batchOptimization now sender users w
  | AuthorizeAIEngine sender aiEngine authorized =>
      authorizeAIEngine sender aiEngine authorized w
  | Pause sender => pause sender w
  | Unpause sender => unpause sender w
  end.

(** The [msg.sender] of a call. *)
Definition sender_of (c : Call) : address :=
  match c with
  | RequestRebalance _ sender _ _ _ _ _ => sender
  | ExecuteRebalance _ sender _ => sender
  | CancelRebalance sender _ _ => sender
  | BatchOptimization _ sender _ => sender
  | AuthorizeAIEngine sender _ _ => sender
  | Pause sender => sender
  | Unpause sender => sender
  end.

End EngineTrace.

Module Network.

(** The engine with its two references [portfolioManager] and
    [yieldOracle], and the PortfolioManager and YieldOracle contracts that
    are deployed, by address.  [RebalancingEngine.World] is the engine with
    the two contracts its references point to. *)
Record Net : Type := mkNet {
  engine : RebalancingEngine.State;
  portfolioManager : address;
  yieldOracle : address;
  managers : gmap Z PortfolioManager.State;
  oracles : gmap Z YieldOracle.State
}.

(** [constructor(address _portfolioManager, address _yieldOracle)] *)
Definition deploy (now : Z) (deployer this : address)
    (_portfolioManager _yieldOracle : address)
    (ms : gmap Z PortfolioManager.State) (os : gmap Z YieldOracle.State)
    : result Net :=
  check require (negb (_portfolioManager =? 0)) "Invalid portfolio manager";
  check require (negb (_yieldOracle =? 0)) "Invalid yield oracle";
  Ok (mkNet (RebalancingEngine.deploy now deployer this)
            _portfolioManager _yieldOracle ms os).

(** [setPortfolioManager(address _portfolioManager) external onlyOwner] *)
Definition setPortfolioManager (sender : address)
    (_portfolioManager : address) (n : Net) : result Net :=
  check onlyOwner (RebalancingEngine.owner (engine n)) sender;
  check require (negb (_portfolioManager =? 0)) "Invalid address";
  Ok (mkNet (engine n) _portfolioManager (yieldOracle n)
            (managers n) (oracles n)).

(** [setYieldOracle(address _yieldOracle) external onlyOwner] *)
Definition setYieldOracle (sender : address) (_yieldOracle : address)
    (n : Net) : result Net :=
  check onlyOwner (RebalancingEngine.owner (engine n)) sender;
  check require (negb (_yieldOracle =? 0)) "Invalid address";
  Ok (mkNet (engine n) (portfolioManager n) _yieldOracle
            (managers n) (oracles n)).

(** The entry points of the engine that change its state. *)
Inductive EngineCall : Type :=
| Plain (c : EngineTrace.Call)
| SetPortfolioManager (sender _portfolioManager : address)
| SetYieldOracle (sender _yieldOracle : address).

(** A reference may point to an address that holds no contract: every call
    made through it reverts.  The two states below stand for the missing
    contract in the calls that never reach it. *)
Definition absent_manager : PortfolioManager.State :=
  PortfolioManager.deploy 0.

Definition absent_oracle : YieldOracle.State :=
  YieldOracle.mkState ∅ ∅ ∅ [] false 0 [].

Definition absent {A : Type} (found : option A) : bool :=
  match found with
  | Some _ => false
  | None => true
  end.

(** The users over which [batchOptimization] does [continue] right after
    reading their portfolio. *)
Definition skipped (m : PortfolioManager.State) (u : address) : bool :=
  let p := PortfolioManager.getPortfolio m u in
  negb (PortfolioManager.autoRebalanceEnabled p)
  || (PortfolioManager.totalValue p =? 0).

(** Whether [c] cannot return without a call through [portfolioManager]:
    [requestRebalance] and [executeRebalance] read the user's portfolio
    after their own checks, [batchOptimization] reads the portfolio of its
    first user; the other functions make no external call. *)
Definition reaches_manager (c : EngineTrace.Call) : bool :=
  match c with
  | EngineTrace.RequestRebalance _ _ _ _ _ _ _ => true
  | EngineTrace.ExecuteRebalance _ _ _ => true
  | EngineTrace.BatchOptimization _ _ users =>
      match users with
      | [] => false
      | _ :: _ => true
      end
  | _ => false
  end.

(** Whether [c] cannot return without a call through [yieldOracle], the
    manager being [m]: [batchOptimization] queries the oracle for the
    first user it does not skip, and nothing else calls the oracle. *)
Definition reaches_oracle (m : PortfolioManager.State)
    (c : EngineTrace.Call) : bool :=
  match c with
  | EngineTrace.BatchOptimization _ _ users => negb (forallb (skipped m) users)
  | _ => false
  end.

(** A call of the engine, run on the contracts its references point to;
    [None] is a revert.  The contracts called are written back under the
    addresses they were found at. *)
Definition plain_call (c : EngineTrace.Call) (n : Net) : option Net :=
  let found_manager := managers n !! portfolioManager n in
  let found_oracle := oracles n !! yieldOracle n in
  let m := default absent_manager found_manager in
  let o := default absent_oracle found_oracle in
  if (absent found_manager && reaches_manager c)
     || (absent found_oracle && reaches_oracle m c)
  then None
  else
    match EngineTrace.call c (RebalancingEngine.mkWorld (engine n) m o) with
    | Ok w' =>
        Some (mkNet (RebalancingEngine.engine w')
                (portfolioManager n) (yieldOracle n)
                (if absent found_manager then managers n
                 else <[portfolioManager n := RebalancingEngine.manager w']>
                        (managers n))
                (if absent found_oracle then oracles n
                 else <[yieldOracle n := RebalancingEngine.oracle w']>
                        (oracles n)))
    | Revert _ => None
    end.

Definition returned {A : Type} (r : result A) : option A :=
  match r with
  | Ok a => Some a
  | Revert _ => None
  end.

Definition engine_call (c : EngineCall) (n : Net) : option Net :=
  match c with
  | Plain c => plain_call c n
  | SetPortfolioManager sender _portfolioManager =>
      returned (setPortfolioManager sender _portfolioManager n)
  | SetYieldOracle sender _yieldOracle =>
      returned (setYieldOracle sender _yieldOracle n)
  end.

(** A call into any contract of the network, or the deployment of a new
    PortfolioManager or YieldOracle at an address that holds none. *)
Inductive Call : Type :=
| Engine (c : EngineCall)
| Manager (target : address) (c : LedgerTrace.Call)
| Oracle (target : address) (now : Z) (c : OracleTrace.Call)
| NewManager (target deployer : address)
| NewOracle (target : address) (now : Z) (deployer : address).

Definition unused (target : address) (n : Net) : bool :=
  absent (managers n !! target) && absent (oracles n !! target)
  && negb (target =? RebalancingEngine.self (engine n)).

Definition call (c : Call) (n : Net) : option Net :=
  match c with
  | Engine c => engine_call c n
  | Manager target c =>
      match managers n !! target with
      | Some m =>
          match LedgerTrace.call c m with
          | Ok m' =>
              Some (mkNet (engine n) (portfolioManager n) (yieldOracle n)
                          (<[target := m']> (managers n)) (oracles n))
          | Revert _ => None
          end
      | None => None
      end
  | Oracle target now c =>
      match oracles n !! target with
      | Some o =>
          match OracleTrace.call now c o with
          | Ok o' =>
              Some (mkNet (engine n) (portfolioManager n) (yieldOracle n)
                          (managers n) (<[target := o']> (oracles n)))
          | Revert _ => None
          end
      | None => None
      end
  | NewManager target deployer =>
      if unused target n
      then Some (mkNet (engine n) (portfolioManager n) (yieldOracle n)
                       (<[target := PortfolioManager.deploy deployer]>
                          (managers n))
                       (oracles n))
      else None
  | NewOracle target now deployer =>
      if unused target n
      then
        match YieldOracle.deploy now deployer with
        | Ok o =>
            Some (mkNet (engine n) (portfolioManager n) (yieldOracle n)
                        (managers n) (<[target := o]> (oracles n)))
        | Revert _ => None
        end
      else None
  end.

(** A reverted call leaves the network as it was. *)
Definition step (n : Net) (c : Call) : Net :=
  match call c n with
  | Some n' => n'
  | None => n
  end.

Fixpoint run (cs : list Call) (n : Net) : Net :=
  match cs with
  | [] => n
  | c :: rest => run rest (step n c)
  end.

End Network.

(** * Invariants of the stored data *)

Module Invariants.

(** A yield record as the oracle's own checks leave it. *)
Definition record_ok (name : string) (d : YieldOracle.YieldData) : Prop :=
  YieldOracle.protocol d = name
  /\ name <> ""
  /\ 1 <= YieldOracle.riskScore d <= 10
  /\ YieldOracle.apy d <= 50000
  /\ (YieldOracle.tvl d = 0
      \/ YieldOracle.MIN_TVL_THRESHOLD <= YieldOracle.tvl d).

(** Every stored record is well formed and not from the future, the
    venues listed are exactly those with a record, and only venues with a
    record have a history. *)
Definition oracle_ok (now : Z) (s : YieldOracle.State) : Prop :=
  (forall name d,
      YieldOracle.protocolYields s !! name = Some d ->
      record_ok name d /\ YieldOracle.timestamp d <= now)
  /\ (forall name,
        name ∈ YieldOracle.supportedProtocols s
        <-> is_Some (YieldOracle.protocolYields s !! name))
  /\ (forall name,
        YieldOracle.history_of s name <> [] ->
        is_Some (YieldOracle.protocolYields s !! name)).




(** What the engine leaves alone in the manager: the pause flag and, for
    every user, the funds, the risk profile and the opt-in flag; the
    portfolio of a user who opted out or holds nothing is left as it is. *)
Definition funds_kept (m m' : PortfolioManager.State) : Prop :=
  PortfolioManager.paused m' = PortfolioManager.paused m
  /\ forall u,
       let p := PortfolioManager.portfolio_of m u in
       let p' := PortfolioManager.portfolio_of m' u in
       PortfolioManager.totalValue p' = PortfolioManager.totalValue p
       /\ PortfolioManager.riskProfile p' = PortfolioManager.riskProfile p
       /\ PortfolioManager.autoRebalanceEnabled p'
          = PortfolioManager.autoRebalanceEnabled p
       /\ (PortfolioManager.autoRebalanceEnabled p = false
           \/ PortfolioManager.totalValue p = 0 -> p' = p).

(** What a run of the batch loop does: [n] requests are admitted, all of
    them end cancelled, and nothing else changes, neither in the engine
    nor in the manager nor in the oracle. *)
Definition batch_effect (w : RebalancingEngine.World) (n : Z)
    (w' : RebalancingEngine.World) : Prop :=
  let e := RebalancingEngine.engine w in
  let e' := RebalancingEngine.engine w' in
  RebalancingEngine.manager w' = RebalancingEngine.manager w
  /\ RebalancingEngine.oracle w' = RebalancingEngine.oracle w
  /\ 0 <= n
  /\ RebalancingEngine.requestCounter e'
     = RebalancingEngine.requestCounter e + n
  /\ (forall id,
        id < RebalancingEngine.requestCounter e ->
        RebalancingEngine.rebalanceRequests e' !! id
        = RebalancingEngine.rebalanceRequests e !! id)
  /\ (forall id,
        RebalancingEngine.requestCounter e <= id
          < RebalancingEngine.requestCounter e' ->
        RebalancingEngine.status (RebalancingEngine.request_of e' id)
        = RebalancingEngine.Cancelled)
  /\ RebalancingEngine.metrics e' = RebalancingEngine.metrics e
  /\ RebalancingEngine.paused e' = RebalancingEngine.paused e
  /\ RebalancingEngine.owner e' = RebalancingEngine.owner e
  /\ RebalancingEngine.self e' = RebalancingEngine.self e
  /\ RebalancingEngine.authorizedAIEngines e'
     = RebalancingEngine.authorizedAIEngines e.

(** [funds_kept] for every PortfolioManager of the network: each is still
    deployed, no new one appears, and one of which [self] is no authorised
    rebalancer is unchanged. *)
Definition managers_kept (self : address)
    (ms ms' : gmap Z PortfolioManager.State) : Prop :=
  forall a : address,
    match ms !! a, ms' !! a with
    | Some m, Some m' =>
        funds_kept m m'
        /\ (PortfolioManager.is_rebalancer m self = false -> m' = m)
    | None, None => True
    | _, _ => False
    end.



End Invariants.

(** * What the oracle's list views show *)

Module Views.
Import YieldOracle.

Definition is_active (s : State) (name : string) : bool :=
  active (yield_of s name).

(** Active and quoted at most [MAX_STALENESS] before [now]. *)
Definition is_fresh (now : Z) (s : State) (name : string) : bool :=
  active (yield_of s name)
  && (now - timestamp (yield_of s name) <=? MAX_STALENESS).

(** The entries of the venue list that are active, with repetitions. *)
Definition active_entries (s : State) : list string :=
  List.filter (is_active s) (supportedProtocols s).

(** The entries of the venue list that are active and fresh. *)
Definition fresh_entries (now : Z) (s : State) : list string :=
  List.filter (is_fresh now s) (supportedProtocols s).

(** The risk-adjusted yield [apy * 10 / (riskScore + 1)]. *)
Definition adjusted (d : YieldData) : Z :=
  apy d * 10 / (riskScore d + 1).

End Views.

(** * Who may change a portfolio *)

Module Access.
Import PortfolioManager LedgerTrace.

(** [c] is a call of [who] on their own portfolio. *)
Definition own_call (who : address) (c : Call) : Prop :=
  match c with
  | CreatePortfolio _ sender _ _ => sender = who
  | DepositFunds sender _ => sender = who
  | WithdrawFunds sender _ _ => sender = who
  | UpdateRiskProfile sender _ => sender = who
  | ToggleAutoRebalance sender => sender = who
  | _ => False
  end.

(** [c] is a rebalance of [who]'s portfolio sent by an authorised
    rebalancer. *)
Definition rebalance_of (s : State) (who : address) (c : Call) : Prop :=
  match c with
  | ExecuteRebalance _ sender user _ _ _ _ =>
      user = who /\ is_rebalancer s sender = true
  | _ => False
  end.

(** The cost argument of [c], a [uint256], is not negative. *)
Definition cost_is_uint (c : Call) : Prop :=
  match c with
  | ExecuteRebalance _ _ _ _ _ _ gasCost => 0 <= gasCost
  | _ => True
  end.


(** The engine calls open to an authorised AI engine. *)
Definition open_to_ai (c : EngineTrace.Call) : Prop :=
  match c with
  | EngineTrace.RequestRebalance _ _ _ _ _ _ _ => True
  | EngineTrace.ExecuteRebalance _ _ _ => True
  | EngineTrace.CancelRebalance _ _ _ => True
  | EngineTrace.BatchOptimization _ _ _ => True
  | _ => False
  end.


(** The oracle calls that go through while the oracle is paused. *)
Definition oracle_allowed_when_paused (c : OracleTrace.Call) : Prop :=
  match c with
  | OracleTrace.UpdateYield _ _ _ _ _ => False
  | OracleTrace.Pause _ => False
  | _ => True
  end.

End Access.

(** * Scenarios *)

Module Scenario.
Import RebalancingEngine.

Definition admin : address := 1.
Definition bot : address := 2.
Definition engineAddress : address := 100.
Definition alice : address := 11.
Definition bob : address := 12.
Definition carol : address := 13.

(** Lifting of calls into one contract to the world of three. *)
Definition on_manager
    (f : PortfolioManager.State -> result PortfolioManager.State)
    (w : World) : result World :=
  do m <- f (manager w);
  Ok (mkWorld (engine w) m (oracle w)).

Definition on_oracle (f : YieldOracle.State -> result YieldOracle.State)
    (w : World) : result World :=
  do o <- f (oracle w);
  Ok (mkWorld (engine w) (manager w) o).

(** Deployment at time 0 by [admin]; the engine is made a rebalancer of
    the manager, and both [bot] and the engine itself are authorised as
    AI engines (the latter is what lets [batchOptimization] call
    [this.requestRebalance]). *)
Definition deployed : result World :=
  do o <- YieldOracle.deploy 0 admin;
  let w0 := mkWorld (deploy 0 admin engineAddress)
                    (PortfolioManager.deploy admin) o in
  do w1 <- on_manager
             (PortfolioManager.authorizeRebalancer admin engineAddress true) w0;
  do w2 <- authorizeAIEngine admin bot true w1;
  authorizeAIEngine admin engineAddress true w2.

(** The four venues of the specification's example, written at time 100. *)
Definition quote (compoundApy : Z) (w0 : World) : result World :=
  do w1 <- on_oracle (YieldOracle.updateYield 100 admin "Aave" 320
                        (2500000000 * ether) 2) w0;
  do w2 <- on_oracle (YieldOracle.updateYield 100 admin "Compound" compoundApy
                        (1800000000 * ether) 2) w1;
  do w3 <- on_oracle (YieldOracle.updateYield 100 admin "Curve" 540
                        (850000000 * ether) 3) w2;
  on_oracle (YieldOracle.updateYield 100 admin "Uniswap" 420
               (420000000 * ether) 4) w3.

Definition quoted : result World :=
  do w0 <- deployed;
  quote 780 w0.

(** Three portfolios opened at time 150: alice and carol hold [stake],
    bob the minimum deposit. *)
Definition fund (stake : Z) (w0 : World) : result World :=
  do w1 <- on_manager (PortfolioManager.createPortfolio 150 alice stake 1) w0;
  do w2 <- on_manager
             (PortfolioManager.createPortfolio 150 bob
                PortfolioManager.MIN_DEPOSIT 1) w1;
  on_manager (PortfolioManager.createPortfolio 150 carol stake 1) w2.

Definition funded : result World :=
  do w0 <- quoted;
  fund ether w0.

(** Compound alone quoted, at 350 bp, thirty above the portfolios'
    320 bp, and stakes of ten ether. *)
Definition marginal : result World :=
  do w0 <- deployed;
  do w1 <- on_oracle (YieldOracle.updateYield 100 admin "Compound" 350
                        (1800000000 * ether) 2) w0;
  fund (10 * ether) w1.

(** Uniswap alone quoted, at 335 bp and risk 4, and alice a conservative
    holder of ten ether. *)
Definition conservative : result World :=
  do w0 <- deployed;
  do w1 <- on_oracle (YieldOracle.updateYield 100 admin "Uniswap" 335
                        (420000000 * ether) 4) w0;
  on_manager (PortfolioManager.createPortfolio 150 alice (10 * ether) 0) w1.

(** The quotes of [quoted] refreshed at time 4000, Compound's excepted. *)
Definition aged : result World :=
  do w0 <- quoted;
  do w1 <- on_oracle (YieldOracle.updateYield 4000 admin "Aave" 320
                        (2500000000 * ether) 2) w0;
  do w2 <- on_oracle (YieldOracle.updateYield 4000 admin "Curve" 540
                        (850000000 * ether) 3) w1;
  on_oracle (YieldOracle.updateYield 4000 admin "Uniswap" 420
               (420000000 * ether) 4) w2.

(** A request for alice admitted at time 200 with a cost of 0.005 ether,
    after which she withdraws nine tenths of her stake. *)
Definition admitted : result (World * Z) :=
  do w0 <- funded;
  requestRebalance 200 bot alice "Aave" "Compound" 780 (5 * ether / 1000) w0.

Definition moved : result World :=
  do a <- admitted;
  on_manager (PortfolioManager.withdrawFunds alice (9 * ether / 10) true)
             (fst a).

(** A request admitted at no cost, hence one the manager can apply. *)
Definition costless : result (World * Z) :=
  do w0 <- funded;
  requestRebalance 200 bot alice "Aave" "Compound" 780 0 w0.

(** The manager alone, with alice's stake of one ether. *)
Definition ledger : result PortfolioManager.State :=
  do m0 <- PortfolioManager.authorizeRebalancer admin engineAddress true
             (PortfolioManager.deploy admin);
  PortfolioManager.createPortfolio 150 alice ether 1 m0.

(** Alice's portfolio drawn down to 10000 units at 320 bp. *)
Definition small_ledger : result PortfolioManager.State :=
  do m0 <- PortfolioManager.createPortfolio 150 alice
             PortfolioManager.MIN_DEPOSIT 1 (PortfolioManager.deploy admin);
  PortfolioManager.withdrawFunds alice
    (PortfolioManager.MIN_DEPOSIT - 10000) true m0.

(** Alice's portfolio withdrawn in full after a change of profile. *)
Definition emptied : result PortfolioManager.State :=
  do m0 <- PortfolioManager.createPortfolio 150 alice ether 2
             (PortfolioManager.deploy admin);
  do m1 <- PortfolioManager.toggleAutoRebalance alice m0;
  PortfolioManager.withdrawFunds alice ether true m1.

(** The costless request executed at time 300, and the costly request
    cancelled by the bot. *)
Definition settled : result World :=
  do a <- costless;
  executeRebalance 300 bot (snd a) (fst a).

Definition called_off : result World :=
  do a <- admitted;
  cancelRebalance bot (snd a) "withdrawn by operator" (fst a).

(** [n] successive updates of Aave by the owner, one per second. *)
Fixpoint updates (n : nat) (s : YieldOracle.State) : result YieldOracle.State :=
  match n with
  | O => Ok s
  | S k =>
      do s1 <- updates k s;
      YieldOracle.updateYield (Z.of_nat n) admin "Aave" 320
        (2500000000 * ether) 2 s1
  end.

(** The oracle after deployment and four updates of Aave. *)
Definition archived : result YieldOracle.State :=
  do o <- YieldOracle.deploy 0 admin;
  updates 4 o.

(** A costless request towards a yield only thirty basis points higher:
    the engine admits it, the manager's own check will not. *)
Definition hopeful : result (World * Z) :=
  do w0 <- marginal;
  requestRebalance 200 bot alice "Aave" "Compound" 350 0 w0.


(** Two venues quoted at time 100: the riskier one pays more. *)
Definition market : list (Z * OracleTrace.Call) :=
  [ (100, OracleTrace.UpdateYield admin "Aave" 300 (2500000000 * ether) 2);
    (100, OracleTrace.UpdateYield admin "Curve" 350 (850000000 * ether) 9) ].

(** Two venues quoted at time 100 whose risk-adjusted yields are equal:
    300 * 10 / 3 = 400 * 10 / 4. *)
Definition level : list (Z * OracleTrace.Call) :=
  [ (100, OracleTrace.UpdateYield admin "Aave" 300 (2500000000 * ether) 2);
    (100, OracleTrace.UpdateYield admin "Curve" 400 (850000000 * ether) 3) ].

(** A request at a cost of 0.005 ether towards a yield only thirty basis
    points higher: the engine admits it, the manager will decline it. *)
Definition declined : result (World * Z) :=
  do w0 <- marginal;
  requestRebalance 200 bot alice "Aave" "Compound" 350 (5 * ether / 1000) w0.


(** The oracle paused by its owner right after deployment. *)
Definition silenced : result YieldOracle.State :=
  do o <- YieldOracle.deploy 0 admin;
  YieldOracle.pause admin o.





End Scenario.


(** * Verification *)

(** ** Reasoning about calls *)

Lemma bind_Ok {A B : Type} (m : result A) (k : A -> result B) (b : B) :
  bind m k = Ok b -> exists a, m = Ok a /\ k a = Ok b.
Proof. destruct m as [a|f]; simpl; intros H; [eauto | discriminate]. Qed.

Lemma require_Ok (cond : bool) (reason : string) (u : unit) :
  require cond reason = Ok u -> cond = true.
Proof. destruct cond; simpl; intros H; congruence. Qed.

Lemma whenNotPaused_Ok (paused : bool) (u : unit) :
  whenNotPaused paused = Ok u -> paused = false.
Proof. destruct paused; unfold whenNotPaused; simpl; intros H; congruence. Qed.

Lemma checked_add_Ok (a b c : Z) : checked_add a b = Ok c -> c = a + b.
Proof. unfold checked_add; destruct (_ <=? _); congruence. Qed.

Lemma checked_sub_Ok (a b c : Z) : checked_sub a b = Ok c -> c = a - b /\ b <= a.
Proof.
  unfold checked_sub; destruct (Z.leb_spec b a) as [Hle|Hlt]; intros Hr;
    [|discriminate].
  injection Hr as <-; auto.
Qed.

Lemma checked_mul_Ok (a b c : Z) : checked_mul a b = Ok c -> c = a * b.
Proof. unfold checked_mul; destruct (_ <=? _); congruence. Qed.

Lemma checked_div_Ok (a b c : Z) : checked_div a b = Ok c -> c = a / b.
Proof. unfold checked_div; destruct (_ =? _); congruence. Qed.

(** Decomposes a hypothesis [script = Ok x] into the successes of its steps. *)
Ltac step_Ok H :=
  let a := fresh "r" in
  let Ha := fresh "Hstep" in
  apply bind_Ok in H; destruct H as (a & Ha & H).

Ltac steps_Ok H := repeat step_Ok H.

(** Establishes a closed fact by evaluation, then restates it in terms of
    the results of the calls already named in the context. *)
Ltac observe H fact :=
  assert (H : fact) by (vm_compute; reflexivity);
  repeat (progress (repeat match goal with
                           | E : _ = Ok _ |- _ =>
                               tryif constr_eq E H then fail
                               else rewrite E in H
                           end;
                    cbn [bind] in H)).

(** Names the result [a] of [call], whose success is observed on the
    closed script [script] that ends with it. *)
Ltac run_as script call a H :=
  let Hs := fresh "Hsucceeded" in
  observe Hs (succeeded script = true);
  destruct call as [a|?] eqn:H;
    [clear Hs | try rewrite H in Hs; discriminate Hs].

(** Closes a goal that is an observed fact, or the equation under its [Ok]. *)
Ltac by_observing fact :=
  let H := fresh "Hobserved" in
  observe H fact;
  first [exact H | injection H as H; exact H].

(** ** PortfolioManager: the profitability rule *)

Section Profitability.
Import PortfolioManager Claims.

Variables (s : State) (user : address) (newYield cost : Z).
Local Abbreviation p := (portfolio_of s user).

Lemma checkRebalanceProfitability_unfold :
  checkRebalanceProfitability s user newYield cost =
    if currentYield p + MIN_YIELD_IMPROVEMENT <=? MAX_UINT256 then
      if newYield <=? currentYield p + MIN_YIELD_IMPROVEMENT then Ok false
      else if totalValue p * (newYield - currentYield p) <=? MAX_UINT256 then
        if cost * 115 <=? MAX_UINT256 then
          Ok (cost * 115 / 100
                <=? totalValue p * (newYield - currentYield p) / 10000)
        else Revert (Panic ARITHMETIC_PANIC)
      else Revert (Panic ARITHMETIC_PANIC)
    else Revert (Panic ARITHMETIC_PANIC).
Proof.
  unfold checkRebalanceProfitability, SafeMath.add, SafeMath.sub,
    SafeMath.mul, SafeMath.div, checked_add, checked_sub, checked_mul,
    checked_div, MIN_YIELD_IMPROVEMENT.
  destruct (Z.leb_spec (currentYield p + 50) MAX_UINT256); simpl; [|reflexivity].
  destruct (Z.leb_spec newYield (currentYield p + 50)); simpl; [reflexivity|].
  destruct (Z.leb_spec (currentYield p) newYield); [|lia]. simpl.
  destruct (_ <=? MAX_UINT256); simpl; [|reflexivity].
  destruct (_ <=? MAX_UINT256); reflexivity.
Qed.

Lemma checkRebalanceProfitability_true :
  checkRebalanceProfitability s user newYield cost = Ok true
  <-> fits p newYield cost /\ profitable p newYield cost.
Proof.
  rewrite checkRebalanceProfitability_unfold.
  unfold fits, profitable, MIN_YIELD_IMPROVEMENT.
  destruct (Z.leb_spec (currentYield p + 50) MAX_UINT256);
    [|split; [discriminate | lia]].
  destruct (Z.leb_spec newYield (currentYield p + 50));
    [split; [discriminate | lia]|].
  destruct (Z.leb_spec (totalValue p * (newYield - currentYield p)) MAX_UINT256);
    [|split; [discriminate | lia]].
  destruct (Z.leb_spec (cost * 115) MAX_UINT256);
    [|split; [discriminate | lia]].
  destruct (Z.leb_spec (cost * 115 / 100)
              (totalValue p * (newYield - currentYield p) / 10000)).
  - split; [intros _|reflexivity]. repeat split; auto; lia.
  - split; [discriminate|]. intros (_ & _ & Hc). lia.
Qed.

Lemma checkRebalanceProfitability_false :
  checkRebalanceProfitability s user newYield cost = Ok false
  <-> fits p newYield cost /\ ~ profitable p newYield cost.
Proof.
  rewrite checkRebalanceProfitability_unfold.
  unfold fits, profitable, MIN_YIELD_IMPROVEMENT.
  destruct (Z.leb_spec (currentYield p + 50) MAX_UINT256);
    [|split; [discriminate | lia]].
  destruct (Z.leb_spec newYield (currentYield p + 50)).
  { split; [intros _|reflexivity]. repeat split; auto; lia. }
  destruct (Z.leb_spec (totalValue p * (newYield - currentYield p)) MAX_UINT256);
    [|split; [discriminate | lia]].
  destruct (Z.leb_spec (cost * 115) MAX_UINT256);
    [|split; [discriminate | lia]].
  destruct (Z.leb_spec (cost * 115 / 100)
              (totalValue p * (newYield - currentYield p) / 10000)).
  - split; [discriminate|]. intros (_ & Hc). exfalso. apply Hc. lia.
  - split; [intros _|reflexivity]. repeat split; auto; lia.
Qed.

End Profitability.

Section ProfitabilityRevert.
Import PortfolioManager Claims.

Lemma checkRebalanceProfitability_revert (s : State) (user : address)
    (newYield cost : Z) :
  ~ fits (portfolio_of s user) newYield cost ->
  checkRebalanceProfitability s user newYield cost
    = Revert (Panic ARITHMETIC_PANIC).
Proof.
  intros Hfits. rewrite checkRebalanceProfitability_unfold.
  unfold fits, MIN_YIELD_IMPROVEMENT in *.
  destruct (Z.leb_spec (currentYield (portfolio_of s user) + 50) MAX_UINT256);
    [|reflexivity].
  destruct (Z.leb_spec newYield (currentYield (portfolio_of s user) + 50));
    [exfalso; apply Hfits; split; [assumption | lia]|].
  destruct (Z.leb_spec (totalValue (portfolio_of s user)
                        * (newYield - currentYield (portfolio_of s user)))
              MAX_UINT256); [|reflexivity].
  destruct (Z.leb_spec (cost * 115) MAX_UINT256); [|reflexivity].
  exfalso; apply Hfits; auto.
Qed.
End ProfitabilityRevert.

(** C3, as amended.  [checkRebalanceProfitability] is a view: it yields a
    boolean and no state, and its answer depends on the owner's portfolio
    only.  With [threshold = currentYield + MIN_YIELD_IMPROVEMENT] and
    [product = totalValue * (newYield - currentYield)]:
    - it answers [true] exactly when the rule of the specification holds
      and none of [threshold], [product] and [cost * 115] exceeds 256 bits;
    - it answers [false] exactly when [threshold] fits and either
      [newYield <= threshold], the call returning before it computes
      anything else, or [product] and [cost * 115] fit and
      [product / 10000 < cost * 115 / 100];
    - it reverts with an arithmetic panic exactly when [threshold] does not
      fit, or [newYield > threshold] and [product] or [cost * 115] does not
      fit.
    For a portfolio of 10000 at 320 bp and a new yield of 780 bp the answer
    is [true] at cost 3 and [false] at cost 500. *)
Theorem checkRebalanceProfitability_rule :
  forall (s : PortfolioManager.State) (user : address) (newYield cost : Z),
    let p := PortfolioManager.portfolio_of s user in
    let threshold :=
      PortfolioManager.currentYield p
      + PortfolioManager.MIN_YIELD_IMPROVEMENT in
    let product :=
      PortfolioManager.totalValue p
      * (newYield - PortfolioManager.currentYield p) in
    let answer :=
      PortfolioManager.checkRebalanceProfitability s user newYield cost in
    (answer = Ok true
     <-> Claims.fits p newYield cost /\ Claims.profitable p newYield cost)
    /\ (answer = Ok true
        <-> threshold <= MAX_UINT256 /\ threshold < newYield
            /\ product <= MAX_UINT256 /\ cost * 115 <= MAX_UINT256
            /\ cost * 115 / 100 <= product / 10000)
    /\ (answer = Ok false
        <-> threshold <= MAX_UINT256
            /\ (newYield <= threshold
                \/ (product <= MAX_UINT256 /\ cost * 115 <= MAX_UINT256
                    /\ product / 10000 < cost * 115 / 100)))
    /\ (answer = Revert (Panic ARITHMETIC_PANIC)
        <-> MAX_UINT256 < threshold
            \/ (threshold < newYield
                /\ (MAX_UINT256 < product \/ MAX_UINT256 < cost * 115)))
    /\ (forall s' : PortfolioManager.State,
          PortfolioManager.portfolio_of s' user = p ->
          PortfolioManager.checkRebalanceProfitability s' user newYield cost
          = answer)
    /\ (PortfolioManager.totalValue p = 10000 ->
        PortfolioManager.currentYield p = 320 ->
        PortfolioManager.checkRebalanceProfitability s user 780 3 = Ok true
        /\ PortfolioManager.checkRebalanceProfitability s user 780 500
           = Ok false).
Proof.
  intros s user newYield cost p threshold product answer.
  split; [apply checkRebalanceProfitability_true|].
  assert (Hcases :
    answer
    = if threshold <=? MAX_UINT256 then
        if newYield <=? threshold then Ok false
        else if product <=? MAX_UINT256 then
          if cost * 115 <=? MAX_UINT256
          then Ok (cost * 115 / 100 <=? product / 10000)
          else Revert (Panic ARITHMETIC_PANIC)
        else Revert (Panic ARITHMETIC_PANIC)
      else Revert (Panic ARITHMETIC_PANIC))
    by apply checkRebalanceProfitability_unfold.
  split; [|split; [|split; [|split]]].
  - rewrite Hcases.
    destruct (Z.leb_spec threshold MAX_UINT256);
      [|split; [discriminate | lia]].
    destruct (Z.leb_spec newYield threshold);
      [split; [discriminate | lia]|].
    destruct (Z.leb_spec product MAX_UINT256);
      [|split; [discriminate | lia]].
    destruct (Z.leb_spec (cost * 115) MAX_UINT256);
      [|split; [discriminate | lia]].
    destruct (Z.leb_spec (cost * 115 / 100) (product / 10000));
      split; try discriminate; try reflexivity; try lia.
  - rewrite Hcases.
    destruct (Z.leb_spec threshold MAX_UINT256);
      [|split; [discriminate | lia]].
    destruct (Z.leb_spec newYield threshold);
      [split; [intros _; split; [lia | by left] | reflexivity]|].
    destruct (Z.leb_spec product MAX_UINT256);
      [|split; [discriminate | lia]].
    destruct (Z.leb_spec (cost * 115) MAX_UINT256);
      [|split; [discriminate | lia]].
    destruct (Z.leb_spec (cost * 115 / 100) (product / 10000));
      split; try discriminate; try reflexivity; try lia.
  - rewrite Hcases.
    destruct (Z.leb_spec threshold MAX_UINT256);
      [|split; [intros _; by left | reflexivity]].
    destruct (Z.leb_spec newYield threshold);
      [split; [discriminate | lia]|].
    destruct (Z.leb_spec product MAX_UINT256);
      [|split; [intros _; right; split; [lia | by left] | reflexivity]].
    destruct (Z.leb_spec (cost * 115) MAX_UINT256);
      [|split; [intros _; right; split; [lia | by right] | reflexivity]].
    split; [discriminate | lia].
  - intros s' Hsame. subst answer.
    rewrite !checkRebalanceProfitability_unfold, Hsame. reflexivity.
  - intros Hvalue Hyield.
    rewrite !checkRebalanceProfitability_unfold.
    fold p. rewrite Hvalue, Hyield. split; reflexivity.
Qed.

(** The drawn-down portfolio of the scenario answers as the specification's
    scenarios A and B say; and for a new yield below the threshold the
    answer is [false] even at a cost whose margin does not fit 256 bits. *)
Lemma checkRebalanceProfitability_rule_witness :
  exists s : PortfolioManager.State,
    Scenario.small_ledger = Ok s
    /\ (PortfolioManager.checkRebalanceProfitability s Scenario.alice 780 3
        = Ok true
        /\ PortfolioManager.checkRebalanceProfitability s Scenario.alice 780
             500 = Ok false)
    /\ PortfolioManager.checkRebalanceProfitability s Scenario.alice 0
         (2 ^ 255) = Ok false.
Proof.
  eexists. split; [vm_compute; reflexivity|]. split.
  - apply (proj2 (proj2 (proj2 (proj2 (proj2
             (checkRebalanceProfitability_rule _ Scenario.alice 0 0))))));
      reflexivity.
  - apply (proj2 (proj1 (proj2 (proj2
             (checkRebalanceProfitability_rule _ Scenario.alice 0
                (2 ^ 255)))))).
    split; [|left]; apply Z.leb_le; vm_compute; reflexivity.
Defined.

(** C3 as stated fails on overflow: with a portfolio of 10000 at 320 bp,
    cost 0 and the largest 256-bit yield, the rule holds over the integers
    but the call reverts instead of returning [true]. *)
Lemma checkRebalanceProfitability_overflow :
  exists s : PortfolioManager.State,
    Scenario.small_ledger = Ok s
    /\ ~ (PortfolioManager.checkRebalanceProfitability s Scenario.alice
            MAX_UINT256 0 = Ok true
          <-> Claims.profitable
                (PortfolioManager.portfolio_of s Scenario.alice) MAX_UINT256 0).
Proof.
  eexists. split; [vm_compute; reflexivity|].
  intros [_ Hback].
  enough (Hrule : Claims.profitable
            (PortfolioManager.mkPortfolio 10000 320 "Aave"
               PortfolioManager.BALANCED true 150 0) MAX_UINT256 0)
    by discriminate (Hback Hrule).
  split; vm_compute; congruence.
Qed.

(** ** PortfolioManager: effect of each call on a portfolio *)

Section LedgerEffects.
Import PortfolioManager.

Lemma portfolio_of_set_eq (s : State) (u : address) (p : Portfolio) :
  portfolio_of (set_portfolio s u p) u = p.
Proof. unfold portfolio_of, set_portfolio; simpl. by rewrite lookup_insert_eq. Qed.

Lemma portfolio_of_set_ne (s : State) (u v : address) (p : Portfolio) :
  u <> v -> portfolio_of (set_portfolio s u p) v = portfolio_of s v.
Proof.
  intros Hne. unfold portfolio_of, set_portfolio; simpl.
  by rewrite lookup_insert_ne.
Qed.

Lemma portfolio_of_emit (s : State) (e : Event) (u : address) :
  portfolio_of (emit s e) u = portfolio_of s u.
Proof. reflexivity. Qed.

(** What a successful [executeRebalance] leaves behind: the venue, the
    yield and the timestamp are written, the position is kept, and the
    profit moves by [0 - gasCost] because the yield difference is taken
    after the yield has been overwritten. *)
Lemma executeRebalance_Ok (now : Z) (sender user : address)
    (from to : string) (y gas : Z) (s s' : State) :
  executeRebalance now sender user from to y gas s = Ok s' ->
  let p := portfolio_of s user in
  portfolio_of s' user
    = mkPortfolio (totalValue p) y to (riskProfile p)
        (autoRebalanceEnabled p) now (totalProfit p + (0 - gas))
  /\ gas <= 0
  /\ checkRebalanceProfitability s user y gas = Ok true
  /\ (forall other, other <> user ->
        portfolio_of s' other = portfolio_of s other)
  /\ paused s' = paused s.
Proof.
  intros H p. unfold executeRebalance in H.
  steps_Ok H.
  apply require_Ok in Hstep5. subst.
  rewrite !portfolio_of_set_eq in *.
  simpl in Hstep6, Hstep7, Hstep8, Hstep9, Hstep10.
  apply checked_sub_Ok in Hstep6 as [-> _].
  apply checked_mul_Ok in Hstep7 as ->.
  apply checked_div_Ok in Hstep8 as ->.
  apply checked_sub_Ok in Hstep9 as [-> Hgas].
  apply checked_add_Ok in Hstep10 as ->.
  injection H as <-.
  replace (y - y) with 0 in * by lia.
  rewrite Z.mul_0_r in *. change (0 / 10000) with 0 in *.
  repeat split; try assumption.
  - rewrite portfolio_of_emit, portfolio_of_set_eq. reflexivity.
  - intros other Hother. rewrite portfolio_of_emit.
    rewrite !portfolio_of_set_ne by congruence. reflexivity.
Qed.

(** The position of [who] after a successful call: what was there plus
    what the call paid in, minus what it paid out. *)
Lemma call_totalValue (who : address) (c : LedgerTrace.Call) (s s' : State) :
  LedgerTrace.call c s = Ok s' ->
  totalValue (portfolio_of s' who)
    = totalValue (portfolio_of s who) + LedgerTrace.created who c
      + LedgerTrace.deposited who c - LedgerTrace.withdrawn who c
  /\ (0 <= totalValue (portfolio_of s who) ->
      0 <= totalValue (portfolio_of s' who)).
Proof.
  destruct c; simpl; intros H.
  - (* createPortfolio *)
    unfold createPortfolio in H. steps_Ok H. injection H as <-.
    apply require_Ok in Hstep0, Hstep2.
    rewrite portfolio_of_emit.
    destruct (Z.eqb_spec sender who) as [->|Hne].
    + rewrite portfolio_of_set_eq; simpl. unfold MIN_DEPOSIT in Hstep0.
      assert (0 < ether / 100) by (vm_compute; reflexivity). lia.
    + rewrite portfolio_of_set_ne by assumption. lia.
  - (* depositFunds *)
    unfold depositFunds in H. steps_Ok H. injection H as <-.
    apply require_Ok in Hstep0, Hstep1.
    apply checked_add_Ok in Hstep2 as ->.
    rewrite portfolio_of_emit.
    destruct (Z.eqb_spec sender who) as [->|Hne].
    + rewrite portfolio_of_set_eq; simpl. lia.
    + rewrite portfolio_of_set_ne by assumption. lia.
  - (* withdrawFunds *)
    unfold withdrawFunds in H. steps_Ok H. injection H as <-.
    apply require_Ok in Hstep0, Hstep1.
    apply checked_sub_Ok in Hstep2 as [-> _].
    rewrite portfolio_of_emit.
    destruct (Z.eqb_spec sender who) as [->|Hne].
    + rewrite portfolio_of_set_eq; simpl. lia.
    + rewrite portfolio_of_set_ne by assumption. lia.
  - (* updateRiskProfile *)
    unfold updateRiskProfile in H. steps_Ok H. injection H as <-.
    rewrite portfolio_of_emit.
    destruct (Z.eq_dec sender who) as [->|Hne].
    + rewrite portfolio_of_set_eq; simpl. lia.
    + rewrite portfolio_of_set_ne by assumption. lia.
  - (* toggleAutoRebalance *)
    unfold toggleAutoRebalance in H. steps_Ok H. injection H as <-.
    rewrite portfolio_of_emit.
    destruct (Z.eq_dec sender who) as [->|Hne].
    + rewrite portfolio_of_set_eq; simpl. lia.
    + rewrite portfolio_of_set_ne by assumption. lia.
  - (* executeRebalance *)
    apply executeRebalance_Ok in H as (Hp & _ & _ & Hother & _).
    destruct (Z.eq_dec user who) as [->|Hne].
    + rewrite Hp; simpl. lia.
    + rewrite Hother by congruence. lia.
  - unfold authorizeRebalancer in H. steps_Ok H. injection H as <-.
    unfold portfolio_of; simpl. lia.
  - unfold pause in H. steps_Ok H. injection H as <-.
    unfold portfolio_of; simpl. lia.
  - unfold unpause in H. steps_Ok H. injection H as <-.
    unfold portfolio_of; simpl. lia.
Qed.

End LedgerEffects.

Section LedgerInvariant.
Import PortfolioManager LedgerTrace.

Lemma run_totalValue (who : address) (cs : list Call) :
  forall s : State,
    totalValue (portfolio_of (run cs s) who)
      = totalValue (portfolio_of s who) + tally (created who) cs s
        + tally (deposited who) cs s - tally (withdrawn who) cs s
    /\ (0 <= totalValue (portfolio_of s who) ->
        0 <= totalValue (portfolio_of (run cs s) who)).
Proof.
  induction cs as [|c rest IH]; intros s; simpl.
  - lia.
  - unfold step. destruct (call c s) as [s'|f] eqn:Hcall; simpl.
    + destruct (call_totalValue who c s s' Hcall) as [Heq Hpos].
      destruct (IH s') as [Heq' Hpos']. split; [lia | auto].
    + destruct (IH s) as [Heq' Hpos']. split; [lia | auto].
Qed.

Lemma withdrawFunds_insufficient (s : State) (who : address) (amount : Z)
    (transferred : bool) :
  totalValue (portfolio_of s who) < amount ->
  succeeded (withdrawFunds who amount transferred s) = false.
Proof.
  intros Hlt. unfold withdrawFunds, whenNotPaused.
  destruct (paused s); simpl; [reflexivity|].
  destruct (Z.leb_spec amount (totalValue (portfolio_of s who)));
    [lia | reflexivity].
Qed.

End LedgerInvariant.

(** C4.  After any sequence of calls into a freshly deployed
    PortfolioManager (those that revert change nothing), an owner's
    [totalValue] is the sum of the owner's initial deposits made by
    successful [createPortfolio] calls, plus the successful deposits, minus
    the successful withdrawals; it is never negative; a withdrawal of more
    than [totalValue] fails; a successful rebalance leaves [totalValue] as
    it was. *)
Theorem totalValue_is_deposits_minus_withdrawals :
  forall (deployer who : address) (cs : list LedgerTrace.Call),
    let s0 := PortfolioManager.deploy deployer in
    let s := LedgerTrace.run cs s0 in
    PortfolioManager.totalValue (PortfolioManager.portfolio_of s who)
      = LedgerTrace.tally (LedgerTrace.created who) cs s0
        + LedgerTrace.tally (LedgerTrace.deposited who) cs s0
        - LedgerTrace.tally (LedgerTrace.withdrawn who) cs s0
    /\ 0 <= PortfolioManager.totalValue (PortfolioManager.portfolio_of s who)
    /\ (forall (amount : Z) (transferred : bool),
          PortfolioManager.totalValue (PortfolioManager.portfolio_of s who)
            < amount ->
          succeeded (PortfolioManager.withdrawFunds who amount transferred s)
            = false)
    /\ (forall (now : Z) (sender : address) (from to : string) (y gas : Z)
               (s' : PortfolioManager.State),
          PortfolioManager.executeRebalance now sender who from to y gas s
            = Ok s' ->
          PortfolioManager.totalValue (PortfolioManager.portfolio_of s' who)
            = PortfolioManager.totalValue (PortfolioManager.portfolio_of s who)).
Proof.
  intros deployer who cs s0 s.
  destruct (run_totalValue who cs s0) as [Heq Hpos].
  assert (Hzero : PortfolioManager.totalValue
                    (PortfolioManager.portfolio_of s0 who) = 0) by reflexivity.
  repeat split.
  - subst s. lia.
  - apply Hpos. lia.
  - intros amount transferred. apply withdrawFunds_insufficient.
  - intros now sender from to y gas s' Hcall.
    apply executeRebalance_Ok in Hcall as (Hp & _). rewrite Hp. reflexivity.
Qed.

(** The accounting of C4 on a trace with a deposit, a rejected
    over-withdrawal, a withdrawal and a rebalance attempt. *)
Lemma totalValue_is_deposits_minus_withdrawals_witness :
  let cs := [ LedgerTrace.CreatePortfolio 150 Scenario.alice ether 1;
              LedgerTrace.DepositFunds Scenario.alice 500;
              LedgerTrace.WithdrawFunds Scenario.alice (2 * ether) true;
              LedgerTrace.WithdrawFunds Scenario.alice 200 true;
              LedgerTrace.AuthorizeRebalancer Scenario.admin
                Scenario.engineAddress true;
              LedgerTrace.ExecuteRebalance 300 Scenario.engineAddress
                Scenario.alice "Aave" "Compound" 780 0 ] in
  PortfolioManager.totalValue
    (PortfolioManager.portfolio_of
       (LedgerTrace.run cs (PortfolioManager.deploy Scenario.admin))
       Scenario.alice)
  = ether + 500 - 200.
Proof.
  intros cs.
  rewrite (proj1 (totalValue_is_deposits_minus_withdrawals
                    Scenario.admin Scenario.alice cs)).
  reflexivity.
Defined.

(** C1 fails on the code.  With alice holding one ether at 320 bp, a
    rebalance to 780 bp at cost 0 succeeds and writes the venue, the yield
    and the timestamp, but credits no profit at all, where the claim has
    [ether * (780 - 320) / 10000 - 0]; at cost 3, which the profitability
    check accepts, the call reverts with an arithmetic panic. *)
Theorem executeRebalance_credits_no_profit :
  exists s : PortfolioManager.State,
    Scenario.ledger = Ok s
    /\ PortfolioManager.portfolio_of s Scenario.alice
       = PortfolioManager.mkPortfolio ether 320 "Aave"
           PortfolioManager.BALANCED true 150 0
    /\ (exists s' : PortfolioManager.State,
          PortfolioManager.executeRebalance 300 Scenario.engineAddress
            Scenario.alice "Aave" "Compound" 780 0 s = Ok s'
          /\ PortfolioManager.portfolio_of s' Scenario.alice
             = PortfolioManager.mkPortfolio ether 780 "Compound"
                 PortfolioManager.BALANCED true 300 0)
    /\ ether * (780 - 320) / 10000 - 0 = 46000000000000000
    /\ PortfolioManager.checkRebalanceProfitability s Scenario.alice 780 3
       = Ok true
    /\ PortfolioManager.executeRebalance 300 Scenario.engineAddress
         Scenario.alice "Aave" "Compound" 780 3 s
       = Revert (Panic ARITHMETIC_PANIC).
Proof.
  eexists. split; [vm_compute; reflexivity|].
  split; [reflexivity|].
  split; [eexists; split; [vm_compute; reflexivity | reflexivity]|].
  repeat split; vm_compute; reflexivity.
Qed.

(** C10.  While the manager is not paused, an owner whose [totalValue] is 0
    is treated as having no portfolio: [depositFunds], [updateRiskProfile]
    (with a valid profile) and [toggleAutoRebalance] revert with
    "Portfolio does not exist", and [createPortfolio] with a sufficient
    deposit and a valid profile succeeds, leaving the initial venue, yield,
    flag and profit, the chosen profile and the new deposit. *)
Theorem zero_balance_portfolio_is_nonexistent :
  forall (s : PortfolioManager.State) (owner : address),
    PortfolioManager.paused s = false ->
    PortfolioManager.totalValue (PortfolioManager.portfolio_of s owner) = 0 ->
    (forall value : Z,
        PortfolioManager.depositFunds owner value s
        = Revert (Error "Portfolio does not exist"))
    /\ (forall newProfile : Z,
          newProfile <= 2 ->
          PortfolioManager.updateRiskProfile owner newProfile s
          = Revert (Error "Portfolio does not exist"))
    /\ PortfolioManager.toggleAutoRebalance owner s
       = Revert (Error "Portfolio does not exist")
    /\ (forall (now value rp : Z),
          PortfolioManager.MIN_DEPOSIT <= value ->
          0 <= rp <= 2 ->
          exists (profile : PortfolioManager.RiskProfile)
                 (s' : PortfolioManager.State),
            PortfolioManager.RiskProfile_of_uint8 rp = Ok profile
            /\ PortfolioManager.createPortfolio now owner value rp s = Ok s'
            /\ PortfolioManager.portfolio_of s' owner
               = PortfolioManager.mkPortfolio value 320 "Aave" profile true
                   now 0).
Proof.
  intros s owner Hpaused Hzero. repeat split.
  - intros value. unfold PortfolioManager.depositFunds.
    rewrite Hpaused, Hzero. reflexivity.
  - intros newProfile Hle. unfold PortfolioManager.updateRiskProfile.
    rewrite Hpaused, Hzero. simpl.
    destruct (Z.leb_spec newProfile 2); [reflexivity | lia].
  - unfold PortfolioManager.toggleAutoRebalance.
    rewrite Hpaused, Hzero. reflexivity.
  - intros now value rp Hvalue Hrp.
    unfold PortfolioManager.createPortfolio.
    rewrite Hpaused, Hzero.
    replace (PortfolioManager.MIN_DEPOSIT <=? value) with true
      by (symmetry; apply Z.leb_le; lia).
    replace (rp <=? 2) with true by (symmetry; apply Z.leb_le; lia).
    cbn [bind require whenNotPaused negb Z.eqb].
    assert (Hcases : rp = 0 \/ rp = 1 \/ rp = 2) by lia.
    destruct Hcases as [-> | [-> | ->]];
      cbn [bind PortfolioManager.RiskProfile_of_uint8 Z.eqb Pos.eqb];
      eexists; eexists; (split; [reflexivity|]);
      (split; [reflexivity|]);
      rewrite portfolio_of_emit, portfolio_of_set_eq; reflexivity.
Qed.

(** Alice's portfolio, once aggressive with auto-rebalance switched off and
    then withdrawn in full, rejects a deposit as nonexistent and is created
    anew with the initial settings. *)
Lemma zero_balance_portfolio_is_nonexistent_witness :
  exists s : PortfolioManager.State,
    Scenario.emptied = Ok s
    /\ PortfolioManager.portfolio_of s Scenario.alice
       = PortfolioManager.mkPortfolio 0 320 "Aave" PortfolioManager.AGGRESSIVE
           false 150 0
    /\ PortfolioManager.depositFunds Scenario.alice 5 s
       = Revert (Error "Portfolio does not exist")
    /\ exists (profile : PortfolioManager.RiskProfile)
              (s' : PortfolioManager.State),
         PortfolioManager.RiskProfile_of_uint8 0 = Ok profile
         /\ PortfolioManager.createPortfolio 900 Scenario.alice ether 0 s
            = Ok s'
         /\ PortfolioManager.portfolio_of s' Scenario.alice
            = PortfolioManager.mkPortfolio ether 320 "Aave" profile true 900 0.
Proof.
  eexists. split; [vm_compute; reflexivity|].
  split; [reflexivity|].
  match goal with
  | |- context [PortfolioManager.depositFunds _ _ ?s] =>
      destruct (zero_balance_portfolio_is_nonexistent s Scenario.alice
                  eq_refl eq_refl) as (Hdeposit & _ & _ & Hcreate)
  end.
  split; [apply Hdeposit|].
  apply Hcreate; [vm_compute; congruence | lia].
Defined.

(** ** RebalancingEngine: the risk ceiling *)

(** C6 fails on the code.  [_mapRiskProfile] tests its argument against 1,
    2 and 3 while the enum's ordinals are 0, 1 and 2: a Conservative
    profile gets ceiling 5 (not 3), a Balanced one 3 (not 5) and an
    Aggressive one 5 (not 8).  In the scenario a Conservative holder's
    batch run queries the registry with ceiling 5 and admits a request
    towards a venue of risk 4. *)
Theorem mapRiskProfile_shifted_by_one :
  RebalancingEngine._mapRiskProfile
    (PortfolioManager.RiskProfile_to_uint8 PortfolioManager.CONSERVATIVE) = 5
  /\ RebalancingEngine._mapRiskProfile
       (PortfolioManager.RiskProfile_to_uint8 PortfolioManager.BALANCED) = 3
  /\ RebalancingEngine._mapRiskProfile
       (PortfolioManager.RiskProfile_to_uint8 PortfolioManager.AGGRESSIVE) = 5
  /\ exists w w' : RebalancingEngine.World,
       Scenario.conservative = Ok w
       /\ PortfolioManager.riskProfile
            (PortfolioManager.portfolio_of (RebalancingEngine.manager w)
               Scenario.alice) = PortfolioManager.CONSERVATIVE
       /\ YieldOracle.riskScore
            (YieldOracle.yield_of (RebalancingEngine.oracle w) "Uniswap") = 4
       /\ RebalancingEngine.batchOptimization 200 Scenario.bot
            [Scenario.alice] w = Ok w'
       /\ RebalancingEngine.toProtocol
            (RebalancingEngine.request_of (RebalancingEngine.engine w') 0)
          = "Uniswap".
Proof.
  do 3 (split; [reflexivity|]).
  run_as Scenario.conservative Scenario.conservative w Hw.
  run_as constr:(do w <- Scenario.conservative;
                 RebalancingEngine.batchOptimization 200 Scenario.bot
                   [Scenario.alice] w)
         (RebalancingEngine.batchOptimization 200 Scenario.bot
            [Scenario.alice] w) w' Hbatch.
  exists w, w'. split; [reflexivity|].
  split.
  { by_observing
      constr:((do w <- Scenario.conservative;
        Ok (PortfolioManager.riskProfile
              (PortfolioManager.portfolio_of (RebalancingEngine.manager w)
                 Scenario.alice))) = Ok PortfolioManager.CONSERVATIVE). }
  split.
  { by_observing
      constr:((do w <- Scenario.conservative;
        Ok (YieldOracle.riskScore
              (YieldOracle.yield_of (RebalancingEngine.oracle w) "Uniswap")))
       = Ok 4). }
  split; [exact Hbatch|].
  by_observing
    constr:((do w <- Scenario.conservative;
      do w' <- RebalancingEngine.batchOptimization 200 Scenario.bot
                 [Scenario.alice] w;
      Ok (RebalancingEngine.toProtocol
            (RebalancingEngine.request_of (RebalancingEngine.engine w') 0)))
     = Ok "Uniswap").
Qed.

(** ** YieldOracle: the history of a venue *)

Section History.
Import YieldOracle.

Lemma omap_lookup_seq {A : Type} (l : list A) (n : nat) :
  (n <= length l)%nat -> omap (fun i => l !! i) (seq 0 n) = take n l.
Proof.
  induction n as [|n IH]; intros Hn.
  - reflexivity.
  - rewrite seq_S, omap_app, IH by lia. simpl.
    destruct (lookup_lt_is_Some_2 l n) as [x Hx]; [lia|].
    rewrite Hx. simpl. symmetry. by apply take_S_r.
Qed.

Lemma getYieldHistory_recent_first (s : State) (p : string) (limit : Z) :
  0 <= limit ->
  getYieldHistory s p limit
    = take (Z.to_nat limit) (reverse (history_of s p)).
Proof.
  intros Hlimit. unfold getYieldHistory.
  set (h := history_of s p).
  set (n := Z.to_nat (if limit <? Z.of_nat (length h) then limit
                      else Z.of_nat (length h))).
  assert (Hn : (n <= length h)%nat).
  { subst n. destruct (Z.ltb_spec limit (Z.of_nat (length h))); lia. }
  transitivity (omap (fun i => reverse h !! i) (seq 0 n)).
  - apply list_omap_ext, Forall_Forall2_diag, Forall_forall.
    intros i Hi. apply elem_of_seq in Hi.
    rewrite reverse_lookup by lia. f_equal. lia.
  - rewrite omap_lookup_seq by (rewrite length_reverse; lia).
    subst n. destruct (Z.ltb_spec limit (Z.of_nat (length h))).
    + reflexivity.
    + rewrite Nat2Z.id.
      rewrite !take_ge; [reflexivity | | ]; rewrite length_reverse; lia.
Qed.

Lemma updateYield_Ok (now : Z) (sender : address) (p : string)
    (newApy newTvl newRisk : Z) (s s' : State) :
  updateYield now sender p newApy newTvl newRisk s = Ok s' ->
  history_of s' p
    = history_of s p
      ++ [mkHistoricalYield (apy (yield_of s p)) (timestamp (yield_of s p))]
  /\ (forall q, q <> p -> history_of s' q = history_of s q)
  /\ yield_of s' p
     = mkYieldData (protocol (yield_of s p)) newApy newTvl newRisk now true
  /\ owner s' = owner s /\ paused s' = paused s.
Proof.
  unfold updateYield. intros H. steps_Ok H. injection H as <-.
  apply require_Ok in Hstep0.
  unfold history_of, yield_of in *; simpl.
  rewrite !lookup_insert_eq; simpl. rewrite Hstep0.
  repeat split; try reflexivity.
  intros q Hq. by rewrite lookup_insert_ne.
Qed.

Lemma updateYield_succeeds (now : Z) (sender : address) (p : string)
    (newApy newTvl newRisk : Z) (s : State) :
  (is_updater s sender || (sender =? owner s)) = true ->
  active (yield_of s p) = true ->
  paused s = false ->
  1 <= newRisk <= 10 -> newApy <= 50000 -> MIN_TVL_THRESHOLD <= newTvl ->
  exists s' : State,
    updateYield now sender p newApy newTvl newRisk s = Ok s'.
Proof.
  intros Hauth Hactive Hpaused Hrisk Hapy Htvl. unfold updateYield.
  rewrite Hauth, Hactive, Hpaused.
  replace ((1 <=? newRisk) && (newRisk <=? 10)) with true
    by (symmetry; apply andb_true_intro; split; apply Z.leb_le; lia).
  replace (newApy <=? 50000) with true by (symmetry; apply Z.leb_le; lia).
  replace (MIN_TVL_THRESHOLD <=? newTvl) with true
    by (symmetry; apply Z.leb_le; lia).
  cbn [bind require whenNotPaused negb]. eexists; reflexivity.
Qed.

(** [n] updates by the owner of an active venue all succeed and leave
    [n] more entries in its history. *)
Lemma updates_length (n : nat) (s : State) :
  owner s = Scenario.admin -> paused s = false ->
  active (yield_of s "Aave") = true ->
  exists s' : State,
    Scenario.updates n s = Ok s'
    /\ length (history_of s' "Aave") = (length (history_of s "Aave") + n)%nat
    /\ owner s' = Scenario.admin /\ paused s' = false
    /\ active (yield_of s' "Aave") = true.
Proof.
  intros Howner Hpaused Hactive.
  induction n as [|n (s1 & Hrun & Hlen & Howner1 & Hpaused1 & Hactive1)].
  - exists s. simpl. repeat split; auto.
  - cbn [Scenario.updates]. rewrite Hrun. cbn [bind].
    destruct (updateYield_succeeds (Z.of_nat (S n)) Scenario.admin "Aave"
                320 (2500000000 * ether) 2 s1) as [s2 Hup].
    + rewrite Howner1, Z.eqb_refl. apply orb_true_r.
    + exact Hactive1.
    + exact Hpaused1.
    + lia.
    + lia.
    + vm_compute; congruence.
    + exists s2. split; [exact Hup|].
      apply updateYield_Ok in Hup as (Hh & _ & Hy & Ho & Hp).
      rewrite Hh, length_app, Hlen, Hy, Ho, Hp.
      repeat split; auto. cbn [length]. lia.
Qed.

End History.

(** C9, as amended.  Each successful [updateYield] appends the venue's
    previous yield and timestamp to the end of its history, so the history
    grows by exactly one entry and keeps all earlier ones; the histories of
    the other venues are untouched; the new record carries the block
    timestamp; [getYieldHistory] reads the history most recent first, up to
    the requested number of entries. *)
Theorem updateYield_archives_previous_record :
  forall (now : Z) (sender : address) (p : string) (newApy newTvl newRisk : Z)
         (s s' : YieldOracle.State),
    YieldOracle.updateYield now sender p newApy newTvl newRisk s = Ok s' ->
    YieldOracle.history_of s' p
      = YieldOracle.history_of s p
        ++ [YieldOracle.mkHistoricalYield
              (YieldOracle.apy (YieldOracle.yield_of s p))
              (YieldOracle.timestamp (YieldOracle.yield_of s p))]
    /\ length (YieldOracle.history_of s' p)
       = S (length (YieldOracle.history_of s p))
    /\ (forall q : string,
          q <> p -> YieldOracle.history_of s' q = YieldOracle.history_of s q)
    /\ YieldOracle.timestamp (YieldOracle.yield_of s' p) = now
    /\ (forall limit : Z,
          0 <= limit ->
          YieldOracle.getYieldHistory s' p limit
          = take (Z.to_nat limit) (reverse (YieldOracle.history_of s' p))).
Proof.
  intros now sender p newApy newTvl newRisk s s' Hcall.
  apply updateYield_Ok in Hcall as (Hh & Hother & Hy & _).
  repeat split.
  - exact Hh.
  - rewrite Hh, length_app. simpl. lia.
  - exact Hother.
  - rewrite Hy. reflexivity.
  - intros limit Hlimit. by apply getYieldHistory_recent_first.
Qed.

(** Five updates of Aave after deployment: five entries, read back most
    recent first. *)
Lemma updateYield_archives_previous_record_witness :
  exists s s' : YieldOracle.State,
    Scenario.archived = Ok s
    /\ YieldOracle.updateYield 5 Scenario.admin "Aave" 320
         (2500000000 * ether) 2 s = Ok s'
    /\ length (YieldOracle.history_of s' "Aave") = 5%nat
    /\ YieldOracle.getYieldHistory s' "Aave" 2
       = [YieldOracle.mkHistoricalYield 320 4;
          YieldOracle.mkHistoricalYield 320 3].
Proof.
  run_as Scenario.archived Scenario.archived s Hs.
  run_as constr:(do s <- Scenario.archived;
                 YieldOracle.updateYield 5 Scenario.admin "Aave" 320
                   (2500000000 * ether) 2 s)
         (YieldOracle.updateYield 5 Scenario.admin "Aave" 320
            (2500000000 * ether) 2 s) s' Hcall.
  exists s, s'. split; [reflexivity|]. split; [exact Hcall|].
  destruct (updateYield_archives_previous_record _ _ _ _ _ _ _ _ Hcall)
    as (_ & Hlen & _ & _ & Hread).
  split.
  - rewrite Hlen. f_equal.
    by_observing
      constr:((do s <- Scenario.archived;
               Ok (length (YieldOracle.history_of s "Aave"))) = Ok 4%nat).
  - rewrite Hread by lia.
    by_observing
      constr:((do s <- Scenario.archived;
               do s' <- YieldOracle.updateYield 5 Scenario.admin "Aave" 320
                          (2500000000 * ether) 2 s;
               Ok (take (Z.to_nat 2)
                     (reverse (YieldOracle.history_of s' "Aave"))))
              = Ok [YieldOracle.mkHistoricalYield 320 4;
                    YieldOracle.mkHistoricalYield 320 3]).
Defined.

(** C9 as stated fails: no bound holds for the length of a venue's
    history, which [n] updates after deployment bring to [n] entries. *)
Lemma yield_history_is_unbounded :
  ~ exists bound : nat,
      forall (n : nat) (o s : YieldOracle.State),
        YieldOracle.deploy 0 Scenario.admin = Ok o ->
        Scenario.updates n o = Ok s ->
        (length (YieldOracle.history_of s "Aave") <= bound)%nat.
Proof.
  run_as constr:(YieldOracle.deploy 0 Scenario.admin)
         (YieldOracle.deploy 0 Scenario.admin) o Ho.
  intros [bound Hbound].
  destruct (updates_length (S bound) o) as (s & Hrun & Hlen & _).
  - by_observing
      constr:((do o <- YieldOracle.deploy 0 Scenario.admin;
               Ok (YieldOracle.owner o)) = Ok Scenario.admin).
  - by_observing
      constr:((do o <- YieldOracle.deploy 0 Scenario.admin;
               Ok (YieldOracle.paused o)) = Ok false).
  - by_observing
      constr:((do o <- YieldOracle.deploy 0 Scenario.admin;
               Ok (YieldOracle.active (YieldOracle.yield_of o "Aave")))
              = Ok true).
  - specialize (Hbound (S bound) o s eq_refl Hrun). lia.
Qed.


(** ** YieldOracle: the best eligible venue *)

Section BestYield.
Import YieldOracle Claims.

Variables (now maxRisk minTvl : Z) (s : State).

Lemma best_scan_cons (name : string) (rest : list string) (top : string)
    (hy tr : Z) :
  timestamp (yield_of s name) <= now ->
  best_scan now maxRisk minTvl s (name :: rest) (top, hy, tr)
  = best_scan now maxRisk minTvl s rest
      (if active (yield_of s name)
          && (riskScore (yield_of s name) <=? maxRisk)
          && (minTvl <=? tvl (yield_of s name))
          && (hy <? apy (yield_of s name))
          && negb (MAX_STALENESS <? now - timestamp (yield_of s name))
       then (name, apy (yield_of s name), riskScore (yield_of s name))
       else (top, hy, tr)).
Proof.
  intros Hpast. cbn [best_scan]. unfold _isStaleData, checked_sub.
  destruct (Z.leb_spec (timestamp (yield_of s name)) now); [|lia].
  cbn [bind].
  destruct (active (yield_of s name)
            && (riskScore (yield_of s name) <=? maxRisk)
            && (minTvl <=? tvl (yield_of s name))
            && (hy <? apy (yield_of s name))); [|reflexivity].
  destruct (MAX_STALENESS <? now - timestamp (yield_of s name)); reflexivity.
Qed.

(** What the accumulator of a scan says about the names already seen. *)
Lemma selection_bound (pre : list string) (top : string) (hy tr : Z) :
  selection now maxRisk minTvl s pre (top, hy, tr) ->
  0 <= hy
  /\ forall (j : nat) (other : string),
       pre !! j = Some other ->
       eligible now maxRisk minTvl (yield_of s other) ->
       apy (yield_of s other) <= hy.
Proof.
  intros [(i & name & (Hi & Hname & Hbest) & Hpos & Hr) | (Hr & Hnone)].
  - injection Hr as -> -> ->. split; [lia|].
    intros j other Hj Hother. apply (Hbest j other Hj Hother).
  - injection Hr as -> -> ->. split; [lia|]. exact Hnone.
Qed.

Lemma selection_snoc_taken (pre : list string) (name top : string)
    (hy tr : Z) :
  selection now maxRisk minTvl s pre (top, hy, tr) ->
  eligible now maxRisk minTvl (yield_of s name) ->
  hy < apy (yield_of s name) ->
  selection now maxRisk minTvl s (pre ++ [name])
    (name, apy (yield_of s name), riskScore (yield_of s name)).
Proof.
  intros Hsel Hname Hlt.
  destruct (selection_bound _ _ _ _ Hsel) as [Hhy Hbound].
  left. exists (length pre), name.
  split; [|split; [lia | reflexivity]].
  split; [apply list_lookup_middle; reflexivity|].
  split; [exact Hname|].
  intros j other Hj Hother.
  apply lookup_app_Some in Hj as [Hj | [Hlen Hj]].
  - specialize (Hbound j other Hj Hother). split; [lia | intros; lia].
  - apply list_lookup_singleton_Some in Hj as [_ <-]. split; [lia | intros; lia].
Qed.

Lemma selection_snoc_skipped (pre : list string) (name : string)
    (r : string * Z * Z) :
  selection now maxRisk minTvl s pre r ->
  (eligible now maxRisk minTvl (yield_of s name) ->
   apy (yield_of s name) <= snd (fst r)) ->
  selection now maxRisk minTvl s (pre ++ [name]) r.
Proof.
  intros [(i & top & (Hi & Htop & Hbest) & Hpos & ->) | (-> & Hnone)] Hskip;
    cbn [fst snd] in Hskip.
  - left. exists i, top.
    split; [|split; [exact Hpos | reflexivity]].
    split; [apply lookup_app_l_Some; exact Hi|].
    split; [exact Htop|].
    intros j other Hj Hother.
    apply lookup_app_Some in Hj as [Hj | [Hlen Hj]].
    + apply (Hbest j other Hj Hother).
    + apply list_lookup_singleton_Some in Hj as [_ <-].
      apply lookup_lt_Some in Hi. split; [auto | intros; lia].
  - right. split; [reflexivity|].
    intros j other Hj Hother.
    apply lookup_app_Some in Hj as [Hj | [Hlen Hj]].
    + apply (Hnone j other Hj Hother).
    + apply list_lookup_singleton_Some in Hj as [_ <-]. auto.
Qed.

Lemma best_scan_selection (post : list string) :
  forall (pre : list string) (acc : string * Z * Z),
    (forall name, name ∈ post -> timestamp (yield_of s name) <= now) ->
    selection now maxRisk minTvl s pre acc ->
    exists r : string * Z * Z,
      best_scan now maxRisk minTvl s post acc = Ok r
      /\ selection now maxRisk minTvl s (pre ++ post) r.
Proof.
  induction post as [|name rest IH]; intros pre acc Hpast Hsel.
  - exists acc. rewrite app_nil_r. auto.
  - destruct acc as [[top hy] tr].
    rewrite best_scan_cons by (apply Hpast; left).
    replace (pre ++ name :: rest) with ((pre ++ [name]) ++ rest)
      by (rewrite <- app_assoc; reflexivity).
    apply IH; [intros other Hother; apply Hpast; right; exact Hother|].
    destruct (active (yield_of s name)
              && (riskScore (yield_of s name) <=? maxRisk)
              && (minTvl <=? tvl (yield_of s name))
              && (hy <? apy (yield_of s name))
              && negb (MAX_STALENESS <? now - timestamp (yield_of s name)))
      eqn:Htaken.
    + repeat (apply andb_prop in Htaken as [Htaken ?]).
      apply selection_snoc_taken with top hy tr; [exact Hsel| |lia].
      repeat split; [assumption|lia|lia|].
      destruct (Z.ltb_spec MAX_STALENESS (now - timestamp (yield_of s name)));
        [discriminate | lia].
    + apply selection_snoc_skipped; [exact Hsel|].
      intros (Hactive & Hrisk & Htvl & Hfresh). cbn [fst snd].
      destruct (Z.ltb_spec hy (apy (yield_of s name))); [|lia].
      exfalso. rewrite Hactive in Htaken.
      destruct (Z.leb_spec (riskScore (yield_of s name)) maxRisk); [|lia].
      destruct (Z.leb_spec minTvl (tvl (yield_of s name))); [|lia].
      destruct (Z.ltb_spec MAX_STALENESS (now - timestamp (yield_of s name)));
        [lia | discriminate].
Qed.

Lemma getBestYieldForRisk_selection :
  (forall name, name ∈ supportedProtocols s ->
                timestamp (yield_of s name) <= now) ->
  1 <= maxRisk <= 10 ->
  exists r : string * Z * Z,
    getBestYieldForRisk now maxRisk minTvl s = Ok r
    /\ selection now maxRisk minTvl s (supportedProtocols s) r.
Proof.
  intros Hpast Hrisk. unfold getBestYieldForRisk.
  replace ((1 <=? maxRisk) && (maxRisk <=? 10)) with true
    by (symmetry; apply andb_true_intro; split; apply Z.leb_le; lia).
  cbn [bind require].
  apply (best_scan_selection (supportedProtocols s) [] ("", 0, 0) Hpast).
  right. split; [reflexivity|].
  intros j other Hj. rewrite lookup_nil in Hj. discriminate.
Qed.

Lemma getBestYieldForRisk_invalid :
  ~ 1 <= maxRisk <= 10 ->
  getBestYieldForRisk now maxRisk minTvl s
  = Revert (Error "Invalid risk profile").
Proof.
  intros Hrisk. unfold getBestYieldForRisk.
  replace ((1 <=? maxRisk) && (maxRisk <=? 10)) with false; [reflexivity|].
  symmetry. apply andb_false_iff.
  destruct (Z.leb_spec 1 maxRisk); [|auto].
  destruct (Z.leb_spec maxRisk 10); [lia | auto].
Qed.

End BestYield.

(** C7, as amended.  For a risk ceiling between 1 and 10 (any other is
    rejected with "Invalid risk profile") and record timestamps not in the
    future, [getBestYieldForRisk] returns the active, non-stale record with
    [riskScore <= maxRisk] and [tvl >= minTvl] of highest apy, the first
    registered among equals, provided that apy is positive; it returns
    "none" exactly when no such record has a positive apy.  A record older
    than [MAX_STALENESS] is not eligible, whatever its apy.  Over the four
    venues of the specification's example the answer is Compound; once
    Compound's quote is stale the answer is Curve. *)
Theorem getBestYieldForRisk_selects_best_positive_yield :
  (forall (now maxRisk minTvl : Z) (s : YieldOracle.State),
      (forall name : string,
          name ∈ YieldOracle.supportedProtocols s ->
          YieldOracle.timestamp (YieldOracle.yield_of s name) <= now) ->
      (1 <= maxRisk <= 10 ->
       exists r : string * Z * Z,
         YieldOracle.getBestYieldForRisk now maxRisk minTvl s = Ok r
         /\ Claims.selection now maxRisk minTvl s
              (YieldOracle.supportedProtocols s) r)
      /\ (~ 1 <= maxRisk <= 10 ->
          YieldOracle.getBestYieldForRisk now maxRisk minTvl s
          = Revert (Error "Invalid risk profile")))
  /\ (exists w : RebalancingEngine.World,
        Scenario.quoted = Ok w
        /\ YieldOracle.getBestYieldForRisk 200 5 (100000000 * ether)
             (RebalancingEngine.oracle w) = Ok ("Compound", 780, 2))
  /\ (exists w : RebalancingEngine.World,
        Scenario.aged = Ok w
        /\ YieldOracle.apy
             (YieldOracle.yield_of (RebalancingEngine.oracle w) "Compound")
           = 780
        /\ 4000 - YieldOracle.timestamp
                    (YieldOracle.yield_of (RebalancingEngine.oracle w)
                       "Compound") > YieldOracle.MAX_STALENESS
        /\ YieldOracle.getBestYieldForRisk 4000 5 (100000000 * ether)
             (RebalancingEngine.oracle w) = Ok ("Curve", 540, 3)).
Proof.
  split; [|split].
  - intros now maxRisk minTvl s Hpast. split.
    + by apply getBestYieldForRisk_selection.
    + apply getBestYieldForRisk_invalid.
  - run_as Scenario.quoted Scenario.quoted w Hw.
    exists w. split; [reflexivity|].
    by_observing
      constr:((do w <- Scenario.quoted;
               YieldOracle.getBestYieldForRisk 200 5 (100000000 * ether)
                 (RebalancingEngine.oracle w)) = Ok ("Compound", 780, 2)).
  - run_as Scenario.aged Scenario.aged w Hw.
    exists w. split; [reflexivity|].
    observe Hcompound
      constr:((do w <- Scenario.aged;
               Ok (YieldOracle.yield_of (RebalancingEngine.oracle w)
                     "Compound"))
              = Ok (YieldOracle.mkYieldData "Compound" 780
                      (1800000000 * ether) 2 100 true)).
    injection Hcompound as ->.
    split; [reflexivity|]. split; [reflexivity|].
    by_observing
      constr:((do w <- Scenario.aged;
               YieldOracle.getBestYieldForRisk 4000 5 (100000000 * ether)
                 (RebalancingEngine.oracle w)) = Ok ("Curve", 540, 3)).
Qed.

(** The general statement of C7 applied to the example of the
    specification at time 200. *)
Lemma getBestYieldForRisk_selects_best_positive_yield_witness :
  exists (w : RebalancingEngine.World) (r : string * Z * Z),
    Scenario.quoted = Ok w
    /\ YieldOracle.getBestYieldForRisk 200 5 (100000000 * ether)
         (RebalancingEngine.oracle w) = Ok r
    /\ Claims.selection 200 5 (100000000 * ether) (RebalancingEngine.oracle w)
         (YieldOracle.supportedProtocols (RebalancingEngine.oracle w)) r.
Proof.
  run_as Scenario.quoted Scenario.quoted w Hw.
  observe Hpast
    constr:((do w <- Scenario.quoted;
             Ok (forallb
                   (fun name =>
                      YieldOracle.timestamp
                        (YieldOracle.yield_of (RebalancingEngine.oracle w)
                           name) <=? 200)
                   (YieldOracle.supportedProtocols
                      (RebalancingEngine.oracle w)))) = Ok true).
  injection Hpast as Hpast.
  destruct (proj1 (proj1 getBestYieldForRisk_selects_best_positive_yield
                     200 5 (100000000 * ether) (RebalancingEngine.oracle w)
                     (fun name Hin =>
                        proj1 (Z.leb_le _ _)
                          (proj1 (forallb_forall _ _) Hpast name
                             (proj1 (list_elem_of_In _ _) Hin))))
              ltac:(lia))
    as (r & Hr & Hsel).
  exists w, r. split; [reflexivity|]. split; [exact Hr | exact Hsel].
Defined.

(** C7 as stated fails right after deployment: with no liquidity floor
    Aave is the eligible venue of highest apy, first registered among
    equals, yet the answer is "none", since a record of apy 0 is never
    selected. *)
Lemma getBestYieldForRisk_ignores_zero_yield :
  exists (w : RebalancingEngine.World) (r : string * Z * Z),
    Scenario.deployed = Ok w
    /\ YieldOracle.getBestYieldForRisk 0 5 0 (RebalancingEngine.oracle w)
       = Ok r
    /\ Claims.best_among 0 5 0 (RebalancingEngine.oracle w)
         (YieldOracle.supportedProtocols (RebalancingEngine.oracle w))
         0 "Aave"
    /\ r = Claims.none
    /\ r <> ("Aave",
             YieldOracle.apy
               (YieldOracle.yield_of (RebalancingEngine.oracle w) "Aave"),
             YieldOracle.riskScore
               (YieldOracle.yield_of (RebalancingEngine.oracle w) "Aave")).
Proof.
  run_as Scenario.deployed Scenario.deployed w Hw.
  exists w, Claims.none. split; [reflexivity|].
  split.
  { by_observing
      constr:((do w <- Scenario.deployed;
               YieldOracle.getBestYieldForRisk 0 5 0
                 (RebalancingEngine.oracle w)) = Ok Claims.none). }
  observe Hzero
    constr:((do w <- Scenario.deployed;
             Ok (forallb
                   (fun name =>
                      YieldOracle.apy
                        (YieldOracle.yield_of (RebalancingEngine.oracle w)
                           name) =? 0)
                   (YieldOracle.supportedProtocols
                      (RebalancingEngine.oracle w)))) = Ok true).
  injection Hzero as Hzero.
  observe Hfirst
    constr:((do w <- Scenario.deployed;
             Ok (YieldOracle.supportedProtocols (RebalancingEngine.oracle w)
                   !! 0%nat)) = Ok (Some "Aave")).
  injection Hfirst as Hfirst.
  observe Haave
    constr:((do w <- Scenario.deployed;
             Ok (YieldOracle.yield_of (RebalancingEngine.oracle w) "Aave"))
            = Ok (YieldOracle.mkYieldData "Aave" 0 0 2 0 true)).
  injection Haave as Haave.
  split; [|split; [reflexivity | rewrite Haave; discriminate]].
  split; [exact Hfirst|].
  split; [rewrite Haave; repeat split; vm_compute; congruence|].
  intros j other Hj _. rewrite Haave. cbn [YieldOracle.apy].
  assert (Hother : YieldOracle.apy
                     (YieldOracle.yield_of (RebalancingEngine.oracle w) other)
                   = 0).
  { apply Z.eqb_eq.
    apply (proj1 (forallb_forall _ _) Hzero other).
    apply list_elem_of_In. by apply list_elem_of_lookup_2 with j. }
  split; [lia | intros _; lia].
Qed.

(** ** RebalancingEngine: admission and execution of requests *)

Section Requests.
Import RebalancingEngine.

Lemma validRequest_Ok (e : State) (id : Z) (u : unit) :
  validRequest e id = Ok u ->
  id < requestCounter e
  /\ executed (request_of e id) = false
  /\ cancelled (request_of e id) = false.
Proof.
  unfold validRequest. intros H. steps_Ok H.
  apply require_Ok in Hstep, Hstep0, H.
  repeat split; [lia | by apply negb_true_iff | by apply negb_true_iff].
Qed.

Lemma _updateMetrics_requests (e e' : State) (r : RebalanceRequest) (y : Z) :
  _updateMetrics e r y = Ok e' ->
  rebalanceRequests e' = rebalanceRequests e.
Proof.
  unfold _updateMetrics. intros H. steps_Ok H. injection H as <-. reflexivity.
Qed.

(** A successful admission implies that the cooldown since the user's last
    recorded request has elapsed. *)
Lemma requestRebalance_Ok (now : Z) (sender u : address) (from to : string)
    (y gas : Z) (w : World) (out : World * Z) :
  requestRebalance now sender u from to y gas w = Ok out ->
  forall lastId : Z,
    last (history_of (engine w) u) = Some lastId ->
    REBALANCE_COOLDOWN <= now - timestamp (request_of (engine w) lastId).
Proof.
  intros H lastId Hlast. unfold requestRebalance in H.
  rewrite Hlast in H. steps_Ok H.
  match goal with
  | Hc : bind (checked_sub _ _) _ = Ok _ |- _ =>
      step_Ok Hc;
      match goal with
      | Hs : checked_sub _ _ = Ok _ |- _ => apply checked_sub_Ok in Hs as [-> _]
      end;
      apply require_Ok in Hc; lia
  end.
Qed.

Lemma requestRebalance_cooldown (now : Z) (sender u : address)
    (from to : string) (y gas : Z) (w : World) (lastId : Z) :
  last (history_of (engine w) u) = Some lastId ->
  now - timestamp (request_of (engine w) lastId) < REBALANCE_COOLDOWN ->
  succeeded (requestRebalance now sender u from to y gas w) = false.
Proof.
  intros Hlast Hearly.
  destruct (requestRebalance now sender u from to y gas w) as [out|f] eqn:Hcall;
    [|reflexivity].
  pose proof (requestRebalance_Ok _ _ _ _ _ _ _ _ _ Hcall lastId Hlast). lia.
Qed.

Lemma requestRebalance_first (now now' : Z) (sender u : address)
    (from to : string) (y gas : Z) (w : World) :
  history_of (engine w) u = [] ->
  succeeded (requestRebalance now' sender u from to y gas w)
  = succeeded (requestRebalance now sender u from to y gas w).
Proof.
  intros Hempty. unfold requestRebalance. rewrite Hempty. cbn [last].
  repeat match goal with
         | |- context [bind ?m _] =>
             destruct m; cbn [bind succeeded]; try reflexivity
         end.
Qed.

(** The two ways in which [executeRebalance] returns. *)
Lemma executeRebalance_returns (now : Z) (sender : address) (id : Z)
    (w w' : World) :
  executeRebalance now sender id w = Ok w' ->
  status (request_of (engine w) id) = Pending
  /\ ((exists m' : PortfolioManager.State,
         PortfolioManager.executeRebalance now (self (engine w))
           (user (request_of (engine w) id))
           (fromProtocol (request_of (engine w) id))
           (toProtocol (request_of (engine w) id))
           (expectedYield (request_of (engine w) id))
           (estimatedGas (request_of (engine w) id)) (manager w) = Ok m'
         /\ manager w' = m'
         /\ status (request_of (engine w') id) = Executed)
      \/ (exists reason : string,
            PortfolioManager.executeRebalance now (self (engine w))
              (user (request_of (engine w) id))
              (fromProtocol (request_of (engine w) id))
              (toProtocol (request_of (engine w) id))
              (expectedYield (request_of (engine w) id))
              (estimatedGas (request_of (engine w) id)) (manager w)
            = Revert (Error reason)
            /\ manager w' = manager w
            /\ status (request_of (engine w') id) = Cancelled
            /\ last (events (engine w'))
               = Some (RebalanceCancelled id reason))).
Proof.
  intros H. unfold executeRebalance in H. steps_Ok H.
  apply validRequest_Ok in Hstep0 as (_ & Hexecuted & Hcancelled).
  split; [unfold status; rewrite Hexecuted, Hcancelled; reflexivity|].
  destruct (PortfolioManager.executeRebalance _ _ _ _ _ _ _ _)
    as [m'|[reason|code]] eqn:Hmanager; [| |discriminate].
  - left. exists m'. split; [reflexivity|].
    steps_Ok H. injection H as <-. split; [reflexivity|].
    match goal with
    | Hm : _updateMetrics _ _ _ = Ok _ |- _ =>
        apply _updateMetrics_requests in Hm as Hrequests
    end.
    unfold request_of, status; cbn. rewrite Hrequests; cbn.
    rewrite lookup_insert_eq. reflexivity.
  - right. exists reason. split; [reflexivity|].
    injection H as <-. split; [reflexivity|]. split.
    + unfold request_of, status; cbn. rewrite lookup_insert_eq; cbn.
      fold (request_of (engine w) id). rewrite Hexecuted. reflexivity.
    + cbn. apply last_snoc.
Qed.

Lemma executeRebalance_unprofitable (now : Z) (sender : address) (id : Z)
    (w : World) :
  _isProfitableRebalance (user (request_of (engine w) id))
    (PortfolioManager.currentYield
       (PortfolioManager.getPortfolio (manager w)
          (user (request_of (engine w) id))))
    (expectedYield (request_of (engine w) id))
    (estimatedGas (request_of (engine w) id))
    (PortfolioManager.totalValue
       (PortfolioManager.getPortfolio (manager w)
          (user (request_of (engine w) id)))) = Ok false ->
  succeeded (executeRebalance now sender id w) = false.
Proof.
  intros Hcheck.
  destruct (executeRebalance now sender id w) as [w'|f] eqn:Hcall;
    [|reflexivity].
  unfold executeRebalance in Hcall. steps_Ok Hcall.
  rewrite Hcheck in Hstep3. injection Hstep3 as <-. discriminate.
Qed.

(** An admitted request is recorded last in the user's history, Pending,
    with the time of admission. *)
Lemma requestRebalance_records (now : Z) (sender u : address)
    (from to : string) (y gas : Z) (w w' : World) (id : Z) :
  requestRebalance now sender u from to y gas w = Ok (w', id) ->
  last (history_of (engine w') u) = Some id
  /\ timestamp (request_of (engine w') id) = now
  /\ status (request_of (engine w') id) = Pending.
Proof.
  intros H. unfold requestRebalance in H. steps_Ok H.
  injection H as <- <-.
  unfold history_of, request_of; cbn. rewrite !lookup_insert_eq; cbn.
  split; [apply last_snoc | split; reflexivity].
Qed.

(** Settling a request, either way, leaves every timestamp and every
    user's history as they were. *)
Lemma executeRebalance_keeps_records (now : Z) (sender : address) (id : Z)
    (w w' : World) :
  executeRebalance now sender id w = Ok w' ->
  (forall u, history_of (engine w') u = history_of (engine w) u)
  /\ (forall other,
        timestamp (request_of (engine w') other)
        = timestamp (request_of (engine w) other)).
Proof.
  intros H. unfold executeRebalance in H. steps_Ok H.
  destruct (PortfolioManager.executeRebalance _ _ _ _ _ _ _ _)
    as [m'|[reason|code]]; [| |discriminate].
  - steps_Ok H. injection H as <-.
    match goal with
    | Hm : _updateMetrics _ _ _ = Ok _ |- _ =>
        unfold _updateMetrics in Hm; steps_Ok Hm; injection Hm as <-
    end.
    split; [reflexivity|].
    intros other. unfold request_of; cbn.
    destruct (Z.eq_dec id other) as [->|Hne].
    + rewrite lookup_insert_eq. reflexivity.
    + rewrite lookup_insert_ne by assumption. reflexivity.
  - injection H as <-. split; [reflexivity|].
    intros other. unfold request_of; cbn.
    destruct (Z.eq_dec id other) as [->|Hne].
    + rewrite lookup_insert_eq. reflexivity.
    + rewrite lookup_insert_ne by assumption. reflexivity.
Qed.

Lemma cancelRebalance_keeps_records (sender : address) (id : Z)
    (reason : string) (w w' : World) :
  cancelRebalance sender id reason w = Ok w' ->
  (forall u, history_of (engine w') u = history_of (engine w) u)
  /\ (forall other,
        timestamp (request_of (engine w') other)
        = timestamp (request_of (engine w) other)).
Proof.
  intros H. unfold cancelRebalance in H. steps_Ok H. injection H as <-.
  split; [reflexivity|].
  intros other. unfold request_of; cbn.
  destruct (Z.eq_dec id other) as [->|Hne].
  - rewrite lookup_insert_eq. reflexivity.
  - rewrite lookup_insert_ne by assumption. reflexivity.
Qed.

End Requests.

(** C8.  Whenever the user has a recorded request and less than
    [REBALANCE_COOLDOWN] has elapsed since the latest of them,
    [requestRebalance] is rejected, whatever the state of that request:
    the statement holds for every world, hence for every value of the
    request's flags, and neither [executeRebalance] nor [cancelRebalance]
    touches the timestamps or the users' histories.  An admitted request
    is recorded last in its user's history with the time of admission.
    For a user without recorded request the time of the call has no
    influence on admission. *)
Theorem requestRebalance_enforces_cooldown :
  forall (now : Z) (sender u : address) (from to : string) (y gas : Z)
         (w : RebalancingEngine.World),
    (forall lastId : Z,
        last (RebalancingEngine.history_of (RebalancingEngine.engine w) u)
          = Some lastId ->
        now - RebalancingEngine.timestamp
                (RebalancingEngine.request_of (RebalancingEngine.engine w)
                   lastId)
          < RebalancingEngine.REBALANCE_COOLDOWN ->
        succeeded
          (RebalancingEngine.requestRebalance now sender u from to y gas w)
        = false)
    /\ (RebalancingEngine.history_of (RebalancingEngine.engine w) u = [] ->
        forall now' : Z,
          succeeded
            (RebalancingEngine.requestRebalance now' sender u from to y gas w)
          = succeeded
              (RebalancingEngine.requestRebalance now sender u from to y gas w))
    /\ (forall (w' : RebalancingEngine.World) (id : Z),
          RebalancingEngine.requestRebalance now sender u from to y gas w
            = Ok (w', id) ->
          last (RebalancingEngine.history_of (RebalancingEngine.engine w') u)
            = Some id
          /\ RebalancingEngine.timestamp
               (RebalancingEngine.request_of (RebalancingEngine.engine w') id)
             = now)
    /\ (forall (id : Z) (reason : string) (w' : RebalancingEngine.World),
          RebalancingEngine.executeRebalance now sender id w = Ok w'
          \/ RebalancingEngine.cancelRebalance sender id reason w = Ok w' ->
          forall lastId : Z,
            last (RebalancingEngine.history_of (RebalancingEngine.engine w') u)
              = Some lastId ->
            last (RebalancingEngine.history_of (RebalancingEngine.engine w) u)
              = Some lastId
            /\ RebalancingEngine.timestamp
                 (RebalancingEngine.request_of (RebalancingEngine.engine w')
                    lastId)
               = RebalancingEngine.timestamp
                   (RebalancingEngine.request_of (RebalancingEngine.engine w)
                      lastId)).
Proof.
  intros now sender u from to y gas w. split; [|split; [|split]].
  - intros lastId. apply requestRebalance_cooldown.
  - intros Hempty now'. by apply requestRebalance_first.
  - intros w' id Hcall.
    destruct (requestRebalance_records _ _ _ _ _ _ _ _ _ _ Hcall)
      as (Hlast & Hstamp & _).
    split; assumption.
  - intros id reason w' [Hcall | Hcall] lastId Hlast.
    + destruct (executeRebalance_keeps_records _ _ _ _ _ Hcall)
        as [Hhistory Hstamp].
      rewrite <- Hhistory, Hstamp. split; [exact Hlast | reflexivity].
    + destruct (cancelRebalance_keeps_records _ _ _ _ _ Hcall)
        as [Hhistory Hstamp].
      rewrite <- Hhistory, Hstamp. split; [exact Hlast | reflexivity].
Qed.

(** Two hundred seconds after her request, alice is rejected both when
    that request was executed and when it was cancelled. *)
Lemma requestRebalance_enforces_cooldown_witness :
  (exists w : RebalancingEngine.World,
      Scenario.settled = Ok w
      /\ RebalancingEngine.status
           (RebalancingEngine.request_of (RebalancingEngine.engine w) 0)
         = RebalancingEngine.Executed
      /\ succeeded
           (RebalancingEngine.requestRebalance 400 Scenario.bot Scenario.alice
              "Compound" "Curve" 1200 0 w) = false)
  /\ (exists w : RebalancingEngine.World,
        Scenario.called_off = Ok w
        /\ RebalancingEngine.status
             (RebalancingEngine.request_of (RebalancingEngine.engine w) 0)
           = RebalancingEngine.Cancelled
        /\ succeeded
             (RebalancingEngine.requestRebalance 400 Scenario.bot
                Scenario.alice "Aave" "Compound" 780 0 w) = false).
Proof.
  split.
  - run_as Scenario.settled Scenario.settled w Hw.
    exists w. split; [reflexivity|].
    split.
    { by_observing
        constr:((do w <- Scenario.settled;
                 Ok (RebalancingEngine.status
                       (RebalancingEngine.request_of
                          (RebalancingEngine.engine w) 0)))
                = Ok RebalancingEngine.Executed). }
    apply (proj1 (requestRebalance_enforces_cooldown 400 Scenario.bot
                    Scenario.alice "Compound" "Curve" 1200 0 w) 0).
    + by_observing
        constr:((do w <- Scenario.settled;
                 Ok (last (RebalancingEngine.history_of
                             (RebalancingEngine.engine w) Scenario.alice)))
                = Ok (Some 0)).
    + observe Hstamp
        constr:((do w <- Scenario.settled;
                 Ok (RebalancingEngine.timestamp
                       (RebalancingEngine.request_of
                          (RebalancingEngine.engine w) 0))) = Ok 200).
      injection Hstamp as ->. reflexivity.
  - run_as Scenario.called_off Scenario.called_off w Hw.
    exists w. split; [reflexivity|].
    split.
    { by_observing
        constr:((do w <- Scenario.called_off;
                 Ok (RebalancingEngine.status
                       (RebalancingEngine.request_of
                          (RebalancingEngine.engine w) 0)))
                = Ok RebalancingEngine.Cancelled). }
    apply (proj1 (requestRebalance_enforces_cooldown 400 Scenario.bot
                    Scenario.alice "Aave" "Compound" 780 0 w) 0).
    + by_observing
        constr:((do w <- Scenario.called_off;
                 Ok (last (RebalancingEngine.history_of
                             (RebalancingEngine.engine w) Scenario.alice)))
                = Ok (Some 0)).
    + observe Hstamp
        constr:((do w <- Scenario.called_off;
                 Ok (RebalancingEngine.timestamp
                       (RebalancingEngine.request_of
                          (RebalancingEngine.engine w) 0))) = Ok 200).
      injection Hstamp as ->. reflexivity.
Defined.

(** C2, as amended.  Whenever [executeRebalance] returns, the request was
    Pending and no longer is: it is Executed when the call into the
    PortfolioManager succeeded, and Cancelled, with the ledger untouched
    and the reason recorded in the event, when that call reverted with a
    reason.  When the engine's own profitability re-validation fails,
    [executeRebalance] does not return but reverts, with "No longer
    profitable" once the earlier checks have passed, so that neither the
    request nor the ledger changes. *)
Theorem executeRebalance_returns_only_settled :
  forall (now : Z) (sender : address) (id : Z) (w : RebalancingEngine.World),
    let request :=
      RebalancingEngine.request_of (RebalancingEngine.engine w) id in
    let p :=
      PortfolioManager.getPortfolio (RebalancingEngine.manager w)
        (RebalancingEngine.user request) in
    let applied :=
      PortfolioManager.executeRebalance now
        (RebalancingEngine.self (RebalancingEngine.engine w))
        (RebalancingEngine.user request)
        (RebalancingEngine.fromProtocol request)
        (RebalancingEngine.toProtocol request)
        (RebalancingEngine.expectedYield request)
        (RebalancingEngine.estimatedGas request)
        (RebalancingEngine.manager w) in
    let revalidated :=
      RebalancingEngine._isProfitableRebalance
        (RebalancingEngine.user request) (PortfolioManager.currentYield p)
        (RebalancingEngine.expectedYield request)
        (RebalancingEngine.estimatedGas request)
        (PortfolioManager.totalValue p) in
    (forall w' : RebalancingEngine.World,
        RebalancingEngine.executeRebalance now sender id w = Ok w' ->
        RebalancingEngine.status request = RebalancingEngine.Pending
        /\ ((exists m' : PortfolioManager.State,
               applied = Ok m'
               /\ RebalancingEngine.manager w' = m'
               /\ RebalancingEngine.status
                    (RebalancingEngine.request_of
                       (RebalancingEngine.engine w') id)
                  = RebalancingEngine.Executed)
            \/ (exists reason : string,
                  applied = Revert (Error reason)
                  /\ RebalancingEngine.manager w' = RebalancingEngine.manager w
                  /\ RebalancingEngine.status
                       (RebalancingEngine.request_of
                          (RebalancingEngine.engine w') id)
                     = RebalancingEngine.Cancelled
                  /\ last (RebalancingEngine.events
                             (RebalancingEngine.engine w'))
                     = Some (RebalancingEngine.RebalanceCancelled id reason))))
    /\ (revalidated = Ok false ->
        succeeded (RebalancingEngine.executeRebalance now sender id w) = false)
    /\ (revalidated = Ok false ->
        RebalancingEngine.onlyAuthorizedAI (RebalancingEngine.engine w) sender
          = Ok tt ->
        RebalancingEngine.validRequest (RebalancingEngine.engine w) id
          = Ok tt ->
        RebalancingEngine.paused (RebalancingEngine.engine w) = false ->
        PortfolioManager.autoRebalanceEnabled p = true ->
        RebalancingEngine.executeRebalance now sender id w
        = Revert (Error "No longer profitable")).
Proof.
  intros now sender id w request p applied revalidated.
  split; [|split].
  - intros w' Hcall. by apply executeRebalance_returns with sender.
  - apply executeRebalance_unprofitable.
  - intros Hcheck Hauth Hvalid Hpaused Hauto.
    unfold RebalancingEngine.executeRebalance.
    rewrite Hauth, Hvalid, Hpaused. cbn [bind whenNotPaused negb require].
    fold request. fold p. rewrite Hauto. cbn [bind require].
    fold revalidated. rewrite Hcheck. reflexivity.
Qed.

(** Both ways of returning occur: the costless request ends Executed, the
    request the manager declines ends Cancelled with the ledger as it was. *)
Lemma executeRebalance_returns_only_settled_witness :
  (exists (a : RebalancingEngine.World * Z) (w' : RebalancingEngine.World),
      Scenario.costless = Ok a
      /\ RebalancingEngine.executeRebalance 300 Scenario.bot (snd a) (fst a)
         = Ok w'
      /\ RebalancingEngine.status
           (RebalancingEngine.request_of (RebalancingEngine.engine w') (snd a))
         = RebalancingEngine.Executed)
  /\ (exists (a : RebalancingEngine.World * Z) (w' : RebalancingEngine.World),
        Scenario.hopeful = Ok a
        /\ RebalancingEngine.executeRebalance 300 Scenario.bot (snd a) (fst a)
           = Ok w'
        /\ RebalancingEngine.status
             (RebalancingEngine.request_of (RebalancingEngine.engine w')
                (snd a))
           = RebalancingEngine.Cancelled
        /\ RebalancingEngine.manager w' = RebalancingEngine.manager (fst a)).
Proof.
  split.
  - run_as Scenario.costless Scenario.costless a Ha.
    run_as constr:(do a <- Scenario.costless;
                   RebalancingEngine.executeRebalance 300 Scenario.bot
                     (snd a) (fst a))
           (RebalancingEngine.executeRebalance 300 Scenario.bot
              (snd a) (fst a)) w' Hcall.
    exists a, w'. split; [reflexivity|]. split; [exact Hcall|].
    observe Hexecuted
      constr:((do a <- Scenario.costless;
               do w' <- RebalancingEngine.executeRebalance 300 Scenario.bot
                          (snd a) (fst a);
               Ok (RebalancingEngine.status
                     (RebalancingEngine.request_of
                        (RebalancingEngine.engine w') (snd a))))
              = Ok RebalancingEngine.Executed).
    injection Hexecuted as Hexecuted.
    destruct (proj1 (executeRebalance_returns_only_settled 300 Scenario.bot
                       (snd a) (fst a)) w' Hcall)
      as [_ [(m' & _ & _ & Hstatus) | (reason & _ & _ & Hstatus & _)]].
    + exact Hstatus.
    + rewrite Hexecuted in Hstatus. discriminate Hstatus.
  - run_as Scenario.hopeful Scenario.hopeful a Ha.
    run_as constr:(do a <- Scenario.hopeful;
                   RebalancingEngine.executeRebalance 300 Scenario.bot
                     (snd a) (fst a))
           (RebalancingEngine.executeRebalance 300 Scenario.bot
              (snd a) (fst a)) w' Hcall.
    exists a, w'. split; [reflexivity|]. split; [exact Hcall|].
    observe Hcancelled
      constr:((do a <- Scenario.hopeful;
               do w' <- RebalancingEngine.executeRebalance 300 Scenario.bot
                          (snd a) (fst a);
               Ok (RebalancingEngine.status
                     (RebalancingEngine.request_of
                        (RebalancingEngine.engine w') (snd a))))
              = Ok RebalancingEngine.Cancelled).
    injection Hcancelled as Hcancelled.
    destruct (proj1 (executeRebalance_returns_only_settled 300 Scenario.bot
                       (snd a) (fst a)) w' Hcall)
      as [_ [(m' & _ & _ & Hstatus) | (reason & _ & Hsame & Hstatus & _)]].
    + rewrite Hcancelled in Hstatus. discriminate Hstatus.
    + split; [exact Hstatus | exact Hsame].
Defined.

(** C2 as stated fails: after alice has withdrawn nine tenths of her
    stake, her Pending request is no longer profitable; executing it
    reverts, it is not Cancelled and stays Pending. *)
Lemma executeRebalance_unprofitable_request_stays_pending :
  exists w : RebalancingEngine.World,
    Scenario.moved = Ok w
    /\ RebalancingEngine.status
         (RebalancingEngine.request_of (RebalancingEngine.engine w) 0)
       = RebalancingEngine.Pending
    /\ RebalancingEngine._isProfitableRebalance Scenario.alice
         (PortfolioManager.currentYield
            (PortfolioManager.getPortfolio (RebalancingEngine.manager w)
               Scenario.alice))
         (RebalancingEngine.expectedYield
            (RebalancingEngine.request_of (RebalancingEngine.engine w) 0))
         (RebalancingEngine.estimatedGas
            (RebalancingEngine.request_of (RebalancingEngine.engine w) 0))
         (PortfolioManager.totalValue
            (PortfolioManager.getPortfolio (RebalancingEngine.manager w)
               Scenario.alice)) = Ok false
    /\ RebalancingEngine.executeRebalance 300 Scenario.bot 0 w
       = Revert (Error "No longer profitable")
    /\ ~ exists w' : RebalancingEngine.World,
           RebalancingEngine.executeRebalance 300 Scenario.bot 0 w = Ok w'
           /\ RebalancingEngine.status
                (RebalancingEngine.request_of (RebalancingEngine.engine w') 0)
              = RebalancingEngine.Cancelled.
Proof.
  run_as Scenario.moved Scenario.moved w Hw.
  exists w. split; [reflexivity|].
  split.
  { by_observing
      constr:((do w <- Scenario.moved;
               Ok (RebalancingEngine.status
                     (RebalancingEngine.request_of
                        (RebalancingEngine.engine w) 0)))
              = Ok RebalancingEngine.Pending). }
  split.
  { by_observing
      constr:((do w <- Scenario.moved;
               RebalancingEngine._isProfitableRebalance Scenario.alice
                 (PortfolioManager.currentYield
                    (PortfolioManager.getPortfolio
                       (RebalancingEngine.manager w) Scenario.alice))
                 (RebalancingEngine.expectedYield
                    (RebalancingEngine.request_of
                       (RebalancingEngine.engine w) 0))
                 (RebalancingEngine.estimatedGas
                    (RebalancingEngine.request_of
                       (RebalancingEngine.engine w) 0))
                 (PortfolioManager.totalValue
                    (PortfolioManager.getPortfolio
                       (RebalancingEngine.manager w) Scenario.alice)))
              = Ok false). }
  observe Hcall
    constr:((do w <- Scenario.moved;
             RebalancingEngine.executeRebalance 300 Scenario.bot 0 w)
            = Revert (Error "No longer profitable")).
  split; [exact Hcall|].
  intros (w' & Hreturn & _). rewrite Hcall in Hreturn. discriminate Hreturn.
Qed.

(** C5 fails on the code.  Over alice, bob and carol, where bob alone
    fails profitability, the batch reverts as a whole: alice's execution
    panics inside the PortfolioManager, the panic is not caught by
    [catch Error(string)], and [this.executeRebalance] is outside the call
    guarded by the batch's own [try]; no summary event is emitted (over
    bob alone the batch does return).  When instead the manager declines
    alice's and carol's requests with a reason, both requests end
    Cancelled, neither portfolio moves, no rebalance is recorded in the
    metrics, and the summary still reports 2 users optimized with a
    positive profit. *)
Theorem batchOptimization_does_not_isolate_failures :
  (exists w : RebalancingEngine.World,
      Scenario.funded = Ok w
      /\ RebalancingEngine.batchOptimization 200 Scenario.bot
           [Scenario.alice; Scenario.bob; Scenario.carol] w
         = Revert (Panic ARITHMETIC_PANIC)
      /\ succeeded
           (RebalancingEngine.batchOptimization 200 Scenario.bot
              [Scenario.bob] w) = true)
  /\ (exists w w' : RebalancingEngine.World,
        Scenario.marginal = Ok w
        /\ RebalancingEngine.batchOptimization 200 Scenario.bot
             [Scenario.alice; Scenario.bob; Scenario.carol] w = Ok w'
        /\ last (RebalancingEngine.events (RebalancingEngine.engine w'))
           = Some (RebalancingEngine.OptimizationCompleted 2
                     50000000000000000)
        /\ PortfolioManager.portfolio_of (RebalancingEngine.manager w')
             Scenario.alice
           = PortfolioManager.mkPortfolio (10 * ether) 320 "Aave"
               PortfolioManager.BALANCED true 150 0
        /\ PortfolioManager.portfolio_of (RebalancingEngine.manager w')
             Scenario.carol
           = PortfolioManager.mkPortfolio (10 * ether) 320 "Aave"
               PortfolioManager.BALANCED true 150 0
        /\ RebalancingEngine.status
             (RebalancingEngine.request_of (RebalancingEngine.engine w') 0)
           = RebalancingEngine.Cancelled
        /\ RebalancingEngine.status
             (RebalancingEngine.request_of (RebalancingEngine.engine w') 1)
           = RebalancingEngine.Cancelled
        /\ RebalancingEngine.totalRebalances
             (RebalancingEngine.metrics (RebalancingEngine.engine w')) = 0).
Proof.
  split.
  - run_as Scenario.funded Scenario.funded w Hw.
    exists w. split; [reflexivity|]. split.
    + by_observing
        constr:((do w <- Scenario.funded;
                 RebalancingEngine.batchOptimization 200 Scenario.bot
                   [Scenario.alice; Scenario.bob; Scenario.carol] w)
                = Revert (Panic ARITHMETIC_PANIC)).
    + by_observing
        constr:(succeeded
                  (do w <- Scenario.funded;
                   RebalancingEngine.batchOptimization 200 Scenario.bot
                     [Scenario.bob] w) = true).
  - run_as Scenario.marginal Scenario.marginal w Hw.
    run_as constr:(do w <- Scenario.marginal;
                   RebalancingEngine.batchOptimization 200 Scenario.bot
                     [Scenario.alice; Scenario.bob; Scenario.carol] w)
           (RebalancingEngine.batchOptimization 200 Scenario.bot
              [Scenario.alice; Scenario.bob; Scenario.carol] w) w' Hbatch.
    exists w, w'. split; [reflexivity|]. split; [exact Hbatch|].
    observe Hsummary
      constr:((do w <- Scenario.marginal;
               do w' <- RebalancingEngine.batchOptimization 200 Scenario.bot
                          [Scenario.alice; Scenario.bob; Scenario.carol] w;
               Ok (last (RebalancingEngine.events
                           (RebalancingEngine.engine w')),
                   PortfolioManager.portfolio_of
                     (RebalancingEngine.manager w') Scenario.alice,
                   PortfolioManager.portfolio_of
                     (RebalancingEngine.manager w') Scenario.carol,
                   RebalancingEngine.status
                     (RebalancingEngine.request_of
                        (RebalancingEngine.engine w') 0),
                   RebalancingEngine.status
                     (RebalancingEngine.request_of
                        (RebalancingEngine.engine w') 1),
                   RebalancingEngine.totalRebalances
                     (RebalancingEngine.metrics
                        (RebalancingEngine.engine w'))))
              = Ok (Some (RebalancingEngine.OptimizationCompleted 2
                            50000000000000000),
                    PortfolioManager.mkPortfolio (10 * ether) 320 "Aave"
                      PortfolioManager.BALANCED true 150 0,
                    PortfolioManager.mkPortfolio (10 * ether) 320 "Aave"
                      PortfolioManager.BALANCED true 150 0,
                    RebalancingEngine.Cancelled, RebalancingEngine.Cancelled,
                    0)).
    injection Hsummary as -> -> -> -> -> ->.
    repeat split.
Qed.

(** * Further properties of the contracts *)

(** ** PortfolioManager *)

Lemma Ok_inj {A : Type} (a b : A) : @Ok A a = Ok b -> a = b.
Proof. intros H. by injection H. Qed.

Section LedgerAccess.
Import PortfolioManager LedgerTrace.

Lemma executeRebalance_requires (now : Z) (sender user : address)
    (from to : string) (y gas : Z) (s s' : State) :
  executeRebalance now sender user from to y gas s = Ok s' ->
  is_rebalancer s sender = true
  /\ paused s = false
  /\ 0 < totalValue (portfolio_of s user)
  /\ autoRebalanceEnabled (portfolio_of s user) = true
  /\ authorizedRebalancers s' = authorizedRebalancers s
  /\ owner s' = owner s.
Proof.
  intros H. unfold executeRebalance in H. steps_Ok H. injection H as <-.
  apply require_Ok in Hstep, Hstep1, Hstep2.
  apply whenNotPaused_Ok in Hstep0.
  repeat split; try assumption; lia.
Qed.

Lemma call_frame (who : address) (c : Call) (s s' : State) :
  call c s = Ok s' ->
  Access.own_call who c \/ Access.rebalance_of s who c
  \/ portfolio_of s' who = portfolio_of s who.
Proof.
  destruct c; simpl; intros H.
  - destruct (Z.eq_dec sender who) as [->|Hne]; [left; reflexivity|].
    right; right. unfold createPortfolio in H. steps_Ok H. injection H as <-.
    rewrite portfolio_of_emit. by apply portfolio_of_set_ne.
  - destruct (Z.eq_dec sender who) as [->|Hne]; [left; reflexivity|].
    right; right. unfold depositFunds in H. steps_Ok H. injection H as <-.
    rewrite portfolio_of_emit. by apply portfolio_of_set_ne.
  - destruct (Z.eq_dec sender who) as [->|Hne]; [left; reflexivity|].
    right; right. unfold withdrawFunds in H. steps_Ok H. injection H as <-.
    rewrite portfolio_of_emit. by apply portfolio_of_set_ne.
  - destruct (Z.eq_dec sender who) as [->|Hne]; [left; reflexivity|].
    right; right. unfold updateRiskProfile in H. steps_Ok H.
    injection H as <-.
    rewrite portfolio_of_emit. by apply portfolio_of_set_ne.
  - destruct (Z.eq_dec sender who) as [->|Hne]; [left; reflexivity|].
    right; right. unfold toggleAutoRebalance in H. steps_Ok H.
    injection H as <-.
    rewrite portfolio_of_emit. by apply portfolio_of_set_ne.
  - destruct (Z.eq_dec user who) as [->|Hne].
    + right; left. split; [reflexivity|].
      by destruct (executeRebalance_requires _ _ _ _ _ _ _ _ _ H) as [? _].
    + right; right.
      apply executeRebalance_Ok in H as (_ & _ & _ & Hother & _).
      apply Hother. congruence.
  - right; right. unfold authorizeRebalancer in H. steps_Ok H.
    injection H as <-. reflexivity.
  - right; right. unfold pause in H. steps_Ok H. injection H as <-.
    reflexivity.
  - right; right. unfold unpause in H. steps_Ok H. injection H as <-.
    reflexivity.
Qed.

Lemma call_paused (who : address) (c : Call) (s : State) :
  paused s = true ->
  portfolio_of (step s c) who = portfolio_of s who.
Proof.
  intros Hpaused. unfold step.
  destruct (call c s) as [s'|f] eqn:Hcall; [|reflexivity].
  destruct c; simpl in Hcall.
  - unfold createPortfolio in Hcall. rewrite Hpaused in Hcall. discriminate.
  - unfold depositFunds in Hcall. rewrite Hpaused in Hcall. discriminate.
  - unfold withdrawFunds in Hcall. rewrite Hpaused in Hcall. discriminate.
  - unfold updateRiskProfile in Hcall. rewrite Hpaused in Hcall. discriminate.
  - unfold toggleAutoRebalance in Hcall. rewrite Hpaused in Hcall.
    discriminate.
  - apply executeRebalance_requires in Hcall as (_ & Hrunning & _).
    congruence.
  - unfold authorizeRebalancer in Hcall. steps_Ok Hcall.
    injection Hcall as <-. reflexivity.
  - unfold pause in Hcall. steps_Ok Hcall. injection Hcall as <-.
    reflexivity.
  - unfold unpause in Hcall. steps_Ok Hcall. injection Hcall as <-.
    reflexivity.
Qed.

Lemma call_totalProfit (who : address) (c : Call) (s s' : State) :
  Access.cost_is_uint c ->
  call c s = Ok s' ->
  totalProfit (portfolio_of s who) = 0 ->
  totalProfit (portfolio_of s' who) = 0.
Proof.
  intros Hcost Hcall Hzero.
  destruct (call_frame who c s s' Hcall) as [Hown | [Hreb | Hsame]];
    [| |by rewrite Hsame].
  - destruct c; simpl in Hown; try contradiction; subst sender;
      simpl in Hcall.
    + unfold createPortfolio in Hcall. steps_Ok Hcall. injection Hcall as <-.
      rewrite portfolio_of_emit, portfolio_of_set_eq. reflexivity.
    + unfold depositFunds in Hcall. steps_Ok Hcall. injection Hcall as <-.
      rewrite portfolio_of_emit, portfolio_of_set_eq. exact Hzero.
    + unfold withdrawFunds in Hcall. steps_Ok Hcall. injection Hcall as <-.
      rewrite portfolio_of_emit, portfolio_of_set_eq. exact Hzero.
    + unfold updateRiskProfile in Hcall. steps_Ok Hcall.
      injection Hcall as <-.
      rewrite portfolio_of_emit, portfolio_of_set_eq. exact Hzero.
    + unfold toggleAutoRebalance in Hcall. steps_Ok Hcall.
      injection Hcall as <-.
      rewrite portfolio_of_emit, portfolio_of_set_eq. exact Hzero.
  - destruct c; simpl in Hreb; try contradiction.
    destruct Hreb as [-> _]. simpl in Hcall, Hcost.
    apply executeRebalance_Ok in Hcall as (Hp & Hgas & _).
    rewrite Hp. cbn [totalProfit]. lia.
Qed.

End LedgerAccess.

(** X1.  A successful call into the PortfolioManager changes the portfolio
    of [who] only if it is a call of [who] themselves (create, deposit,
    withdraw, profile, toggle) or an [executeRebalance] on [who] sent by an
    authorised rebalancer. *)
Theorem portfolio_changes_only_by_owner_or_rebalancer :
  forall (who : address) (c : LedgerTrace.Call)
         (s s' : PortfolioManager.State),
    LedgerTrace.call c s = Ok s' ->
    PortfolioManager.portfolio_of s' who
      <> PortfolioManager.portfolio_of s who ->
    Access.own_call who c \/ Access.rebalance_of s who c.
Proof.
  intros who c s s' Hcall Hchanged.
  destruct (call_frame who c s s' Hcall) as [Hown | [Hreb | Hsame]];
    [by left | by right | contradiction].
Qed.

(** A deposit of alice changes her portfolio, and is her own call. *)
Lemma portfolio_changes_only_by_owner_or_rebalancer_witness :
  exists s s' : PortfolioManager.State,
    Scenario.ledger = Ok s
    /\ LedgerTrace.call (LedgerTrace.DepositFunds Scenario.alice 5) s = Ok s'
    /\ (Access.own_call Scenario.alice
          (LedgerTrace.DepositFunds Scenario.alice 5)
        \/ Access.rebalance_of s Scenario.alice
             (LedgerTrace.DepositFunds Scenario.alice 5)).
Proof.
  run_as Scenario.ledger Scenario.ledger s Hs.
  run_as constr:(do s <- Scenario.ledger;
                 LedgerTrace.call
                   (LedgerTrace.DepositFunds Scenario.alice 5) s)
         (LedgerTrace.call (LedgerTrace.DepositFunds Scenario.alice 5) s)
         s' Hcall.
  exists s, s'. split; [reflexivity|]. split; [exact Hcall|].
  apply (portfolio_changes_only_by_owner_or_rebalancer Scenario.alice _ s s'
           Hcall).
  observe Hbefore
    constr:((do s <- Scenario.ledger;
             Ok (PortfolioManager.totalValue
                   (PortfolioManager.portfolio_of s Scenario.alice)))
            = Ok ether).
  injection Hbefore as Hbefore.
  observe Hafter
    constr:((do s <- Scenario.ledger;
             do s' <- LedgerTrace.call
                        (LedgerTrace.DepositFunds Scenario.alice 5) s;
             Ok (PortfolioManager.totalValue
                   (PortfolioManager.portfolio_of s' Scenario.alice)))
            = Ok (ether + 5)).
  injection Hafter as Hafter.
  intros Hsame. rewrite Hsame, Hbefore in Hafter. discriminate Hafter.
Defined.

(** X2.  While the PortfolioManager is paused no call changes any
    portfolio, and the pause can only be lifted by [unpause]; pausing and
    unpausing again gives back the storage as it was (the [Paused] and
    [Unpaused] events inherited from OpenZeppelin are not part of the
    embedding, which logs the events the contract declares). *)
Theorem paused_manager_changes_no_portfolio :
  forall (s : PortfolioManager.State),
    (PortfolioManager.paused s = true ->
     forall (c : LedgerTrace.Call) (who : address),
       PortfolioManager.portfolio_of (LedgerTrace.step s c) who
         = PortfolioManager.portfolio_of s who
       /\ (PortfolioManager.paused (LedgerTrace.step s c) = false ->
           c = LedgerTrace.Unpause (PortfolioManager.owner s)))
    /\ (forall (sender : address) (s1 : PortfolioManager.State),
          PortfolioManager.pause sender s = Ok s1 ->
          PortfolioManager.paused s1 = true
          /\ PortfolioManager.unpause sender s1 = Ok s).
Proof.
  intros s. split.
  - intros Hpaused c who. split; [by apply call_paused|].
    unfold LedgerTrace.step.
    destruct (LedgerTrace.call c s) as [s'|f] eqn:Hcall; [|congruence].
    intros Hrunning. destruct c; simpl in Hcall.
    + unfold PortfolioManager.createPortfolio in Hcall.
      rewrite Hpaused in Hcall. discriminate.
    + unfold PortfolioManager.depositFunds in Hcall.
      rewrite Hpaused in Hcall. discriminate.
    + unfold PortfolioManager.withdrawFunds in Hcall.
      rewrite Hpaused in Hcall. discriminate.
    + unfold PortfolioManager.updateRiskProfile in Hcall.
      rewrite Hpaused in Hcall. discriminate.
    + unfold PortfolioManager.toggleAutoRebalance in Hcall.
      rewrite Hpaused in Hcall. discriminate.
    + apply executeRebalance_requires in Hcall as (_ & Hnot & _). congruence.
    + unfold PortfolioManager.authorizeRebalancer in Hcall. steps_Ok Hcall.
      injection Hcall as <-. simpl in Hrunning. congruence.
    + unfold PortfolioManager.pause in Hcall. steps_Ok Hcall.
      injection Hcall as <-. discriminate Hrunning.
    + unfold PortfolioManager.unpause in Hcall. steps_Ok Hcall.
      apply require_Ok in Hstep. unfold onlyOwner in Hstep.
      apply require_Ok in Hstep0. f_equal. lia.
  - intros sender s1 Hpause. unfold PortfolioManager.pause in Hpause.
    steps_Ok Hpause. injection Hpause as <-.
    apply whenNotPaused_Ok in Hstep0.
    split; [reflexivity|].
    unfold PortfolioManager.unpause; cbn. rewrite Hstep. cbn.
    destruct s; cbn in *. subst. reflexivity.
Qed.

(** Paused by the admin, alice's ledger rejects her deposit. *)
Lemma paused_manager_changes_no_portfolio_witness :
  exists s s1 : PortfolioManager.State,
    Scenario.ledger = Ok s
    /\ PortfolioManager.pause Scenario.admin s = Ok s1
    /\ PortfolioManager.unpause Scenario.admin s1 = Ok s
    /\ PortfolioManager.portfolio_of
         (LedgerTrace.step s1 (LedgerTrace.DepositFunds Scenario.alice 5))
         Scenario.alice
       = PortfolioManager.portfolio_of s1 Scenario.alice.
Proof.
  run_as Scenario.ledger Scenario.ledger s Hs.
  run_as constr:(do s <- Scenario.ledger;
                 PortfolioManager.pause Scenario.admin s)
         (PortfolioManager.pause Scenario.admin s) s1 Hpause.
  exists s, s1. split; [reflexivity|]. split; [exact Hpause|].
  destruct (proj2 (paused_manager_changes_no_portfolio s) _ _ Hpause)
    as [Hpaused Hback].
  split; [exact Hback|].
  apply (proj1 (paused_manager_changes_no_portfolio s1) Hpaused).
Defined.

Section WithdrawalUndoesDeposit.
Import PortfolioManager.




End WithdrawalUndoesDeposit.



Section ProfitStaysZero.
Import PortfolioManager LedgerTrace.

Lemma run_totalProfit (who : address) (cs : list Call) :
  forall s : State,
    Forall Access.cost_is_uint cs ->
    totalProfit (portfolio_of s who) = 0 ->
    totalProfit (portfolio_of (run cs s) who) = 0.
Proof.
  induction cs as [|c rest IH]; intros s Hcosts Hzero; [exact Hzero|].
  apply Forall_cons in Hcosts as [Hcost Hcosts]. simpl.
  apply IH; [exact Hcosts|]. unfold step.
  destruct (call c s) as [s'|f] eqn:Hcall; [|exact Hzero].
  by apply call_totalProfit with c s.
Qed.

End ProfitStaysZero.

(** X4.  In every state reached from deployment by calls whose cost
    arguments are unsigned, [totalProfit] of every portfolio is 0: a
    rebalance succeeds only at cost 0 and then credits nothing. *)
Theorem totalProfit_is_always_zero :
  forall (deployer who : address) (cs : list LedgerTrace.Call),
    Forall Access.cost_is_uint cs ->
    PortfolioManager.totalProfit
      (PortfolioManager.portfolio_of
         (LedgerTrace.run cs (PortfolioManager.deploy deployer)) who) = 0.
Proof.
  intros deployer who cs Hcosts. by apply run_totalProfit.
Qed.

(** A rebalance from 320 bp to 780 bp is applied and no profit shows. *)
Lemma totalProfit_is_always_zero_witness :
  let cs := [ LedgerTrace.CreatePortfolio 150 Scenario.alice ether 1;
              LedgerTrace.AuthorizeRebalancer Scenario.admin
                Scenario.engineAddress true;
              LedgerTrace.ExecuteRebalance 300 Scenario.engineAddress
                Scenario.alice "Aave" "Compound" 780 0 ] in
  PortfolioManager.currentYield
    (PortfolioManager.portfolio_of
       (LedgerTrace.run cs (PortfolioManager.deploy Scenario.admin))
       Scenario.alice) = 780
  /\ PortfolioManager.totalProfit
       (PortfolioManager.portfolio_of
          (LedgerTrace.run cs (PortfolioManager.deploy Scenario.admin))
          Scenario.alice) = 0.
Proof.
  intros cs. split; [vm_compute; reflexivity|].
  apply totalProfit_is_always_zero.
  repeat (apply Forall_cons; split; [simpl; first [exact I | lia]|]).
  constructor.
Defined.

(** ** YieldOracle *)

Section OracleInvariant.
Import YieldOracle Invariants.

Lemma yield_of_active (s : State) (p : string) :
  active (yield_of s p) = true ->
  exists d, protocolYields s !! p = Some d /\ yield_of s p = d.
Proof.
  unfold yield_of. destruct (protocolYields s !! p) as [d|]; simpl;
    [eauto | discriminate].
Qed.

Lemma yield_of_Some (s : State) (p : string) (d : YieldData) :
  protocolYields s !! p = Some d -> yield_of s p = d.
Proof. unfold yield_of. by intros ->. Qed.

Lemma oracle_ok_later (now t : Z) (s : State) :
  oracle_ok now s -> now <= t -> oracle_ok t s.
Proof.
  intros (Hrecords & Hlisted & Hhistory) Hle. split; [|split]; auto.
  intros name d Hd. destruct (Hrecords name d Hd). split; [assumption | lia].
Qed.

Lemma nonempty_name (p : string) :
  (0 <? Z.of_nat (String.length p)) = true -> p <> "".
Proof. intros H ->. discriminate H. Qed.

Lemma _addProtocol_Ok (now : Z) (p : string) (risk : Z) (s s' : State) :
  _addProtocol now p risk s = Ok s' ->
  p <> "" /\ 1 <= risk <= 10 /\ active (yield_of s p) = false
  /\ protocolYields s' = <[p := mkYieldData p 0 0 risk now true]>
                           (protocolYields s)
  /\ supportedProtocols s' = supportedProtocols s ++ [p]
  /\ yieldHistory s' = yieldHistory s
  /\ authorizedUpdaters s' = authorizedUpdaters s
  /\ paused s' = paused s /\ owner s' = owner s.
Proof.
  unfold _addProtocol. intros H. steps_Ok H. injection H as <-.
  apply require_Ok in Hstep, Hstep0, Hstep1.
  apply nonempty_name in Hstep. apply andb_prop in Hstep0 as [Hlo Hhi].
  apply negb_true_iff in Hstep1.
  repeat split; auto; lia.
Qed.

Lemma _addProtocol_ok (now : Z) (p : string) (risk : Z) (s s' : State) :
  _addProtocol now p risk s = Ok s' -> oracle_ok now s -> oracle_ok now s'.
Proof.
  intros H (Hrecords & Hlisted & Hhistory).
  apply _addProtocol_Ok in H
    as (Hname & Hrisk & _ & Hyields & Hnames & Hhist & _).
  split; [|split].
  - intros name d. rewrite Hyields. intros Hd.
    apply lookup_insert_Some in Hd as [[<- <-] | [Hne Hd]]; [|by apply Hrecords].
    split; [|cbn; lia]. unfold record_ok; cbn.
    repeat split; auto; lia.
  - intros name. rewrite Hnames, Hyields, elem_of_app, list_elem_of_singleton.
    rewrite lookup_insert_is_Some, Hlisted.
    destruct (decide (p = name)) as [->|Hne]; intuition congruence.
  - intros name. unfold history_of. rewrite Hhist, Hyields. intros Hne.
    apply lookup_insert_is_Some'. right. by apply Hhistory.
Qed.

Lemma updateYield_ok (now : Z) (sender : address) (p : string)
    (newApy newTvl newRisk : Z) (s s' : State) :
  updateYield now sender p newApy newTvl newRisk s = Ok s' ->
  oracle_ok now s -> oracle_ok now s'.
Proof.
  intros H (Hrecords & Hlisted & Hhistory).
  unfold updateYield in H. steps_Ok H. injection H as <-.
  apply require_Ok in Hstep0, Hstep2, Hstep3, Hstep4.
  apply andb_prop in Hstep2 as [Hlo Hhi].
  destruct (yield_of_active _ _ Hstep0) as (d & Hd & Heq).
  destruct (Hrecords p d Hd) as [(Hprotocol & Hname & _) _].
  split; [|split]; cbn.
  - intros name d'. intros Hd'.
    apply lookup_insert_Some in Hd' as [[<- <-] | [Hne Hd']];
      [|by apply Hrecords].
    rewrite Heq. split; [|cbn; lia]. unfold record_ok; cbn.
    repeat split; auto; lia.
  - intros name. rewrite lookup_insert_is_Some, Hlisted.
    destruct (decide (p = name)) as [<-|Hne]; [|intuition congruence].
    split; [auto|]. intros _. by rewrite Hd.
  - intros name. unfold history_of; cbn. intros Hne.
    apply lookup_insert_is_Some'.
    destruct (decide (p = name)) as [<-|Hneq]; [by left|right].
    apply Hhistory. unfold history_of.
    by rewrite lookup_insert_ne in Hne.
Qed.

Lemma deactivateProtocol_ok (now : Z) (sender : address) (p reason : string)
    (s s' : State) :
  deactivateProtocol sender p reason s = Ok s' ->
  oracle_ok now s -> oracle_ok now s'.
Proof.
  intros H (Hrecords & Hlisted & Hhistory).
  unfold deactivateProtocol in H. steps_Ok H. injection H as <-.
  apply require_Ok in Hstep0.
  destruct (yield_of_active _ _ Hstep0) as (d & Hd & Heq).
  destruct (Hrecords p d Hd) as [Hok Hpast].
  split; [|split]; cbn.
  - intros name d' Hd'.
    apply lookup_insert_Some in Hd' as [[<- <-] | [Hne Hd']];
      [|by apply Hrecords].
    rewrite Heq. split; [exact Hok | exact Hpast].
  - intros name. rewrite lookup_insert_is_Some, Hlisted.
    destruct (decide (p = name)) as [<-|Hne]; [|intuition congruence].
    split; [auto|]. intros _. by rewrite Hd.
  - intros name Hne. apply lookup_insert_is_Some'. right.
    by apply Hhistory.
Qed.

Lemma call_ok (now : Z) (c : OracleTrace.Call) (s s' : State) :
  OracleTrace.call now c s = Ok s' -> oracle_ok now s -> oracle_ok now s'.
Proof.
  destruct c; simpl; intros H Hok.
  - unfold addProtocol in H. step_Ok H. by apply _addProtocol_ok in H.
  - by apply updateYield_ok in H.
  - by apply deactivateProtocol_ok with (now := now) in H.
  - unfold authorizeUpdater in H. steps_Ok H. injection H as <-. exact Hok.
  - unfold pause in H. steps_Ok H. injection H as <-. exact Hok.
  - unfold unpause in H. steps_Ok H. injection H as <-. exact Hok.
Qed.

Lemma deploy_ok (t : Z) (deployer : address) (o : State) :
  deploy t deployer = Ok o -> oracle_ok t o.
Proof.
  unfold deploy. intros H. do 7 step_Ok H.
  apply _addProtocol_ok in H; [assumption|clear H].
  repeat match goal with
         | Hadd : _addProtocol _ _ _ _ = Ok _ |- _ =>
             apply _addProtocol_ok in Hadd; [assumption|clear Hadd]
         end.
  split; [|split]; cbn.
  - intros name d Hd. by rewrite lookup_empty in Hd.
  - intros name. rewrite lookup_empty. split; [by intros ?%elem_of_nil|].
    by intros [? ?].
  - intros name. unfold history_of; cbn. by rewrite lookup_empty.
Qed.

Lemma run_ok (cs : list (Z * OracleTrace.Call)) :
  forall (t : Z) (s : State),
    oracle_ok t s -> OracleTrace.chronological t cs ->
    oracle_ok (OracleTrace.last_time t cs) (OracleTrace.run cs s).
Proof.
  induction cs as [|[t1 c] rest IH]; intros t s Hok Htimes; [exact Hok|].
  destruct Htimes as [Hle Htimes]. cbn in *.
  apply IH; [|exact Htimes].
  apply oracle_ok_later with (t := t1) in Hok; [|exact Hle].
  unfold OracleTrace.step; cbn.
  destruct (OracleTrace.call t1 c s) as [s'|f] eqn:Hcall; [|exact Hok].
  by apply call_ok with c s.
Qed.

End OracleInvariant.

(** X5.  In every state the oracle reaches from deployment through calls
    at non-decreasing block times, each stored record carries its own
    non-empty name, a risk score between 1 and 10, an apy of at most
    50000, a tvl that is 0 (never updated) or at least the minimum
    threshold, and a timestamp not later than the last call; the venues
    listed are exactly those with a record, and only they have history. *)
Theorem oracle_records_stay_well_formed :
  forall (t : Z) (deployer : address) (o : YieldOracle.State)
         (cs : list (Z * OracleTrace.Call)),
    YieldOracle.deploy t deployer = Ok o ->
    OracleTrace.chronological t cs ->
    Invariants.oracle_ok (OracleTrace.last_time t cs) (OracleTrace.run cs o).
Proof.
  intros t deployer o cs Hdeploy Htimes.
  apply run_ok; [by apply deploy_ok with deployer | exact Htimes].
Qed.

(** An update, a deactivation and a new registration after deployment. *)
Lemma oracle_records_stay_well_formed_witness :
  let cs := [ (100, OracleTrace.UpdateYield Scenario.admin "Aave" 320
                      (2500000000 * ether) 2);
              (200, OracleTrace.DeactivateProtocol Scenario.admin "Curve"
                      "exploit");
              (300, OracleTrace.AddProtocol Scenario.admin "Morpho" 5) ] in
  exists o : YieldOracle.State,
    YieldOracle.deploy 0 Scenario.admin = Ok o
    /\ Invariants.oracle_ok 300 (OracleTrace.run cs o).
Proof.
  intros cs.
  run_as constr:(YieldOracle.deploy 0 Scenario.admin)
         (YieldOracle.deploy 0 Scenario.admin) o Ho.
  exists o. split; [reflexivity|].
  apply (oracle_records_stay_well_formed 0 Scenario.admin o cs Ho).
  cbn. lia.
Defined.

Section ReachableQueries.
Import YieldOracle Invariants.

Lemma oracle_ok_listed (now : Z) (s : State) (name : string) :
  oracle_ok now s ->
  name ∈ supportedProtocols s ->
  record_ok name (yield_of s name) /\ timestamp (yield_of s name) <= now.
Proof.
  intros (Hrecords & Hlisted & _) Hin.
  apply Hlisted in Hin as [d Hd].
  rewrite (yield_of_Some _ _ _ Hd). by apply Hrecords.
Qed.

Lemma getBestYieldForRisk_reachable (now maxRisk minTvl : Z) (s : State) :
  oracle_ok now s ->
  1 <= maxRisk <= 10 ->
  exists (name : string) (best risk : Z),
    getBestYieldForRisk now maxRisk minTvl s = Ok (name, best, risk)
    /\ ((name, best, risk) = Claims.none
        \/ (name ∈ supportedProtocols s
            /\ name <> ""
            /\ yield_of s name
               = mkYieldData name best (tvl (yield_of s name)) risk
                   (timestamp (yield_of s name)) true
            /\ 0 < best <= 50000
            /\ 1 <= risk <= maxRisk
            /\ minTvl <= tvl (yield_of s name)
            /\ now - timestamp (yield_of s name) <= MAX_STALENESS)).
Proof.
  intros Hok Hrisk.
  destruct (getBestYieldForRisk_selection now maxRisk minTvl s)
    as (r & Hr & Hsel); [|exact Hrisk|].
  { intros name Hin. by destruct (oracle_ok_listed now s name Hok Hin). }
  destruct Hsel
    as [(i & name & (Hi & (Hactive & Hceil & Htvl & Hfresh) & _) & Hpos & ->)
       | (-> & _)].
  - exists name, (apy (yield_of s name)), (riskScore (yield_of s name)).
    split; [exact Hr|]. right.
    assert (Hin : name ∈ supportedProtocols s)
      by (by apply list_elem_of_lookup_2 with i).
    destruct (oracle_ok_listed now s name Hok Hin)
      as [(Hprotocol & Hname & Hscore & Hapy & _) _].
    repeat split; try assumption; try lia.
    destruct (yield_of s name); cbn in *. by subst.
  - exists "", 0, 0. split; [exact Hr | by left].
Qed.

End ReachableQueries.

(** X6.  On every state the oracle reaches from deployment through calls
    at non-decreasing block times, [getBestYieldForRisk] asked at or after
    the last call with a ceiling between 1 and 10 never reverts; its answer
    is "none" or the name, apy and risk score of a listed, active venue,
    with 0 < apy <= 50000, 1 <= risk <= ceiling, enough tvl and a quote
    not older than MAX_STALENESS. *)
Theorem getBestYieldForRisk_answers_on_reachable_states :
  forall (t : Z) (deployer : address) (o : YieldOracle.State)
         (cs : list (Z * OracleTrace.Call)) (now maxRisk minTvl : Z),
    YieldOracle.deploy t deployer = Ok o ->
    OracleTrace.chronological t cs ->
    OracleTrace.last_time t cs <= now ->
    1 <= maxRisk <= 10 ->
    let s := OracleTrace.run cs o in
    exists (name : string) (best risk : Z),
      YieldOracle.getBestYieldForRisk now maxRisk minTvl s
        = Ok (name, best, risk)
      /\ ((name, best, risk) = Claims.none
          \/ (name ∈ YieldOracle.supportedProtocols s
              /\ name <> ""
              /\ YieldOracle.yield_of s name
                 = YieldOracle.mkYieldData name best
                     (YieldOracle.tvl (YieldOracle.yield_of s name)) risk
                     (YieldOracle.timestamp (YieldOracle.yield_of s name))
                     true
              /\ 0 < best <= 50000
              /\ 1 <= risk <= maxRisk
              /\ minTvl <= YieldOracle.tvl (YieldOracle.yield_of s name)
              /\ now - YieldOracle.timestamp (YieldOracle.yield_of s name)
                 <= YieldOracle.MAX_STALENESS)).
Proof.
  intros t deployer o cs now maxRisk minTvl Hdeploy Htimes Hnow Hrisk s.
  apply getBestYieldForRisk_reachable; [|exact Hrisk].
  apply oracle_ok_later with (OracleTrace.last_time t cs); [|exact Hnow].
  apply run_ok; [by apply deploy_ok with deployer | exact Htimes].
Qed.

(** After two quotes at time 100 the best venue under ceiling 3 at time
    200 is found without revert. *)
Lemma getBestYieldForRisk_answers_on_reachable_states_witness :
  let cs := [ (100, OracleTrace.UpdateYield Scenario.admin "Aave" 320
                      (2500000000 * ether) 2);
              (100, OracleTrace.UpdateYield Scenario.admin "Curve" 540
                      (850000000 * ether) 3) ] in
  exists (o : YieldOracle.State),
    YieldOracle.deploy 0 Scenario.admin = Ok o
    /\ YieldOracle.getBestYieldForRisk 200 3 (100000000 * ether)
         (OracleTrace.run cs o) = Ok ("Curve", 540, 3).
Proof.
  intros cs.
  run_as constr:(YieldOracle.deploy 0 Scenario.admin)
         (YieldOracle.deploy 0 Scenario.admin) o Ho.
  exists o. split; [reflexivity|].
  destruct (getBestYieldForRisk_answers_on_reachable_states 0 Scenario.admin
              o cs 200 3 (100000000 * ether) Ho)
    as (name & best & risk & Hcall & _); [cbn; lia | cbn; lia | lia |].
  rewrite Hcall.
  observe Hanswer
    constr:((do o <- YieldOracle.deploy 0 Scenario.admin;
             YieldOracle.getBestYieldForRisk 200 3 (100000000 * ether)
               (OracleTrace.run
                  [ (100, OracleTrace.UpdateYield Scenario.admin "Aave" 320
                            (2500000000 * ether) 2);
                    (100, OracleTrace.UpdateYield Scenario.admin "Curve" 540
                            (850000000 * ether) 3) ] o))
            = Ok ("Curve", 540, 3)).
  fold cs in Hanswer. rewrite Hcall in Hanswer. exact Hanswer.
Defined.

Section ActiveYields.
Import YieldOracle Views.

Lemma active_count_spec (s : State) (names : list string) :
  forall c : Z,
    c + Z.of_nat (length names) <= MAX_UINT256 ->
    active_count s names c
    = Ok (c + Z.of_nat (length (List.filter (is_active s) names))).
Proof.
  induction names as [|name names IH]; intros c Hfits.
  - cbn [active_count List.filter length]. f_equal. lia.
  - cbn [active_count List.filter length] in *. unfold is_active at 1.
    destruct (active (yield_of s name)).
    + unfold checked_add.
      replace (c + 1 <=? MAX_UINT256) with true
        by (symmetry; apply Z.leb_le; lia).
      cbn [bind length]. rewrite IH by lia. f_equal. lia.
    + apply IH. lia.
Qed.

Lemma array_set_next {A : Type} (done : list A) (k : nat) (blank x : A) :
  array_set (done ++ replicate (S k) blank) (Z.of_nat (length done)) x
  = Ok ((done ++ [x]) ++ replicate k blank).
Proof.
  unfold array_set.
  replace ((0 <=? Z.of_nat (length done))
           && (Z.of_nat (length done)
               <? Z.of_nat (length (done ++ replicate (S k) blank))))
    with true.
  - f_equal. rewrite Nat2Z.id, insert_app_r_alt by lia.
    rewrite Nat.sub_diag, <- app_assoc. reflexivity.
  - symmetry. apply andb_true_iff. split.
    + apply Z.leb_le. lia.
    + apply Z.ltb_lt. rewrite length_app, length_replicate. lia.
Qed.

Lemma _isStaleData_past (now ts : Z) :
  ts <= now -> _isStaleData now ts = Ok (MAX_STALENESS <? now - ts).
Proof.
  intros Hpast. unfold _isStaleData, checked_sub.
  replace (ts <=? now) with true by (symmetry; apply Z.leb_le; lia).
  reflexivity.
Qed.

Lemma fill_active_spec (now : Z) (s : State) (names : list string) :
  forall (P : list string) (A R : list Z) (k : nat),
    (forall name, name ∈ names -> timestamp (yield_of s name) <= now) ->
    length A = length P -> length R = length P ->
    (length (List.filter (is_fresh now s) names) <= k)%nat ->
    Z.of_nat (length P + k) <= MAX_UINT256 ->
    fill_active now s names
      (P ++ replicate k "", A ++ replicate k 0, R ++ replicate k 0)
      (Z.of_nat (length P))
    = Ok (let fresh := List.filter (is_fresh now s) names in
          let blank := (k - length fresh)%nat in
          (P ++ fresh ++ replicate blank "",
           A ++ map (fun name => apy (yield_of s name)) fresh
             ++ replicate blank 0,
           R ++ map (fun name => riskScore (yield_of s name)) fresh
             ++ replicate blank 0)).
Proof.
  induction names as [|name names IH]; intros P A R k Hpast HA HR Hroom Hfits.
  - cbn [fill_active List.filter length map app]. by rewrite Nat.sub_0_r.
  - assert (Hname : timestamp (yield_of s name) <= now)
      by (apply Hpast; left).
    assert (Hrest : forall n, n ∈ names -> timestamp (yield_of s n) <= now)
      by (intros n Hn; apply Hpast; by right).
    assert (Hcond : active (yield_of s name)
                    && negb (MAX_STALENESS <? now - timestamp (yield_of s name))
                    = is_fresh now s name)
      by (unfold is_fresh; by rewrite Z.leb_antisym).
    cbn [fill_active List.filter] in *.
    rewrite _isStaleData_past by exact Hname. cbn [bind].
    destruct (is_fresh now s name);
      destruct (active (yield_of s name)); cbn [andb] in Hcond;
      try discriminate Hcond;
      try (destruct (MAX_STALENESS <? now - timestamp (yield_of s name));
           cbn [negb] in Hcond |- *; try discriminate Hcond);
      try (by apply IH).
    destruct k as [|k]; [cbn [length] in Hroom; lia|].
    cbn [length] in Hroom.
    rewrite array_set_next. cbn [bind].
    rewrite <- HA, array_set_next. cbn [bind].
    rewrite HA, <- HR, array_set_next. cbn [bind].
    rewrite HR. unfold checked_add.
    replace (Z.of_nat (length P) + 1 <=? MAX_UINT256) with true
      by (symmetry; apply Z.leb_le; lia).
    cbn [bind].
    replace (Z.of_nat (length P) + 1) with (Z.of_nat (length (P ++ [name])))
      by (rewrite length_app; cbn [length]; lia).
    rewrite IH.
    + cbn [length map]. cbn zeta. rewrite <- !app_assoc.
      replace (S k - S (length (List.filter (is_fresh now s) names)))%nat
        with (k - length (List.filter (is_fresh now s) names))%nat by lia.
      reflexivity.
    + exact Hrest.
    + rewrite !length_app. cbn [length]. lia.
    + rewrite !length_app. cbn [length]. lia.
    + lia.
    + rewrite length_app. cbn [length]. lia.
Qed.

Lemma fresh_among_active (now : Z) (s : State) (names : list string) :
  (length (List.filter (is_fresh now s) names)
   <= length (List.filter (is_active s) names))%nat.
Proof.
  induction names as [|name names IH]; [reflexivity|].
  cbn [List.filter]. unfold is_fresh at 1, is_active at 1.
  destruct (active (yield_of s name)); cbn [andb]; [|exact IH].
  destruct (now - timestamp (yield_of s name) <=? MAX_STALENESS);
    cbn [length]; lia.
Qed.

Lemma filter_length_le {A : Type} (f : A -> bool) (l : list A) :
  (length (List.filter f l) <= length l)%nat.
Proof.
  induction l as [|x l IH]; [reflexivity|].
  cbn [List.filter]. destruct (f x); cbn [length]; lia.
Qed.

End ActiveYields.

(** X7.  [getAllActiveYields] allocates one slot per active entry of the
    venue list and fills in, in list order, the entries that are active and
    fresh; the slots left over, one for every active entry that is stale,
    stay blank (empty name, apy 0, risk score 0) at the end of the arrays.
    With no record from the future and a list that fits a uint256 it never
    reverts. *)
Theorem getAllActiveYields_lists_fresh_then_blank :
  forall (now : Z) (s : YieldOracle.State),
    (forall name, name ∈ YieldOracle.supportedProtocols s ->
       YieldOracle.timestamp (YieldOracle.yield_of s name) <= now) ->
    Z.of_nat (length (YieldOracle.supportedProtocols s)) <= MAX_UINT256 ->
    let fresh := Views.fresh_entries now s in
    let blank := (length (Views.active_entries s) - length fresh)%nat in
    YieldOracle.getAllActiveYields now s
    = Ok (fresh ++ replicate blank "",
          map (fun name => YieldOracle.apy (YieldOracle.yield_of s name))
              fresh ++ replicate blank 0,
          map (fun name => YieldOracle.riskScore (YieldOracle.yield_of s name))
              fresh ++ replicate blank 0).
Proof.
  intros now s Hpast Hfits fresh blank.
  unfold YieldOracle.getAllActiveYields, YieldOracle._getActiveProtocolCount.
  rewrite active_count_spec by lia. cbn [bind].
  rewrite Z.add_0_l, Nat2Z.id.
  pose proof (filter_length_le (Views.is_active s)
                (YieldOracle.supportedProtocols s)) as Hactive.
  apply (fill_active_spec now s (YieldOracle.supportedProtocols s) [] [] []).
  - exact Hpast.
  - reflexivity.
  - reflexivity.
  - apply fresh_among_active.
  - cbn [length]. lia.
Qed.

(** One hour and more after deployment only the venue quoted since is
    fresh: it comes first and seven blank slots follow. *)
Lemma getAllActiveYields_lists_fresh_then_blank_witness :
  let cs := [ (5000, OracleTrace.UpdateYield Scenario.admin "Aave" 320
                       (2500000000 * ether) 2) ] in
  exists o : YieldOracle.State,
    YieldOracle.deploy 0 Scenario.admin = Ok o
    /\ YieldOracle.getAllActiveYields 5000 (OracleTrace.run cs o)
       = Ok (["Aave"; ""; ""; ""; ""; ""; ""; ""],
             [320; 0; 0; 0; 0; 0; 0; 0],
             [2; 0; 0; 0; 0; 0; 0; 0]).
Proof.
  intros cs.
  run_as constr:(YieldOracle.deploy 0 Scenario.admin)
         (YieldOracle.deploy 0 Scenario.admin) o Ho.
  exists o. split; [reflexivity|].
  assert (Hok : Invariants.oracle_ok 5000 (OracleTrace.run cs o)).
  { apply (run_ok cs 0 o); [by apply deploy_ok with Scenario.admin|].
    cbn. lia. }
  observe Hshape
    constr:((do o <- YieldOracle.deploy 0 Scenario.admin;
             let s := OracleTrace.run
                        [ (5000, OracleTrace.UpdateYield Scenario.admin "Aave"
                                   320 (2500000000 * ether) 2) ] o in
             Ok (length (YieldOracle.supportedProtocols s),
                 Views.fresh_entries 5000 s,
                 length (Views.active_entries s),
                 map (fun name => YieldOracle.apy (YieldOracle.yield_of s name))
                     (Views.fresh_entries 5000 s),
                 map (fun name =>
                        YieldOracle.riskScore (YieldOracle.yield_of s name))
                     (Views.fresh_entries 5000 s)))
            = Ok (8%nat, ["Aave"], 8%nat, [320], [2])).
  injection Hshape as Hlength Hfresh Hactive Hapys Hrisks.
  rewrite (getAllActiveYields_lists_fresh_then_blank 5000
             (OracleTrace.run cs o)).
  - unfold cs. cbn [OracleTrace.run].
    rewrite Hapys, Hrisks, Hfresh, Hactive. reflexivity.
  - intros name Hin. by destruct (oracle_ok_listed _ _ _ Hok Hin).
  - unfold cs. cbn [OracleTrace.run]. rewrite Hlength.
    unfold MAX_UINT256. lia.
Defined.

Section Comparison.
Import YieldOracle Invariants Views.

Lemma is_fresh_true (now : Z) (s : State) (p : string) :
  oracle_ok now s ->
  is_fresh now s p = true ->
  active (yield_of s p) = true
  /\ now - timestamp (yield_of s p) <= MAX_STALENESS
  /\ timestamp (yield_of s p) <= now
  /\ record_ok p (yield_of s p).
Proof.
  intros (Hrecords & _) Hfresh. unfold is_fresh in Hfresh.
  apply andb_true_iff in Hfresh as [Hactive Hage].
  apply Z.leb_le in Hage.
  destruct (yield_of_active s p Hactive) as (d & Hd & Heq).
  rewrite Heq in *. destruct (Hrecords p d Hd). auto.
Qed.

Lemma adjusted_yield_ok (p : string) (d : YieldData) :
  record_ok p d -> adjusted_yield d = Ok (adjusted d).
Proof.
  intros (_ & _ & Hrisk & Hapy & _).
  unfold adjusted_yield, adjusted, checked_mul, checked_add8, checked_div.
  replace (apy d * 10 <=? MAX_UINT256) with true
    by (symmetry; apply Z.leb_le; unfold MAX_UINT256; lia).
  cbn [bind].
  replace (riskScore d + 1 <=? 255) with true
    by (symmetry; apply Z.leb_le; lia).
  cbn [bind].
  replace (riskScore d + 1 =? 0) with false
    by (symmetry; apply Z.eqb_neq; lia).
  reflexivity.
Qed.

Lemma compareProtocols_fresh (now : Z) (s : State) (p1 p2 : string) :
  oracle_ok now s ->
  is_fresh now s p1 = true -> is_fresh now s p2 = true ->
  compareProtocols now s p1 p2
  = Ok (if adjusted (yield_of s p2) <? adjusted (yield_of s p1)
        then (p1, Z.max 0 (apy (yield_of s p1) - apy (yield_of s p2)))
        else (p2, Z.max 0 (apy (yield_of s p2) - apy (yield_of s p1)))).
Proof.
  intros Hok Hfresh1 Hfresh2.
  destruct (is_fresh_true now s p1 Hok Hfresh1)
    as (Hactive1 & Hage1 & Hpast1 & Hrecord1).
  destruct (is_fresh_true now s p2 Hok Hfresh2)
    as (Hactive2 & Hage2 & Hpast2 & Hrecord2).
  unfold compareProtocols.
  rewrite Hactive1, Hactive2. cbn [andb require bind].
  rewrite !_isStaleData_past by assumption. cbn [bind].
  replace (MAX_STALENESS <? now - timestamp (yield_of s p1)) with false
    by (symmetry; apply Z.ltb_ge; lia).
  replace (MAX_STALENESS <? now - timestamp (yield_of s p2)) with false
    by (symmetry; apply Z.ltb_ge; lia).
  cbn [negb bind require].
  rewrite (adjusted_yield_ok p1), (adjusted_yield_ok p2) by assumption.
  cbn [bind]. unfold checked_sub.
  destruct (adjusted (yield_of s p2) <? adjusted (yield_of s p1)).
  - destruct (Z.ltb_spec (apy (yield_of s p2)) (apy (yield_of s p1)))
      as [Hlt|Hge].
    + replace (apy (yield_of s p2) <=? apy (yield_of s p1)) with true
        by (symmetry; apply Z.leb_le; lia).
      cbn [bind]. do 2 f_equal. lia.
    + cbn [bind]. do 2 f_equal. lia.
  - destruct (Z.ltb_spec (apy (yield_of s p1)) (apy (yield_of s p2)))
      as [Hlt|Hge].
    + replace (apy (yield_of s p1) <=? apy (yield_of s p2)) with true
        by (symmetry; apply Z.leb_le; lia).
      cbn [bind]. do 2 f_equal. lia.
    + cbn [bind]. do 2 f_equal. lia.
Qed.

(** The oracle after the calls of [Scenario.market] on a fresh deployment. *)
Lemma market_ok (o : State) :
  deploy 0 Scenario.admin = Ok o ->
  oracle_ok 200 (OracleTrace.run Scenario.market o).
Proof.
  intros Ho. apply oracle_ok_later with 100; [|lia].
  apply (run_ok Scenario.market 0 o); [by apply deploy_ok with Scenario.admin|].
  cbn. lia.
Qed.

End Comparison.

(** X8.  For two active venues with fresh quotes in a well-formed oracle,
    [compareProtocols] never reverts.  It names the first venue exactly
    when its risk-adjusted yield apy * 10 / (riskScore + 1) is strictly the
    larger one, and the second venue otherwise (so also on a tie); the
    difference returned is the winner's raw apy minus the loser's, or 0
    when the winner's raw apy is not the higher one. *)
Theorem compareProtocols_prefers_risk_adjusted_yield :
  forall (now : Z) (s : YieldOracle.State) (p1 p2 : string),
    Invariants.oracle_ok now s ->
    Views.is_fresh now s p1 = true ->
    Views.is_fresh now s p2 = true ->
    let d1 := YieldOracle.yield_of s p1 in
    let d2 := YieldOracle.yield_of s p2 in
    YieldOracle.compareProtocols now s p1 p2
    = Ok (if Views.adjusted d2 <? Views.adjusted d1
          then (p1, Z.max 0 (YieldOracle.apy d1 - YieldOracle.apy d2))
          else (p2, Z.max 0 (YieldOracle.apy d2 - YieldOracle.apy d1))).
Proof.
  intros now s p1 p2 Hok Hfresh1 Hfresh2 d1 d2.
  by apply compareProtocols_fresh.
Qed.

(** Aave at 3.00% with risk 2 beats Curve at 3.50% with risk 9, and the
    difference reported is 0. *)
Lemma compareProtocols_prefers_risk_adjusted_yield_witness :
  exists o : YieldOracle.State,
    YieldOracle.deploy 0 Scenario.admin = Ok o
    /\ YieldOracle.compareProtocols 200
         (OracleTrace.run Scenario.market o) "Aave" "Curve"
       = Ok ("Aave", 0).
Proof.
  run_as constr:(YieldOracle.deploy 0 Scenario.admin)
         (YieldOracle.deploy 0 Scenario.admin) o Ho.
  exists o. split; [reflexivity|].
  observe Hfacts
    constr:((do o <- YieldOracle.deploy 0 Scenario.admin;
             let s := OracleTrace.run Scenario.market o in
             Ok (Views.is_fresh 200 s "Aave", Views.is_fresh 200 s "Curve",
                 Views.adjusted (YieldOracle.yield_of s "Aave"),
                 Views.adjusted (YieldOracle.yield_of s "Curve"),
                 YieldOracle.apy (YieldOracle.yield_of s "Aave"),
                 YieldOracle.apy (YieldOracle.yield_of s "Curve")))
            = Ok (true, true, 1000, 350, 300, 350)).
  injection Hfacts as Hfresh1 Hfresh2 Hadjusted1 Hadjusted2 Hapy1 Hapy2.
  rewrite (compareProtocols_prefers_risk_adjusted_yield 200
             (OracleTrace.run Scenario.market o) "Aave" "Curve"
             (market_ok o Ho) Hfresh1 Hfresh2).
  unfold Scenario.market. cbn [OracleTrace.run].
  rewrite Hadjusted1, Hadjusted2, Hapy1, Hapy2. reflexivity.
Defined.

(** X9.  The order of the arguments of [compareProtocols] matters only
    on a tie between two different venues.  For two fresh active venues:
    when their risk-adjusted yields differ, both orders give the same
    answer; when they are equal, each order names its own second argument,
    with the raw apy by which that venue leads, or 0; so the two orders
    give the same answer exactly when the risk-adjusted yields differ or
    the two arguments are the same venue. *)
Theorem compareProtocols_order_matters_only_on_ties :
  forall (now : Z) (s : YieldOracle.State) (p1 p2 : string),
    Invariants.oracle_ok now s ->
    Views.is_fresh now s p1 = true ->
    Views.is_fresh now s p2 = true ->
    let d1 := YieldOracle.yield_of s p1 in
    let d2 := YieldOracle.yield_of s p2 in
    (Views.adjusted d1 <> Views.adjusted d2 ->
     YieldOracle.compareProtocols now s p1 p2
     = YieldOracle.compareProtocols now s p2 p1)
    /\ (Views.adjusted d1 = Views.adjusted d2 ->
        YieldOracle.compareProtocols now s p1 p2
        = Ok (p2, Z.max 0 (YieldOracle.apy d2 - YieldOracle.apy d1))
        /\ YieldOracle.compareProtocols now s p2 p1
           = Ok (p1, Z.max 0 (YieldOracle.apy d1 - YieldOracle.apy d2)))
    /\ (YieldOracle.compareProtocols now s p1 p2
        = YieldOracle.compareProtocols now s p2 p1
        <-> Views.adjusted d1 <> Views.adjusted d2 \/ p1 = p2).
Proof.
  intros now s p1 p2 Hok Hfresh1 Hfresh2 d1 d2.
  rewrite !compareProtocols_fresh by assumption.
  fold d1 d2.
  set (a1 := Views.adjusted d1). set (a2 := Views.adjusted d2).
  split; [|split].
  - intros Hne.
    destruct (Z.ltb_spec a2 a1), (Z.ltb_spec a1 a2); try reflexivity; lia.
  - intros Heq. rewrite Heq, Z.ltb_irrefl. by split.
  - split.
    + intros Hsame.
      destruct (Z.eq_dec a1 a2) as [Heq|Hne]; [right | by left].
      rewrite Heq, Z.ltb_irrefl in Hsame. congruence.
    + intros [Hne | ->]; [|reflexivity].
      destruct (Z.ltb_spec a2 a1), (Z.ltb_spec a1 a2); try reflexivity; lia.
Qed.

(** The oracle after the calls of [Scenario.level] on a fresh deployment. *)
Lemma level_ok (o : YieldOracle.State) :
  YieldOracle.deploy 0 Scenario.admin = Ok o ->
  Invariants.oracle_ok 200 (OracleTrace.run Scenario.level o).
Proof.
  intros Ho. apply oracle_ok_later with 100; [|lia].
  apply (run_ok Scenario.level 0 o); [by apply deploy_ok with Scenario.admin|].
  cbn. lia.
Qed.

(** Aave against Curve, in both orders: with [Scenario.market], where Aave
    leads, both orders name Aave; with [Scenario.level], where the two
    tie, each order names its second argument and the answers differ. *)
Lemma compareProtocols_order_matters_only_on_ties_witness :
  exists o : YieldOracle.State,
    YieldOracle.deploy 0 Scenario.admin = Ok o
    /\ YieldOracle.compareProtocols 200
         (OracleTrace.run Scenario.market o) "Aave" "Curve"
       = YieldOracle.compareProtocols 200
           (OracleTrace.run Scenario.market o) "Curve" "Aave"
    /\ YieldOracle.compareProtocols 200
         (OracleTrace.run Scenario.level o) "Aave" "Curve"
       = Ok ("Curve", 100)
    /\ YieldOracle.compareProtocols 200
         (OracleTrace.run Scenario.level o) "Curve" "Aave"
       = Ok ("Aave", 0).
Proof.
  run_as constr:(YieldOracle.deploy 0 Scenario.admin)
         (YieldOracle.deploy 0 Scenario.admin) o Ho.
  exists o. split; [reflexivity|].
  observe Hmarket
    constr:((do o <- YieldOracle.deploy 0 Scenario.admin;
             let s := OracleTrace.run Scenario.market o in
             Ok (Views.is_fresh 200 s "Aave", Views.is_fresh 200 s "Curve",
                 Views.adjusted (YieldOracle.yield_of s "Aave"),
                 Views.adjusted (YieldOracle.yield_of s "Curve")))
            = Ok (true, true, 1000, 350)).
  injection Hmarket as Hfresh1 Hfresh2 Hadjusted1 Hadjusted2.
  observe Hlevel
    constr:((do o <- YieldOracle.deploy 0 Scenario.admin;
             let s := OracleTrace.run Scenario.level o in
             Ok (Views.is_fresh 200 s "Aave", Views.is_fresh 200 s "Curve",
                 Views.adjusted (YieldOracle.yield_of s "Aave"),
                 Views.adjusted (YieldOracle.yield_of s "Curve"),
                 YieldOracle.apy (YieldOracle.yield_of s "Aave"),
                 YieldOracle.apy (YieldOracle.yield_of s "Curve")))
            = Ok (true, true, 1000, 1000, 300, 400)).
  injection Hlevel as Hfresh1' Hfresh2' Hadjusted1' Hadjusted2' Hapy1 Hapy2.
  split.
  - apply (compareProtocols_order_matters_only_on_ties 200
             (OracleTrace.run Scenario.market o) "Aave" "Curve"
             (market_ok o Ho) Hfresh1 Hfresh2).
    unfold Scenario.market. cbn [OracleTrace.run].
    rewrite Hadjusted1, Hadjusted2. lia.
  - destruct (compareProtocols_order_matters_only_on_ties 200
                (OracleTrace.run Scenario.level o) "Aave" "Curve"
                (level_ok o Ho) Hfresh1' Hfresh2') as (_ & Htie & _).
    destruct Htie as [Hfirst Hsecond].
    + unfold Scenario.level. cbn [OracleTrace.run].
      by rewrite Hadjusted1', Hadjusted2'.
    + rewrite Hfirst, Hsecond.
      unfold Scenario.level. cbn [OracleTrace.run].
      rewrite Hapy1, Hapy2. by split.
Defined.

Section Deactivation.
Import YieldOracle Invariants.

Lemma onlyOwner_Ok (owner sender : address) (u : unit) :
  onlyOwner owner sender = Ok u -> sender = owner.
Proof. intros H. apply require_Ok in H. by apply Z.eqb_eq. Qed.

Lemma onlyOwner_owner (owner : address) : onlyOwner owner owner = Ok tt.
Proof. unfold onlyOwner. by rewrite Z.eqb_refl. Qed.

Lemma deactivateProtocol_Ok (sender : address) (p reason : string)
    (s s' : State) :
  deactivateProtocol sender p reason s = Ok s' ->
  sender = owner s
  /\ active (yield_of s p) = true
  /\ protocolYields s'
     = <[p := mkYieldData (protocol (yield_of s p)) (apy (yield_of s p))
                (tvl (yield_of s p)) (riskScore (yield_of s p))
                (timestamp (yield_of s p)) false]> (protocolYields s)
  /\ yieldHistory s' = yieldHistory s
  /\ supportedProtocols s' = supportedProtocols s
  /\ authorizedUpdaters s' = authorizedUpdaters s
  /\ paused s' = paused s /\ owner s' = owner s.
Proof.
  unfold deactivateProtocol. intros H. steps_Ok H. injection H as <-.
  apply onlyOwner_Ok in Hstep. apply require_Ok in Hstep0.
  repeat split; auto.
Qed.

(** A scan answers its starting value or a venue that is active. *)
Lemma best_scan_active (now maxRisk minTvl : Z) (s : State)
    (names : list string) :
  forall acc r : string * Z * Z,
    best_scan now maxRisk minTvl s names acc = Ok r ->
    r = acc \/ active (yield_of s (fst (fst r))) = true.
Proof.
  induction names as [|name names IH]; intros [[top hy] tr] r H.
  - injection H as <-. by left.
  - cbn [best_scan] in H.
    destruct (active (yield_of s name)) eqn:Hactive; cbn [andb] in H;
      [|by apply IH].
    destruct (_ && _) in H; [|by apply IH].
    step_Ok H. destruct (negb _) in H; [|by apply IH].
    apply IH in H as [-> | H]; [right; exact Hactive | by right].
Qed.

End Deactivation.

(** X10.  A successful [deactivateProtocol] comes from the owner and only
    clears the venue's active flag: its quote, its history and the venue
    list stay, and no other record changes.  From then on [updateYield]
    for the venue is rejected, [compareProtocols] rejects it on either
    side, a second deactivation is rejected, and [getBestYieldForRisk]
    never answers with it. *)
Theorem deactivateProtocol_retires_venue :
  forall (sender : address) (p reason : string) (s s' : YieldOracle.State),
    YieldOracle.deactivateProtocol sender p reason s = Ok s' ->
    let d := YieldOracle.yield_of s p in
    sender = YieldOracle.owner s
    /\ YieldOracle.getProtocolYield s' p
       = (YieldOracle.apy d, YieldOracle.tvl d, YieldOracle.riskScore d,
          YieldOracle.timestamp d, false)
    /\ YieldOracle.supportedProtocols s' = YieldOracle.supportedProtocols s
    /\ (forall q, YieldOracle.history_of s' q = YieldOracle.history_of s q)
    /\ (forall q, q <> p -> YieldOracle.yield_of s' q = YieldOracle.yield_of s q)
    /\ (forall now updater newApy newTvl newRisk,
          YieldOracle.updateYield now updater p newApy newTvl newRisk s'
          = Revert (Error (if YieldOracle.is_updater s' updater
                              || (updater =? YieldOracle.owner s')
                           then "Protocol not active"
                           else "Not authorized")))
    /\ (forall now q,
          YieldOracle.compareProtocols now s' p q
          = Revert (Error "One or both protocols inactive")
          /\ YieldOracle.compareProtocols now s' q p
             = Revert (Error "One or both protocols inactive"))
    /\ (forall again,
          YieldOracle.deactivateProtocol sender p again s'
          = Revert (Error "Protocol already inactive"))
    /\ (forall now maxRisk minTvl name best risk,
          YieldOracle.getBestYieldForRisk now maxRisk minTvl s'
          = Ok (name, best, risk) ->
          name = p -> (name, best, risk) = Claims.none).
Proof.
  intros sender p reason s s' H d.
  apply deactivateProtocol_Ok in H
    as (Hsender & Hactive & Hyields & Hhistory & Hnames & _ & _ & Howner).
  assert (Hrecord : YieldOracle.yield_of s' p
                    = YieldOracle.mkYieldData (YieldOracle.protocol d)
                        (YieldOracle.apy d) (YieldOracle.tvl d)
                        (YieldOracle.riskScore d) (YieldOracle.timestamp d)
                        false)
    by (unfold YieldOracle.yield_of at 1; by rewrite Hyields, lookup_insert_eq).
  assert (Hinactive : YieldOracle.active (YieldOracle.yield_of s' p) = false)
    by (by rewrite Hrecord).
  split; [exact Hsender|]. split.
  { unfold YieldOracle.getProtocolYield. by rewrite Hrecord. }
  split; [exact Hnames|]. split.
  { intros q. unfold YieldOracle.history_of. by rewrite Hhistory. }
  split.
  { intros q Hq. unfold YieldOracle.yield_of.
    by rewrite Hyields, lookup_insert_ne. }
  split.
  { intros now updater newApy newTvl newRisk. unfold YieldOracle.updateYield.
    destruct (_ || _); cbn [require bind]; [|reflexivity].
    by rewrite Hinactive. }
  split.
  { intros now q. unfold YieldOracle.compareProtocols.
    rewrite Hinactive, andb_false_r. split; reflexivity. }
  split.
  { intros again. unfold YieldOracle.deactivateProtocol.
    rewrite Howner, Hsender, onlyOwner_owner. cbn [bind].
    by rewrite Hinactive. }
  intros now maxRisk minTvl name best risk Hbest ->.
  unfold YieldOracle.getBestYieldForRisk in Hbest. step_Ok Hbest.
  apply best_scan_active in Hbest as [Hnone | Hbest]; [exact Hnone|].
  cbn [fst] in Hbest. congruence.
Qed.

(** Curve is retired after deployment: its next update is rejected. *)
Lemma deactivateProtocol_retires_venue_witness :
  exists s' : YieldOracle.State,
    (do o <- YieldOracle.deploy 0 Scenario.admin;
     YieldOracle.deactivateProtocol Scenario.admin "Curve" "exploit" o)
    = Ok s'
    /\ YieldOracle.updateYield 10 Scenario.admin "Curve" 540
         (850000000 * ether) 3 s'
       = Revert (Error "Protocol not active").
Proof.
  run_as constr:(YieldOracle.deploy 0 Scenario.admin)
         (YieldOracle.deploy 0 Scenario.admin) o Ho.
  cbn [bind].
  run_as constr:(do o <- YieldOracle.deploy 0 Scenario.admin;
                 YieldOracle.deactivateProtocol Scenario.admin "Curve"
                   "exploit" o)
         (YieldOracle.deactivateProtocol Scenario.admin "Curve" "exploit" o)
         s' Hs'.
  exists s'. split; [reflexivity|].
  destruct (deactivateProtocol_retires_venue Scenario.admin "Curve" "exploit"
              o s' Hs') as (_ & _ & _ & _ & _ & Hupdate & _).
  rewrite Hupdate.
  observe Hadmin
    constr:((do o <- YieldOracle.deploy 0 Scenario.admin;
             do s' <- YieldOracle.deactivateProtocol Scenario.admin "Curve"
                        "exploit" o;
             Ok (YieldOracle.is_updater s' Scenario.admin
                 || (Scenario.admin =? YieldOracle.owner s')))
            = Ok true).
  apply Ok_inj in Hadmin. rewrite Hadmin. reflexivity.
Defined.

(** X11.  A venue that was deactivated can be registered again by the
    owner, with any risk score from 1 to 10: the call succeeds, appends
    the name to the venue list a second time, and starts a fresh record
    with apy 0 and tvl 0, while the history recorded so far is kept. *)
Theorem addProtocol_again_lists_venue_twice :
  forall (t now : Z) (sender : address) (p reason : string) (risk : Z)
         (s s1 : YieldOracle.State),
    Invariants.oracle_ok t s ->
    YieldOracle.deactivateProtocol sender p reason s = Ok s1 ->
    1 <= risk <= 10 ->
    exists s2 : YieldOracle.State,
      YieldOracle.addProtocol now sender p risk s1 = Ok s2
      /\ p ∈ YieldOracle.supportedProtocols s
      /\ YieldOracle.supportedProtocols s2
         = YieldOracle.supportedProtocols s ++ [p]
      /\ YieldOracle.yield_of s2 p
         = YieldOracle.mkYieldData p 0 0 risk now true
      /\ YieldOracle.history_of s2 p = YieldOracle.history_of s p.
Proof.
  intros t now sender p reason risk s s1 (Hrecords & Hlisted & _) H Hrisk.
  apply deactivateProtocol_Ok in H
    as (Hsender & Hactive & Hyields & Hhistory & Hnames & _ & _ & Howner).
  destruct (yield_of_active s p Hactive) as (d & Hd & _).
  destruct (Hrecords p d Hd) as [(_ & Hname & _) _].
  assert (Hinactive : YieldOracle.active (YieldOracle.yield_of s1 p) = false)
    by (unfold YieldOracle.yield_of; by rewrite Hyields, lookup_insert_eq).
  unfold YieldOracle.addProtocol, YieldOracle._addProtocol.
  rewrite Howner, Hsender, onlyOwner_owner. cbn [bind].
  replace (0 <? Z.of_nat (String.length p)) with true
    by (destruct p; [done | symmetry; apply Z.ltb_lt; cbn [String.length]; lia]).
  replace ((1 <=? risk) && (risk <=? 10)) with true
    by (symmetry; apply andb_true_intro; split; apply Z.leb_le; lia).
  rewrite Hinactive. cbn [require bind negb].
  eexists. split; [reflexivity|].
  split; [apply Hlisted; by rewrite Hd|].
  split; [cbn; by rewrite Hnames|].
  split.
  - unfold YieldOracle.yield_of. cbn. by rewrite lookup_insert_eq.
  - unfold YieldOracle.history_of. cbn. by rewrite Hhistory.
Qed.

(** Curve is retired and registered again with risk 5. *)
Lemma addProtocol_again_lists_venue_twice_witness :
  exists s1 s2 : YieldOracle.State,
    (do o <- YieldOracle.deploy 0 Scenario.admin;
     YieldOracle.deactivateProtocol Scenario.admin "Curve" "exploit" o)
    = Ok s1
    /\ YieldOracle.addProtocol 50 Scenario.admin "Curve" 5 s1 = Ok s2
    /\ YieldOracle.supportedProtocols s2
       = ["Aave"; "Compound"; "Curve"; "Uniswap"; "Yearn"; "Convex"; "Lido";
          "Rocket Pool"; "Curve"].
Proof.
  run_as constr:(YieldOracle.deploy 0 Scenario.admin)
         (YieldOracle.deploy 0 Scenario.admin) o Ho.
  cbn [bind].
  run_as constr:(do o <- YieldOracle.deploy 0 Scenario.admin;
                 YieldOracle.deactivateProtocol Scenario.admin "Curve"
                   "exploit" o)
         (YieldOracle.deactivateProtocol Scenario.admin "Curve" "exploit" o)
         s1 Hs1.
  destruct (addProtocol_again_lists_venue_twice 0 50 Scenario.admin "Curve"
              "exploit" 5 o s1)
    as (s2 & Hs2 & _ & Hnames & _);
    [by apply deploy_ok with Scenario.admin | exact Hs1 | lia |].
  exists s1, s2. split; [reflexivity|]. split; [exact Hs2|].
  rewrite Hnames.
  observe Hlisted
    constr:((do o <- YieldOracle.deploy 0 Scenario.admin;
             Ok (YieldOracle.supportedProtocols o))
            = Ok ["Aave"; "Compound"; "Curve"; "Uniswap"; "Yearn"; "Convex";
                  "Lido"; "Rocket Pool"]).
  apply Ok_inj in Hlisted. rewrite Hlisted. reflexivity.
Defined.

(** X12.  After a successful [updateYield] the venue's record reads back
    exactly the values written, stamped with the block time and active;
    the values passed its range checks; and [isDataFresh] answers true
    for that venue during the next MAX_STALENESS seconds and false
    afterwards. *)
Theorem updateYield_reads_back_and_stays_fresh_one_hour :
  forall (now : Z) (sender : address) (p : string) (newApy newTvl newRisk : Z)
         (s s' : YieldOracle.State),
    YieldOracle.updateYield now sender p newApy newTvl newRisk s = Ok s' ->
    YieldOracle.getProtocolYield s' p = (newApy, newTvl, newRisk, now, true)
    /\ 1 <= newRisk <= 10 /\ newApy <= 50000
    /\ YieldOracle.MIN_TVL_THRESHOLD <= newTvl
    /\ (forall later, now <= later ->
          YieldOracle.isDataFresh later s' p
          = Ok (later - now <=? YieldOracle.MAX_STALENESS)).
Proof.
  intros now sender p newApy newTvl newRisk s s' H.
  pose proof (updateYield_Ok _ _ _ _ _ _ _ _ H) as (_ & _ & Hrecord & _).
  unfold YieldOracle.updateYield in H. steps_Ok H. clear H.
  apply require_Ok in Hstep2, Hstep3, Hstep4.
  apply andb_prop in Hstep2 as [Hlo Hhi].
  apply Z.leb_le in Hlo, Hhi, Hstep3, Hstep4.
  split; [unfold YieldOracle.getProtocolYield; by rewrite Hrecord|].
  split; [lia|]. split; [lia|]. split; [lia|].
  intros later Hlater. unfold YieldOracle.isDataFresh.
  rewrite Hrecord. cbn [YieldOracle.timestamp].
  rewrite _isStaleData_past by lia. cbn [bind].
  by rewrite <- Z.leb_antisym.
Qed.

(** Aave is quoted at time 100: fresh at 3700, stale at 3701. *)
Lemma updateYield_reads_back_and_stays_fresh_one_hour_witness :
  exists s' : YieldOracle.State,
    (do o <- YieldOracle.deploy 0 Scenario.admin;
     YieldOracle.updateYield 100 Scenario.admin "Aave" 320
       (2500000000 * ether) 2 o) = Ok s'
    /\ YieldOracle.isDataFresh 3700 s' "Aave" = Ok true
    /\ YieldOracle.isDataFresh 3701 s' "Aave" = Ok false.
Proof.
  run_as constr:(YieldOracle.deploy 0 Scenario.admin)
         (YieldOracle.deploy 0 Scenario.admin) o Ho.
  cbn [bind].
  run_as constr:(do o <- YieldOracle.deploy 0 Scenario.admin;
                 YieldOracle.updateYield 100 Scenario.admin "Aave" 320
                   (2500000000 * ether) 2 o)
         (YieldOracle.updateYield 100 Scenario.admin "Aave" 320
            (2500000000 * ether) 2 o)
         s' Hs'.
  exists s'. split; [reflexivity|].
  destruct (updateYield_reads_back_and_stays_fresh_one_hour _ _ _ _ _ _ _ _ Hs')
    as (_ & _ & _ & _ & Hfresh).
  split; rewrite Hfresh by lia; reflexivity.
Defined.

Section OracleAccess.
Import YieldOracle.

Lemma updateYield_names (now : Z) (sender : address) (p : string)
    (newApy newTvl newRisk : Z) (s s' : State) :
  updateYield now sender p newApy newTvl newRisk s = Ok s' ->
  supportedProtocols s' = supportedProtocols s
  /\ (is_updater s sender || (sender =? owner s)) = true.
Proof.
  unfold updateYield. intros H. steps_Ok H. injection H as <-.
  apply require_Ok in Hstep. split; [reflexivity | exact Hstep].
Qed.

Lemma call_extends (now : Z) (c : OracleTrace.Call) (s s' : State) :
  OracleTrace.call now c s = Ok s' ->
  supportedProtocols s `prefix_of` supportedProtocols s'
  /\ forall p, history_of s p `prefix_of` history_of s' p.
Proof.
  destruct c; cbn [OracleTrace.call]; intros H.
  - unfold addProtocol in H. step_Ok H.
    apply _addProtocol_Ok in H as (_ & _ & _ & _ & Hnames & Hhistory & _).
    rewrite Hnames. split; [by apply prefix_app_r|].
    intros q. unfold history_of. by rewrite Hhistory.
  - destruct (updateYield_names _ _ _ _ _ _ _ _ H) as [Hnames _].
    apply updateYield_Ok in H as (Hhistory & Hothers & _).
    rewrite Hnames. split; [done|].
    intros q. destruct (decide (q = p)) as [->|Hne].
    + rewrite Hhistory. by apply prefix_app_r.
    + by rewrite Hothers.
  - apply deactivateProtocol_Ok in H as (_ & _ & _ & Hhistory & Hnames & _).
    rewrite Hnames. split; [done|].
    intros q. unfold history_of. by rewrite Hhistory.
  - unfold authorizeUpdater in H. steps_Ok H. by injection H as <-.
  - unfold pause in H. steps_Ok H. by injection H as <-.
  - unfold unpause in H. steps_Ok H. by injection H as <-.
Qed.

Lemma call_sender (now : Z) (c : OracleTrace.Call) (s s' : State) :
  OracleTrace.call now c s = Ok s' ->
  OracleTrace.sender_of c = owner s
  \/ (is_updater s (OracleTrace.sender_of c) = true
      /\ exists p newApy newTvl newRisk,
           c = OracleTrace.UpdateYield (OracleTrace.sender_of c) p newApy
                 newTvl newRisk).
Proof.
  destruct c; cbn [OracleTrace.call OracleTrace.sender_of]; intros H.
  - unfold addProtocol in H. step_Ok H. left. by apply onlyOwner_Ok in Hstep.
  - apply updateYield_names in H as [_ H].
    apply orb_prop in H as [H|H]; [right | left; by apply Z.eqb_eq].
    split; [exact H | eauto].
  - left. by apply deactivateProtocol_Ok in H as (H & _).
  - unfold authorizeUpdater in H. step_Ok H. left. by apply onlyOwner_Ok in Hstep.
  - unfold pause in H. step_Ok H. left. by apply onlyOwner_Ok in Hstep.
  - unfold unpause in H. step_Ok H. left. by apply onlyOwner_Ok in Hstep.
Qed.

End OracleAccess.

(** X13.  Every state-changing call of the oracle that succeeds was sent
    by the owner, with one exception: an authorised updater who is not
    the owner can make [updateYield] succeed, and nothing else. *)
Theorem oracle_calls_need_owner_or_updater :
  forall (now : Z) (c : OracleTrace.Call) (s s' : YieldOracle.State),
    OracleTrace.call now c s = Ok s' ->
    OracleTrace.sender_of c = YieldOracle.owner s
    \/ (YieldOracle.is_updater s (OracleTrace.sender_of c) = true
        /\ exists p newApy newTvl newRisk,
             c = OracleTrace.UpdateYield (OracleTrace.sender_of c) p newApy
                   newTvl newRisk).
Proof. intros now c s s'. apply call_sender. Qed.

(** The bot, once authorised, quotes Aave. *)
Lemma oracle_calls_need_owner_or_updater_witness :
  exists s s' : YieldOracle.State,
    (do o <- YieldOracle.deploy 0 Scenario.admin;
     YieldOracle.authorizeUpdater Scenario.admin Scenario.bot true o) = Ok s
    /\ OracleTrace.call 100
         (OracleTrace.UpdateYield Scenario.bot "Aave" 320
            (2500000000 * ether) 2) s = Ok s'
    /\ YieldOracle.is_updater s Scenario.bot = true.
Proof.
  run_as constr:(do o <- YieldOracle.deploy 0 Scenario.admin;
                 YieldOracle.authorizeUpdater Scenario.admin Scenario.bot
                   true o)
         (do o <- YieldOracle.deploy 0 Scenario.admin;
          YieldOracle.authorizeUpdater Scenario.admin Scenario.bot true o)
         s Hs.
  run_as constr:(do s <- (do o <- YieldOracle.deploy 0 Scenario.admin;
                          YieldOracle.authorizeUpdater Scenario.admin
                            Scenario.bot true o);
                 OracleTrace.call 100
                   (OracleTrace.UpdateYield Scenario.bot "Aave" 320
                      (2500000000 * ether) 2) s)
         (OracleTrace.call 100
            (OracleTrace.UpdateYield Scenario.bot "Aave" 320
               (2500000000 * ether) 2) s)
         s' Hs'.
  exists s, s'. split; [reflexivity|]. split; [exact Hs'|].
  destruct (oracle_calls_need_owner_or_updater _ _ _ _ Hs')
    as [Howner | [Hupdater _]]; [|exact Hupdater].
  observe Hboss
    constr:((do s <- (do o <- YieldOracle.deploy 0 Scenario.admin;
                      YieldOracle.authorizeUpdater Scenario.admin
                        Scenario.bot true o);
             Ok (YieldOracle.owner s))
            = Ok Scenario.admin).
  apply Ok_inj in Hboss. rewrite Hboss in Howner. discriminate Howner.
Defined.

Section AppendOnly.
Import YieldOracle.

Lemma run_extends (cs : list (Z * OracleTrace.Call)) :
  forall s : State,
    supportedProtocols s `prefix_of` supportedProtocols (OracleTrace.run cs s)
    /\ forall p, history_of s p `prefix_of` history_of (OracleTrace.run cs s) p.
Proof.
  induction cs as [|[now c] cs IH]; intros s; [done|].
  cbn [OracleTrace.run]. unfold OracleTrace.step. cbn [fst snd].
  destruct (OracleTrace.call now c s) as [s'|] eqn:Hcall; [|apply IH].
  destruct (call_extends _ _ _ _ Hcall) as [Hnames Hhistory].
  destruct (IH s') as [Hnames' Hhistory'].
  split; [etrans; [exact Hnames | exact Hnames']|].
  intros p. etrans; [apply Hhistory | apply Hhistory'].
Qed.

End AppendOnly.

(** X14.  The venue list and every venue's yield history only grow: after
    any sequence of oracle calls, whatever their senders, arguments and
    outcomes, the list and each history start with what they held
    before. *)
Theorem oracle_lists_only_grow :
  forall (cs : list (Z * OracleTrace.Call)) (s : YieldOracle.State),
    YieldOracle.getSupportedProtocols s
      `prefix_of` YieldOracle.getSupportedProtocols (OracleTrace.run cs s)
    /\ YieldOracle.getTotalManagedProtocols s
       <= YieldOracle.getTotalManagedProtocols (OracleTrace.run cs s)
    /\ forall p,
         YieldOracle.history_of s p
           `prefix_of` YieldOracle.history_of (OracleTrace.run cs s) p.
Proof.
  intros cs s. destruct (run_extends cs s) as [Hnames Hhistory].
  split; [exact Hnames|]. split; [|exact Hhistory].
  unfold YieldOracle.getTotalManagedProtocols.
  apply prefix_length in Hnames. lia.
Qed.

(** ** RebalancingEngine *)

Section EngineEffects.
Import RebalancingEngine Invariants.

Lemma onlyAuthorizedAI_Ok (e : State) (sender : address) (u : unit) :
  onlyAuthorizedAI e sender = Ok u ->
  (is_ai_engine e sender || (sender =? owner e)) = true.
Proof. apply require_Ok. Qed.

Lemma requestRebalance_effect (now : Z) (sender u : address)
    (from to : string) (y gas : Z) (w w' : World) (id : Z) :
  requestRebalance now sender u from to y gas w = Ok (w', id) ->
  let e := engine w in
  let p := PortfolioManager.portfolio_of (manager w) u in
  id = requestCounter e
  /\ w' = mkWorld
            (emit (mkState
                     (<[id := mkRequest u from to
                                (PortfolioManager.totalValue p) y gas now
                                false false]> (rebalanceRequests e))
                     (<[u := history_of e u ++ [id]]> (userRebalanceHistory e))
                     (authorizedAIEngines e) (metrics e) (id + 1)
                     (paused e) (owner e) (self e) (events e))
                  (RebalanceRequested id u from to y))
            (manager w) (oracle w)
  /\ (is_ai_engine e sender || (sender =? owner e)) = true
  /\ paused e = false
  /\ u <> 0 /\ gas <= MAX_GAS_COST /\ from <> "" /\ to <> ""
  /\ PortfolioManager.autoRebalanceEnabled p = true
  /\ 0 < PortfolioManager.totalValue p
  /\ PortfolioManager.currentProtocol p = from
  /\ _isProfitableRebalance u (PortfolioManager.currentYield p) y gas
       (PortfolioManager.totalValue p) = Ok true.
Proof.
  intros H e p. unfold requestRebalance in H. fold e in H.
  steps_Ok H. injection H as <- <-.
  apply onlyAuthorizedAI_Ok in Hstep. apply whenNotPaused_Ok in Hstep0.
  apply require_Ok in Hstep1, Hstep2, Hstep3, Hstep4, Hstep5, Hstep6, Hstep7,
    Hstep9.
  apply checked_add_Ok in Hstep11. subst.
  apply negb_true_iff, Z.eqb_neq in Hstep1. apply Z.leb_le in Hstep2.
  apply nonempty_name in Hstep3, Hstep4. apply Z.ltb_lt in Hstep6.
  apply String.eqb_eq in Hstep7.
  repeat split; assumption || reflexivity.
Qed.

Lemma _updateMetrics_effect (e e' : State) (r : RebalanceRequest) (y : Z) :
  _updateMetrics e r y = Ok e' ->
  exists m : OptimizationMetrics,
    e' = set_metrics e m
    /\ totalRebalances m = totalRebalances (metrics e) + 1
    /\ lastOptimizationRun m = lastOptimizationRun (metrics e).
Proof.
  unfold _updateMetrics. intros H. steps_Ok H. injection H as <-.
  apply checked_add_Ok in Hstep. subst.
  eexists. split; [reflexivity|]. split; reflexivity.
Qed.

Lemma executeRebalance_effect (now : Z) (sender : address) (id : Z)
    (w w' : World) :
  executeRebalance now sender id w = Ok w' ->
  let e := engine w in
  let r := request_of e id in
  (is_ai_engine e sender || (sender =? owner e)) = true
  /\ paused e = false
  /\ id < requestCounter e
  /\ executed r = false /\ cancelled r = false
  /\ PortfolioManager.autoRebalanceEnabled
       (PortfolioManager.portfolio_of (manager w) (user r)) = true
  /\ ((exists (m' : PortfolioManager.State) (mt : OptimizationMetrics)
              (ev : Event),
          PortfolioManager.executeRebalance now (self e) (user r)
            (fromProtocol r) (toProtocol r) (expectedYield r)
            (estimatedGas r) (manager w) = Ok m'
          /\ w' = mkWorld
                    (emit (set_metrics
                             (set_request e id (with_executed r true)) mt) ev)
                    m' (oracle w)
          /\ totalRebalances mt = totalRebalances (metrics e) + 1)
      \/ (exists reason : string,
            PortfolioManager.executeRebalance now (self e) (user r)
              (fromProtocol r) (toProtocol r) (expectedYield r)
              (estimatedGas r) (manager w) = Revert (Error reason)
            /\ w' = mkWorld
                      (emit (set_request e id (with_cancelled r true))
                            (RebalanceCancelled id reason))
                      (manager w) (oracle w))).
Proof.
  intros H e r. unfold executeRebalance in H. fold e in H. fold r in H.
  steps_Ok H.
  apply onlyAuthorizedAI_Ok in Hstep.
  apply validRequest_Ok in Hstep0 as (Hid & Hexecuted & Hcancelled).
  apply whenNotPaused_Ok in Hstep1. apply require_Ok in Hstep2.
  do 6 (split; [assumption|]).
  destruct (PortfolioManager.executeRebalance _ _ _ _ _ _ _ _)
    as [m'|[reason|code]] eqn:Hmanager; [| |discriminate].
  - left. steps_Ok H. injection H as <-.
    match goal with
    | Hm : _updateMetrics _ _ _ = Ok _ |- _ =>
        apply _updateMetrics_effect in Hm as (mt & -> & Hcount & _)
    end.
    exists m', mt. eexists. split; [reflexivity|]. split; [reflexivity|].
    exact Hcount.
  - right. exists reason. injection H as <-. split; reflexivity.
Qed.

Lemma cancelRebalance_effect (sender : address) (id : Z) (reason : string)
    (w w' : World) :
  cancelRebalance sender id reason w = Ok w' ->
  let e := engine w in
  let r := request_of e id in
  (is_ai_engine e sender || (sender =? owner e)) = true
  /\ id < requestCounter e
  /\ executed r = false /\ cancelled r = false
  /\ w' = mkWorld
            (emit (set_request e id (with_cancelled r true))
                  (RebalanceCancelled id reason))
            (manager w) (oracle w).
Proof.
  intros H e r. unfold cancelRebalance in H. fold e in H. fold r in H.
  steps_Ok H. injection H as <-.
  apply onlyAuthorizedAI_Ok in Hstep.
  apply validRequest_Ok in Hstep0 as (Hid & Hexecuted & Hcancelled).
  repeat split; assumption.
Qed.

(** The gas estimate is one of four amounts, all positive and below the
    engine's gas ceiling. *)
Lemma _estimateGasCost_value (from to : string) :
  exists gas : Z,
    _estimateGasCost from to = Ok gas
    /\ gas = (5 + (if String.eqb from "Curve" || String.eqb to "Curve"
                   then 3 else 0)
                + (if String.eqb from "Yearn" || String.eqb to "Yearn"
                   then 2 else 0)) * (ether / 1000).
Proof.
  unfold _estimateGasCost.
  destruct (String.eqb from "Curve" || String.eqb to "Curve");
    destruct (String.eqb from "Yearn" || String.eqb to "Yearn");
    eexists; (split; [vm_compute; reflexivity | vm_compute; reflexivity]).
Qed.

Lemma _estimateGasCost_positive (from to : string) (gas : Z) :
  _estimateGasCost from to = Ok gas -> 0 < gas <= MAX_GAS_COST.
Proof.
  destruct (_estimateGasCost_value from to) as (g & -> & ->).
  intros H. apply Ok_inj in H. subst gas.
  destruct (_ || _); destruct (_ || _); vm_compute; split; congruence.
Qed.

(** A request with a positive gas estimate is never executed: when
    [executeRebalance] returns, the manager has refused and the request is
    cancelled. *)
Lemma executeRebalance_positive_gas (now : Z) (sender : address) (id : Z)
    (w w' : World) :
  executeRebalance now sender id w = Ok w' ->
  0 < estimatedGas (request_of (engine w) id) ->
  exists reason : string,
    w' = mkWorld
           (emit (set_request (engine w) id
                    (with_cancelled (request_of (engine w) id) true))
                 (RebalanceCancelled id reason))
           (manager w) (oracle w).
Proof.
  intros H Hgas.
  apply executeRebalance_effect in H
    as (_ & _ & _ & _ & _ & _ & [(m' & mt & ev & Hm & _) | (reason & _ & ->)]).
  - apply executeRebalance_Ok in Hm as (_ & Hle & _). lia.
  - by exists reason.
Qed.

Lemma request_of_settled (e : State) (id : Z) (r : RebalanceRequest)
    (ev : Event) :
  request_of (emit (set_request e id r) ev) id = r.
Proof.
  unfold request_of. cbn [emit set_request rebalanceRequests].
  by rewrite lookup_insert_eq.
Qed.

Lemma status_cancelled (r : RebalanceRequest) :
  executed r = false -> status (with_cancelled r true) = Cancelled.
Proof. intros H. unfold status. cbn. by rewrite H. Qed.

End EngineEffects.

Section RequestTable.
Import RebalancingEngine Invariants.











End RequestTable.

Section BatchLoop.
Import RebalancingEngine.

Variable P : World -> Z -> World -> Z -> Prop.
Variable now : Z.

Hypothesis P_refl : forall w c, P w c w c.
Hypothesis P_trans :
  forall w1 c1 w2 c2 w3 c3, P w1 c1 w2 c2 -> P w2 c2 w3 c3 -> P w1 c1 w3 c3.
Hypothesis P_pair :
  forall u from to y gas w w1 id w2 c,
    _estimateGasCost from to = Ok gas ->
    requestRebalance now (self (engine w)) u from to y gas w = Ok (w1, id) ->
    executeRebalance now (self (engine w)) id w1 = Ok w2 ->
    P w c w2 (c + 1).

(** Whatever holds of a request followed by its execution, and composes,
    holds of the whole loop. *)
Lemma batch_loop_steps (users : list address) :
  forall (w : World) (c t : Z) (w' : World) (c' t' : Z),
    batch_loop now users w c t = Ok (w', c', t') -> P w c w' c'.
Proof.
  induction users as [|u users IH]; intros w c t w' c' t' H.
  - injection H as <- <- <-. apply P_refl.
  - cbn [batch_loop] in H.
    destruct (negb _ || _) in H; [by apply IH in H|].
    step_Ok H. destruct r as [[bestProtocol bestYield] bestRiskScore].
    destruct (_ && _) in H; [|by apply IH in H].
    step_Ok H. step_Ok H. destruct r0; [|by apply IH in H].
    destruct (requestRebalance _ _ _ _ _ _ _ _) as [[w1 id]|] eqn:Hrequest;
      [|by apply IH in H].
    do 4 step_Ok H. apply IH in H.
    match goal with
    | Hcount : checked_add c 1 = Ok _ |- _ =>
        apply checked_add_Ok in Hcount; subst
    end.
    match goal with
    | Hexecute : executeRebalance _ _ _ _ = Ok ?w2 |- _ =>
        apply P_trans with w2 (c + 1); [|exact H]
    end.
    eapply P_pair; eassumption.
Qed.

End BatchLoop.

Section BatchEffect.
Import RebalancingEngine Invariants.

Lemma batch_effect_refl (w : World) : batch_effect w 0 w.
Proof. unfold batch_effect. repeat split; try done; lia. Qed.

Lemma batch_effect_trans (w1 w2 w3 : World) (n1 n2 : Z) :
  batch_effect w1 n1 w2 -> batch_effect w2 n2 w3 ->
  batch_effect w1 (n1 + n2) w3.
Proof.
  intros (Hm & Ho & Hn & Hcount & Hold & Hnew & Hmetrics & Hpaused & Howner
          & Hself & Hai)
         (Hm' & Ho' & Hn' & Hcount' & Hold' & Hnew' & Hmetrics' & Hpaused'
          & Howner' & Hself' & Hai').
  unfold batch_effect.
  repeat split; try congruence; try lia.
  - intros id Hid. rewrite Hold' by lia. by apply Hold.
  - intros id Hid.
    destruct (Z.lt_ge_cases id (requestCounter (engine w2))) as [Hlt|Hge].
    + unfold request_of. rewrite Hold' by lia. apply Hnew. lia.
    + apply Hnew'. lia.
Qed.

Lemma batch_pair (now : Z) (u : address) (from to : string) (y gas : Z)
    (w w1 : World) (id : Z) (w2 : World) :
  _estimateGasCost from to = Ok gas ->
  requestRebalance now (self (engine w)) u from to y gas w = Ok (w1, id) ->
  executeRebalance now (self (engine w)) id w1 = Ok w2 ->
  batch_effect w 1 w2.
Proof.
  intros Hgas Hrequest Hexecute.
  apply _estimateGasCost_positive in Hgas as [Hgas _].
  apply requestRebalance_effect in Hrequest as (-> & -> & _).
  apply executeRebalance_positive_gas in Hexecute as (reason & ->).
  - unfold batch_effect.
    cbn [engine manager oracle emit set_request rebalanceRequests
         userRebalanceHistory authorizedAIEngines metrics requestCounter
         paused owner self events].
    repeat split; try lia.
    + intros id Hid. rewrite !lookup_insert_ne by lia. reflexivity.
    + intros id Hid. replace id with (requestCounter (engine w)) by lia.
      unfold request_of.
      cbn [engine manager oracle emit set_request rebalanceRequests].
      rewrite !lookup_insert_eq. reflexivity.
  - unfold request_of.
    cbn [engine manager oracle emit set_request rebalanceRequests].
    rewrite lookup_insert_eq. exact Hgas.
Qed.

Lemma batch_loop_effect (now : Z) (users : list address) (w : World)
    (c t : Z) (w' : World) (c' t' : Z) :
  batch_loop now users w c t = Ok (w', c', t') ->
  batch_effect w (c' - c) w'.
Proof.
  apply (batch_loop_steps (fun w c w' c' => batch_effect w (c' - c) w') now).
  - intros w0 c0. rewrite Z.sub_diag. apply batch_effect_refl.
  - intros w1 c1 w2 c2 w3 c3 H12 H23.
    replace (c3 - c1) with ((c2 - c1) + (c3 - c2)) by lia.
    by apply batch_effect_trans with w2.
  - intros u from to y gas w0 w1 id w2 c0 Hgas Hrequest Hexecute.
    replace (c0 + 1 - c0) with 1 by lia.
    by apply batch_pair with now u from to y gas w1 id.
Qed.

Lemma batchOptimization_effect (now : Z) (sender : address)
    (users : list address) (w w' : World) :
  batchOptimization now sender users w = Ok w' ->
  exists (w1 : World) (count profit : Z),
    batch_effect w count w1
    /\ w' = mkWorld
              (emit (set_metrics (engine w1)
                       (mkMetrics (totalRebalances (metrics (engine w1)))
                          (totalProfitGenerated (metrics (engine w1)))
                          (totalGasSaved (metrics (engine w1)))
                          (averageYieldImprovement (metrics (engine w1)))
                          now))
                    (OptimizationCompleted count profit))
              (manager w1) (oracle w1)
    /\ (is_ai_engine (engine w) sender || (sender =? owner (engine w))) = true
    /\ paused (engine w) = false.
Proof.
  unfold batchOptimization. intros H. do 3 step_Ok H.
  destruct r1 as [[w1 count] profit]. injection H as <-.
  apply onlyAuthorizedAI_Ok in Hstep. apply whenNotPaused_Ok in Hstep0.
  apply batch_loop_effect in Hstep1. rewrite Z.sub_0_r in Hstep1.
  exists w1, count, profit.
  split; [exact Hstep1|]. split; [reflexivity|]. split; assumption.
Qed.

End BatchEffect.

Section WorldInvariant.
Import RebalancingEngine Invariants.




End WorldInvariant.

(** X16.  [batchOptimization] never rebalances anyone.  Whenever it
    returns, the manager and the oracle are as before, the requests it
    admitted (as many as its summary counts as optimized) are all
    cancelled, the earlier requests are untouched, and the count of
    rebalances in the metrics has not moved; only the time of the last run
    is set.  The gas estimate of the batch is positive, and the manager
    cannot apply a rebalance at a positive cost. *)
Theorem batchOptimization_moves_no_portfolio :
  forall (now : Z) (sender : address) (users : list address)
         (w w' : RebalancingEngine.World),
    RebalancingEngine.batchOptimization now sender users w = Ok w' ->
    let e := RebalancingEngine.engine w in
    let e' := RebalancingEngine.engine w' in
    RebalancingEngine.manager w' = RebalancingEngine.manager w
    /\ RebalancingEngine.oracle w' = RebalancingEngine.oracle w
    /\ (exists count profit : Z,
          last (RebalancingEngine.events e')
          = Some (RebalancingEngine.OptimizationCompleted count profit)
          /\ 0 <= count
          /\ RebalancingEngine.requestCounter e'
             = RebalancingEngine.requestCounter e + count)
    /\ (forall id,
          id < RebalancingEngine.requestCounter e ->
          RebalancingEngine.request_of e' id
          = RebalancingEngine.request_of e id)
    /\ (forall id,
          RebalancingEngine.requestCounter e <= id
            < RebalancingEngine.requestCounter e' ->
          RebalancingEngine.status (RebalancingEngine.request_of e' id)
          = RebalancingEngine.Cancelled)
    /\ RebalancingEngine.totalRebalances (RebalancingEngine.metrics e')
       = RebalancingEngine.totalRebalances (RebalancingEngine.metrics e)
    /\ RebalancingEngine.lastOptimizationRun (RebalancingEngine.metrics e')
       = now.
Proof.
  intros now sender users w w' H e e'.
  apply batchOptimization_effect in H
    as (w1 & count & profit & Heffect & Hw' & _).
  destruct Heffect
    as (Hm & Ho & Hn & Hcount & Hold & Hnew & Hmetrics & _).
  subst e e'. rewrite Hw'.
  cbn [RebalancingEngine.engine RebalancingEngine.manager
       RebalancingEngine.oracle RebalancingEngine.emit
       RebalancingEngine.set_metrics RebalancingEngine.metrics
       RebalancingEngine.requestCounter RebalancingEngine.events
       RebalancingEngine.totalRebalances
       RebalancingEngine.lastOptimizationRun].
  split; [exact Hm|]. split; [exact Ho|]. split.
  { exists count, profit. split; [apply last_snoc|]. by split. }
  split.
  { intros id Hid. unfold RebalancingEngine.request_of.
    cbn [RebalancingEngine.emit RebalancingEngine.set_metrics
         RebalancingEngine.rebalanceRequests].
    by rewrite Hold. }
  split.
  { intros id Hid. by apply Hnew. }
  split; [by rewrite Hmetrics | reflexivity].
Qed.

(** The batch over alice, bob and carol in [Scenario.marginal] returns and
    leaves the manager as it was. *)
Lemma batchOptimization_moves_no_portfolio_witness :
  exists w w' : RebalancingEngine.World,
    Scenario.marginal = Ok w
    /\ RebalancingEngine.batchOptimization 200 Scenario.bot
         [Scenario.alice; Scenario.bob; Scenario.carol] w = Ok w'
    /\ RebalancingEngine.manager w' = RebalancingEngine.manager w.
Proof.
  run_as Scenario.marginal Scenario.marginal w Hw.
  run_as constr:(do w <- Scenario.marginal;
                 RebalancingEngine.batchOptimization 200 Scenario.bot
                   [Scenario.alice; Scenario.bob; Scenario.carol] w)
         (RebalancingEngine.batchOptimization 200 Scenario.bot
            [Scenario.alice; Scenario.bob; Scenario.carol] w) w' Hw'.
  exists w, w'. split; [reflexivity|]. split; [exact Hw'|].
  by destruct (batchOptimization_moves_no_portfolio _ _ _ _ _ Hw')
    as (Hmanager & _).
Defined.

(** X17.  A request with a positive gas estimate is never executed.  When
    [executeRebalance] returns on such a request, the manager has declined
    with a reason: the request ends cancelled, the manager and the oracle
    are unchanged and no rebalance is counted. *)
Theorem executeRebalance_never_executes_at_a_cost :
  forall (now : Z) (sender : address) (id : Z)
         (w w' : RebalancingEngine.World),
    RebalancingEngine.executeRebalance now sender id w = Ok w' ->
    0 < RebalancingEngine.estimatedGas
          (RebalancingEngine.request_of (RebalancingEngine.engine w) id) ->
    RebalancingEngine.status
      (RebalancingEngine.request_of (RebalancingEngine.engine w') id)
    = RebalancingEngine.Cancelled
    /\ RebalancingEngine.manager w' = RebalancingEngine.manager w
    /\ RebalancingEngine.oracle w' = RebalancingEngine.oracle w
    /\ RebalancingEngine.metrics (RebalancingEngine.engine w')
       = RebalancingEngine.metrics (RebalancingEngine.engine w).
Proof.
  intros now sender id w w' H Hgas.
  pose proof (executeRebalance_effect _ _ _ _ _ H)
    as (_ & _ & _ & Hexecuted & _).
  apply executeRebalance_positive_gas in H as (reason & ->); [|exact Hgas].
  cbn [RebalancingEngine.engine RebalancingEngine.manager
       RebalancingEngine.oracle].
  rewrite request_of_settled, status_cancelled by exact Hexecuted.
  by repeat split.
Qed.

(** The request of [Scenario.declined], admitted at a cost of 0.005
    ether, is cancelled when the bot executes it. *)
Lemma executeRebalance_never_executes_at_a_cost_witness :
  exists (a : RebalancingEngine.World * Z) (w' : RebalancingEngine.World),
    Scenario.declined = Ok a
    /\ RebalancingEngine.executeRebalance 300 Scenario.bot (snd a) (fst a)
       = Ok w'
    /\ RebalancingEngine.status
         (RebalancingEngine.request_of (RebalancingEngine.engine w') (snd a))
       = RebalancingEngine.Cancelled.
Proof.
  run_as Scenario.declined Scenario.declined a Ha.
  run_as constr:(do a <- Scenario.declined;
                 RebalancingEngine.executeRebalance 300 Scenario.bot
                   (snd a) (fst a))
         (RebalancingEngine.executeRebalance 300 Scenario.bot (snd a) (fst a))
         w' Hw'.
  exists a, w'. split; [reflexivity|]. split; [exact Hw'|].
  apply (executeRebalance_never_executes_at_a_cost _ _ _ _ _ Hw').
  observe Hgas
    constr:((do a <- Scenario.declined;
             Ok (RebalancingEngine.estimatedGas
                   (RebalancingEngine.request_of
                      (RebalancingEngine.engine (fst a)) (snd a))))
            = Ok 5000000000000000).
  apply Ok_inj in Hgas. rewrite Hgas. lia.
Defined.

Section Funds.
Import RebalancingEngine Invariants.

Lemma funds_kept_refl (m : PortfolioManager.State) : funds_kept m m.
Proof. split; [done|]. intros u. cbn zeta. by repeat split. Qed.

Lemma funds_kept_trans (m1 m2 m3 : PortfolioManager.State) :
  funds_kept m1 m2 -> funds_kept m2 m3 -> funds_kept m1 m3.
Proof.
  intros [Hpaused Hfunds] [Hpaused' Hfunds'].
  split; [congruence|]. intros u.
  destruct (Hfunds u) as (Hvalue & Hrisk & Hauto & Hout).
  destruct (Hfunds' u) as (Hvalue' & Hrisk' & Hauto' & Hout').
  cbn zeta in *. repeat split; try congruence.
  intros Hopt. rewrite Hout', Hout; try done.
  rewrite Hauto, Hvalue. exact Hopt.
Qed.

Lemma manager_executeRebalance_funds (now : Z) (sender user : address)
    (from to : string) (y gas : Z) (m m' : PortfolioManager.State) :
  PortfolioManager.executeRebalance now sender user from to y gas m = Ok m' ->
  funds_kept m m'.
Proof.
  intros H.
  destruct (executeRebalance_requires _ _ _ _ _ _ _ _ _ H)
    as (_ & _ & Hvalue & Hauto & _).
  apply executeRebalance_Ok in H as (Hp & _ & _ & Hothers & Hpaused).
  split; [exact Hpaused|]. intros u. cbn zeta.
  destruct (decide (u = user)) as [->|Hne].
  - rewrite Hp. cbn. repeat split.
    intros [Hoff | Hempty]; [congruence | lia].
  - rewrite (Hothers u Hne). by repeat split.
Qed.

Lemma engine_call_funds (c : EngineTrace.Call) (w w' : World) :
  EngineTrace.call c w = Ok w' ->
  oracle w' = oracle w
  /\ funds_kept (manager w) (manager w')
  /\ self (engine w') = self (engine w)
  /\ (PortfolioManager.is_rebalancer (manager w) (self (engine w)) = false ->
      manager w' = manager w).
Proof.
  destruct c; cbn [EngineTrace.call]; intros H.
  - step_Ok H. injection H as <-. destruct r as [w1 id].
    apply requestRebalance_effect in Hstep as (_ & -> & _).
    cbn. split; [done|]. split; [apply funds_kept_refl | done].
  - apply executeRebalance_effect in H
      as (_ & _ & _ & _ & _ & _
          & [(m' & mt & ev & Hm & -> & _) | (reason & _ & ->)]).
    + cbn. split; [done|].
      split; [by apply manager_executeRebalance_funds in Hm|].
      split; [done|]. intros Hnot.
      apply executeRebalance_requires in Hm as (Hyes & _). congruence.
    + cbn. split; [done|]. split; [apply funds_kept_refl | done].
  - apply cancelRebalance_effect in H as (_ & _ & _ & _ & ->).
    cbn. split; [done|]. split; [apply funds_kept_refl | done].
  - apply batchOptimization_effect in H
      as (w1 & count & profit & Heffect & -> & _).
    destruct Heffect as (Hm & Ho & _ & _ & _ & _ & _ & _ & _ & Hself & _).
    cbn. rewrite Hm, Ho, Hself.
    split; [done|]. split; [apply funds_kept_refl | done].
  - unfold authorizeAIEngine in H. step_Ok H. injection H as <-.
    cbn. split; [done|]. split; [apply funds_kept_refl | done].
  - unfold pause in H. do 2 step_Ok H. injection H as <-.
    cbn. split; [done|]. split; [apply funds_kept_refl | done].
  - unfold unpause in H. do 2 step_Ok H. injection H as <-.
    cbn. split; [done|]. split; [apply funds_kept_refl | done].
Qed.

End Funds.

(** X19.  A successful [requestRebalance] files the request under the
    old value of the counter, an id [getRebalanceRequest] rejected until
    then, and advances the counter by one.  The request read back holds
    the arguments of the call, the user's total value at that moment as
    amount and the block time, and is pending; the id is appended to the
    user's history; no other request or history changes, nor the manager
    or the oracle.  The user had auto-rebalancing on, a positive total
    value and [from] as current venue. *)
Theorem requestRebalance_files_request :
  forall (now : Z) (sender u : address) (from to : string) (y gas : Z)
         (w w' : RebalancingEngine.World) (id : Z),
    RebalancingEngine.requestRebalance now sender u from to y gas w
    = Ok (w', id) ->
    let e := RebalancingEngine.engine w in
    let e' := RebalancingEngine.engine w' in
    let p := PortfolioManager.getPortfolio (RebalancingEngine.manager w) u in
    id = RebalancingEngine.requestCounter e
    /\ RebalancingEngine.requestCounter e' = id + 1
    /\ RebalancingEngine.getRebalanceRequest e id
       = Revert (Error "Invalid request ID")
    /\ RebalancingEngine.getRebalanceRequest e' id
       = Ok (RebalancingEngine.mkRequest u from to
               (PortfolioManager.totalValue p) y gas now false false)
    /\ RebalancingEngine.getUserRebalanceHistory e' u
       = RebalancingEngine.getUserRebalanceHistory e u ++ [id]
    /\ (forall v, v <> u ->
          RebalancingEngine.getUserRebalanceHistory e' v
          = RebalancingEngine.getUserRebalanceHistory e v)
    /\ (forall other, other <> id ->
          RebalancingEngine.request_of e' other
          = RebalancingEngine.request_of e other)
    /\ RebalancingEngine.manager w' = RebalancingEngine.manager w
    /\ RebalancingEngine.oracle w' = RebalancingEngine.oracle w
    /\ PortfolioManager.autoRebalanceEnabled p = true
    /\ 0 < PortfolioManager.totalValue p
    /\ PortfolioManager.currentProtocol p = from
    /\ gas <= RebalancingEngine.MAX_GAS_COST.
Proof.
  intros now sender u from to y gas w w' id H e e' p.
  apply requestRebalance_effect in H
    as (Hid & Hw' & _ & _ & _ & Hgas & _ & _ & Hauto & Hvalue & Hfrom & _).
  subst e' e. rewrite Hw'.
  unfold RebalancingEngine.getRebalanceRequest,
    RebalancingEngine.getUserRebalanceHistory, RebalancingEngine.request_of,
    RebalancingEngine.history_of.
  cbn [RebalancingEngine.engine RebalancingEngine.manager
       RebalancingEngine.oracle RebalancingEngine.emit
       RebalancingEngine.rebalanceRequests
       RebalancingEngine.userRebalanceHistory
       RebalancingEngine.requestCounter].
  rewrite !lookup_insert_eq. rewrite <- Hid.
  replace (id <? id) with false by (symmetry; apply Z.ltb_irrefl).
  replace (id <? id + 1) with true by (symmetry; apply Z.ltb_lt; lia).
  split; [reflexivity|]. split; [reflexivity|]. split; [reflexivity|].
  split; [reflexivity|]. split; [reflexivity|]. split.
  { intros v Hv. by rewrite lookup_insert_ne. }
  split.
  { intros other Hother. by rewrite lookup_insert_ne. }
  by repeat split.
Qed.

(** The request of [Scenario.admitted] is the first one of the engine. *)
Lemma requestRebalance_files_request_witness :
  exists a : RebalancingEngine.World * Z,
    Scenario.admitted = Ok a
    /\ snd a = 0
    /\ RebalancingEngine.getUserRebalanceHistory
         (RebalancingEngine.engine (fst a)) Scenario.alice = [0].
Proof.
  run_as Scenario.funded Scenario.funded w Hw.
  unfold Scenario.admitted. rewrite Hw. cbn [bind].
  run_as constr:(do w <- Scenario.funded;
                 RebalancingEngine.requestRebalance 200 Scenario.bot
                   Scenario.alice "Aave" "Compound" 780 (5 * ether / 1000) w)
         (RebalancingEngine.requestRebalance 200 Scenario.bot
            Scenario.alice "Aave" "Compound" 780 (5 * ether / 1000) w)
         a Ha.
  destruct a as [w' id]. exists (w', id). split; [reflexivity|].
  destruct (requestRebalance_files_request _ _ _ _ _ _ _ _ _ _ Ha)
    as (Hid & _ & _ & _ & Hhistory & _).
  observe Hbefore
    constr:((do w <- Scenario.funded;
             Ok (RebalancingEngine.requestCounter (RebalancingEngine.engine w),
                 RebalancingEngine.getUserRebalanceHistory
                   (RebalancingEngine.engine w) Scenario.alice))
            = Ok (0, [])).
  apply Ok_inj in Hbefore. injection Hbefore as Hcounter Hnone.
  cbn [fst snd]. rewrite Hhistory, Hid, Hnone, Hcounter. by split.
Defined.

Section Finality.
Import RebalancingEngine.

Lemma cancelled_request_is_invalid (e : State) (id : Z) (r : RebalanceRequest)
    (ev : Event) :
  id < requestCounter e ->
  executed r = false ->
  validRequest (emit (set_request e id (with_cancelled r true)) ev) id
  = Revert (Error "Request cancelled").
Proof.
  intros Hid Hexecuted. unfold validRequest.
  rewrite request_of_settled.
  cbn [emit set_request requestCounter with_cancelled executed cancelled].
  replace (id <? requestCounter e) with true by (symmetry; by apply Z.ltb_lt).
  rewrite Hexecuted. reflexivity.
Qed.

End Finality.

(** X20.  Cancelling is final.  [cancelRebalance] succeeds only on a
    pending request whose id is below the counter; it marks the request
    cancelled and changes nothing else of it, nor the manager or the
    oracle.  Afterwards every further [cancelRebalance] and every
    [executeRebalance] on that id is rejected, for an authorised sender
    with the reason "Request cancelled". *)
Theorem cancelRebalance_is_final :
  forall (sender : address) (id : Z) (reason : string)
         (w w' : RebalancingEngine.World),
    RebalancingEngine.cancelRebalance sender id reason w = Ok w' ->
    let e := RebalancingEngine.engine w in
    let e' := RebalancingEngine.engine w' in
    let rejection (who : address) :=
      Revert (Error (if RebalancingEngine.is_ai_engine e' who
                        || (who =? RebalancingEngine.owner e')
                     then "Request cancelled"
                     else "Not authorized AI engine")) in
    id < RebalancingEngine.requestCounter e
    /\ RebalancingEngine.status (RebalancingEngine.request_of e id)
       = RebalancingEngine.Pending
    /\ RebalancingEngine.request_of e' id
       = RebalancingEngine.with_cancelled
           (RebalancingEngine.request_of e id) true
    /\ RebalancingEngine.status (RebalancingEngine.request_of e' id)
       = RebalancingEngine.Cancelled
    /\ RebalancingEngine.manager w' = RebalancingEngine.manager w
    /\ RebalancingEngine.oracle w' = RebalancingEngine.oracle w
    /\ (forall who again,
          RebalancingEngine.cancelRebalance who id again w'
          = rejection who)
    /\ (forall now who,
          RebalancingEngine.executeRebalance now who id w' = rejection who).
Proof.
  intros sender id reason w w' H e e' rejection.
  apply cancelRebalance_effect in H
    as (_ & Hid & Hexecuted & Hcancelled & Hw').
  assert (Hinvalid : RebalancingEngine.validRequest e' id
                     = Revert (Error "Request cancelled")).
  { subst e'. rewrite Hw'. cbn [RebalancingEngine.engine].
    by apply cancelled_request_is_invalid. }
  split; [exact Hid|]. split.
  { unfold RebalancingEngine.status. subst e.
    by rewrite Hexecuted, Hcancelled. }
  split.
  { subst e'. rewrite Hw'. cbn [RebalancingEngine.engine].
    apply request_of_settled. }
  split.
  { subst e'. rewrite Hw'. cbn [RebalancingEngine.engine].
    rewrite request_of_settled. by apply status_cancelled. }
  split; [by rewrite Hw'|]. split; [by rewrite Hw'|].
  split.
  - intros who again. subst rejection. cbn beta.
    unfold RebalancingEngine.cancelRebalance,
      RebalancingEngine.onlyAuthorizedAI.
    fold e'. destruct (_ || _); cbn [require bind]; [|reflexivity].
    by rewrite Hinvalid.
  - intros now who. subst rejection. cbn beta.
    unfold RebalancingEngine.executeRebalance,
      RebalancingEngine.onlyAuthorizedAI.
    fold e'. destruct (_ || _); cbn [require bind]; [|reflexivity].
    by rewrite Hinvalid.
Qed.

(** The bot cancels alice's request; the owner cannot execute it any
    more. *)
Lemma cancelRebalance_is_final_witness :
  exists (a : RebalancingEngine.World * Z) (w' : RebalancingEngine.World),
    Scenario.admitted = Ok a
    /\ RebalancingEngine.cancelRebalance Scenario.bot (snd a)
         "withdrawn by operator" (fst a) = Ok w'
    /\ RebalancingEngine.executeRebalance 300 Scenario.admin (snd a) w'
       = Revert (Error "Request cancelled").
Proof.
  run_as Scenario.admitted Scenario.admitted a Ha.
  run_as constr:(do a <- Scenario.admitted;
                 RebalancingEngine.cancelRebalance Scenario.bot (snd a)
                   "withdrawn by operator" (fst a))
         (RebalancingEngine.cancelRebalance Scenario.bot (snd a)
            "withdrawn by operator" (fst a)) w' Hw'.
  exists a, w'. split; [reflexivity|]. split; [exact Hw'|].
  destruct (cancelRebalance_is_final _ _ _ _ _ Hw')
    as (_ & _ & _ & _ & _ & _ & _ & Hexecute).
  rewrite Hexecute.
  observe Hadmin
    constr:((do a <- Scenario.admitted;
             do w' <- RebalancingEngine.cancelRebalance Scenario.bot (snd a)
                        "withdrawn by operator" (fst a);
             Ok (RebalancingEngine.is_ai_engine (RebalancingEngine.engine w')
                   Scenario.admin
                 || (Scenario.admin
                     =? RebalancingEngine.owner (RebalancingEngine.engine w'))))
            = Ok true).
  apply Ok_inj in Hadmin. rewrite Hadmin. reflexivity.
Defined.

Section EngineAccess.
Import RebalancingEngine.


Lemma engine_call_sender (c : EngineTrace.Call) (w w' : World) :
  EngineTrace.call c w = Ok w' ->
  EngineTrace.sender_of c = owner (engine w)
  \/ (is_ai_engine (engine w) (EngineTrace.sender_of c) = true
      /\ Access.open_to_ai c).
Proof.
  assert (Hcases : forall who,
             (is_ai_engine (engine w) who || (who =? owner (engine w))) = true ->
             who = owner (engine w) \/ is_ai_engine (engine w) who = true).
  { intros who Hwho. apply orb_prop in Hwho as [Hai | Howner];
      [by right | left; by apply Z.eqb_eq]. }
  destruct c; cbn [EngineTrace.call EngineTrace.sender_of Access.open_to_ai];
    intros H.
  - step_Ok H. destruct r as [w1 id].
    apply requestRebalance_effect in Hstep as (_ & _ & Hauth & _).
    destruct (Hcases _ Hauth); [by left | by right].
  - apply executeRebalance_effect in H as (Hauth & _).
    destruct (Hcases _ Hauth); [by left | by right].
  - apply cancelRebalance_effect in H as (Hauth & _).
    destruct (Hcases _ Hauth); [by left | by right].
  - apply batchOptimization_effect in H as (_ & _ & _ & _ & _ & Hauth & _).
    destruct (Hcases _ Hauth); [by left | by right].
  - unfold authorizeAIEngine in H. step_Ok H. left. by apply onlyOwner_Ok in Hstep.
  - unfold pause in H. step_Ok H. left. by apply onlyOwner_Ok in Hstep.
  - unfold unpause in H. step_Ok H. left. by apply onlyOwner_Ok in Hstep.
Qed.

End EngineAccess.

(** X22.  Every engine call that succeeds was sent by the owner or by an
    authorised AI engine; an AI engine that is not the owner can only
    request, execute, cancel and run batches, and cannot authorise
    engines, pause or unpause. *)
Theorem engine_calls_need_owner_or_ai_engine :
  forall (c : EngineTrace.Call) (w w' : RebalancingEngine.World),
    EngineTrace.call c w = Ok w' ->
    EngineTrace.sender_of c
    = RebalancingEngine.owner (RebalancingEngine.engine w)
    \/ (RebalancingEngine.is_ai_engine (RebalancingEngine.engine w)
          (EngineTrace.sender_of c) = true
        /\ Access.open_to_ai c).
Proof. intros c w w'. apply engine_call_sender. Qed.

(** The bot, an authorised AI engine, cancels alice's request. *)
Lemma engine_calls_need_owner_or_ai_engine_witness :
  exists (a : RebalancingEngine.World * Z) (w' : RebalancingEngine.World),
    Scenario.admitted = Ok a
    /\ EngineTrace.call
         (EngineTrace.CancelRebalance Scenario.bot (snd a) "no") (fst a)
       = Ok w'
    /\ RebalancingEngine.is_ai_engine (RebalancingEngine.engine (fst a))
         Scenario.bot = true.
Proof.
  run_as Scenario.admitted Scenario.admitted a Ha.
  run_as constr:(do a <- Scenario.admitted;
                 EngineTrace.call
                   (EngineTrace.CancelRebalance Scenario.bot (snd a) "no")
                   (fst a))
         (EngineTrace.call
            (EngineTrace.CancelRebalance Scenario.bot (snd a) "no") (fst a))
         w' Hw'.
  exists a, w'. split; [reflexivity|]. split; [exact Hw'|].
  destruct (engine_calls_need_owner_or_ai_engine _ _ _ Hw')
    as [Howner | [Hai _]]; [|exact Hai].
  observe Hboss
    constr:((do a <- Scenario.admitted;
             Ok (RebalancingEngine.owner (RebalancingEngine.engine (fst a))))
            = Ok Scenario.admin).
  apply Ok_inj in Hboss. cbn [EngineTrace.sender_of] in Howner.
  rewrite Hboss in Howner. discriminate Howner.
Defined.

(** X23.  The gas estimate of the engine never fails and does not depend
    on the direction of the move.  It is 0.005 ether, plus 0.003 ether
    when Curve is one of the two venues, plus 0.002 ether when Yearn is
    one of them; so it is positive and at most 0.01 ether, below the gas
    ceilings of the engine and of the manager. *)
Theorem estimateGasCost_is_symmetric_and_bounded :
  forall from to : string,
    exists gas : Z,
      RebalancingEngine._estimateGasCost from to = Ok gas
      /\ RebalancingEngine._estimateGasCost to from = Ok gas
      /\ gas = (5 + (if String.eqb from "Curve" || String.eqb to "Curve"
                     then 3 else 0)
                  + (if String.eqb from "Yearn" || String.eqb to "Yearn"
                     then 2 else 0)) * (ether / 1000)
      /\ 5 * (ether / 1000) <= gas <= 10 * (ether / 1000)
      /\ gas <= RebalancingEngine.MAX_GAS_COST
      /\ gas <= PortfolioManager.MAX_GAS_THRESHOLD.
Proof.
  intros from to.
  destruct (_estimateGasCost_value from to) as (gas & Hgas & Hvalue).
  destruct (_estimateGasCost_value to from) as (gas' & Hgas' & Hvalue').
  exists gas. split; [exact Hgas|]. split.
  { rewrite Hgas'. f_equal. rewrite Hvalue, Hvalue'.
    by rewrite (orb_comm (String.eqb to "Curve")),
      (orb_comm (String.eqb to "Yearn")). }
  split; [exact Hvalue|]. rewrite Hvalue.
  destruct (_ || _); destruct (_ || _); vm_compute; intuition congruence.
Qed.

Section Profitability.
Import RebalancingEngine.

Lemma gas_ceiling_fits (gas : Z) :
  gas <= MAX_GAS_COST ->
  gas * PROFIT_MARGIN_REQUIREMENT <= MAX_UINT256 /\ gas * 115 <= MAX_UINT256.
Proof.
  intros Hgas.
  assert (Hceiling : MAX_GAS_COST = 20000000000000000) by reflexivity.
  assert (Hroom : 23000000000000000000 <= MAX_UINT256)
    by (apply Z.leb_le; reflexivity).
  unfold PROFIT_MARGIN_REQUIREMENT. lia.
Qed.

Lemma margin_equal (gas : Z) : gas * 1150 / 1000 = gas * 115 / 100.
Proof.
  replace (gas * 1150) with (gas * 115 * 10) by lia.
  replace 1000 with (100 * 10) by lia.
  apply Z.div_mul_cancel_r; lia.
Qed.

Lemma _isProfitableRebalance_unfold (u : address)
    (curYield newYield gas value : Z) :
  gas <= MAX_GAS_COST ->
  _isProfitableRebalance u curYield newYield gas value
  = if newYield <=? curYield then Ok false
    else if value * (newYield - curYield) <=? MAX_UINT256
         then Ok (gas * 115 / 100 <=? value * (newYield - curYield) / 10000)
         else Revert (Panic ARITHMETIC_PANIC).
Proof.
  intros Hgas. destruct (gas_ceiling_fits gas Hgas) as [Hfits _].
  unfold _isProfitableRebalance, checked_sub, checked_mul, checked_div.
  destruct (Z.leb_spec newYield curYield) as [Hle|Hlt]; [reflexivity|].
  replace (curYield <=? newYield) with true
    by (symmetry; apply Z.leb_le; lia).
  cbn [bind].
  destruct (value * (newYield - curYield) <=? MAX_UINT256);
    cbn [bind]; [|reflexivity].
  change (10000 =? 0) with false. cbn [bind].
  replace (gas * PROFIT_MARGIN_REQUIREMENT <=? MAX_UINT256) with true
    by (symmetry; apply Z.leb_le; exact Hfits).
  cbn [bind]. change (1000 =? 0) with false. cbn [bind].
  unfold PROFIT_MARGIN_REQUIREMENT. by rewrite margin_equal.
Qed.

End Profitability.

(** X24.  The manager's profitability check is the engine's check plus a
    minimum improvement.  For a gas cost within the engine's ceiling,
    [checkRebalanceProfitability] answers true exactly when the engine's
    [isProfitableRebalance], asked about the user's current yield and
    total value, answers true and the new yield exceeds the current one
    by more than MIN_YIELD_IMPROVEMENT: the margin of 1150 per 1000 of
    the engine and of 115 per 100 of the manager are the same amount. *)
Theorem manager_check_is_engine_check_plus_minimum :
  forall (m : PortfolioManager.State) (u : address) (newYield gas : Z),
    let p := PortfolioManager.portfolio_of m u in
    gas <= RebalancingEngine.MAX_GAS_COST ->
    PortfolioManager.currentYield p + PortfolioManager.MIN_YIELD_IMPROVEMENT
      <= MAX_UINT256 ->
    PortfolioManager.checkRebalanceProfitability m u newYield gas = Ok true
    <-> (RebalancingEngine.isProfitableRebalance u
           (PortfolioManager.currentYield p) newYield gas
           (PortfolioManager.totalValue p) = Ok true
         /\ PortfolioManager.currentYield p
            + PortfolioManager.MIN_YIELD_IMPROVEMENT < newYield).
Proof.
  intros m u newYield gas p Hgas Hyield.
  destruct (gas_ceiling_fits gas Hgas) as [_ Hfits].
  rewrite checkRebalanceProfitability_unfold.
  unfold RebalancingEngine.isProfitableRebalance.
  rewrite _isProfitableRebalance_unfold by exact Hgas.
  fold p. unfold PortfolioManager.MIN_YIELD_IMPROVEMENT in *.
  replace (PortfolioManager.currentYield p + 50 <=? MAX_UINT256) with true
    by (symmetry; apply Z.leb_le; lia).
  destruct (Z.leb_spec newYield (PortfolioManager.currentYield p + 50))
    as [Hle|Hlt].
  { split; [discriminate | intros [_ ?]; lia]. }
  replace (newYield <=? PortfolioManager.currentYield p) with false
    by (symmetry; apply Z.leb_gt; lia).
  destruct (_ <=? MAX_UINT256); [|split; [discriminate | by intros [? _]]].
  replace (gas * 115 <=? MAX_UINT256) with true
    by (symmetry; apply Z.leb_le; lia).
  split; [intros H; by split | by intros [H _]].
Qed.

(** Alice holds one ether at 320 bp: a move to 780 bp at a cost of 3 wei
    passes both checks. *)
Lemma manager_check_is_engine_check_plus_minimum_witness :
  exists s : PortfolioManager.State,
    Scenario.ledger = Ok s
    /\ RebalancingEngine.isProfitableRebalance Scenario.alice
         (PortfolioManager.currentYield
            (PortfolioManager.portfolio_of s Scenario.alice)) 780 3
         (PortfolioManager.totalValue
            (PortfolioManager.portfolio_of s Scenario.alice)) = Ok true.
Proof.
  run_as Scenario.ledger Scenario.ledger s Hs.
  exists s. split; [reflexivity|].
  observe Hfacts
    constr:((do s <- Scenario.ledger;
             Ok (PortfolioManager.currentYield
                   (PortfolioManager.portfolio_of s Scenario.alice),
                 PortfolioManager.checkRebalanceProfitability s Scenario.alice
                   780 3))
            = Ok (320, Ok true)).
  apply Ok_inj in Hfacts. injection Hfacts as Hyield Hcheck.
  apply (manager_check_is_engine_check_plus_minimum s Scenario.alice 780 3).
  - apply Z.leb_le. reflexivity.
  - rewrite Hyield. apply Z.leb_le. reflexivity.
  - exact Hcheck.
Defined.

Section Counting.
Import RebalancingEngine Invariants.












End Counting.

(** ** The engine's references, and the contracts they point to *)

Section NetworkLifting.
Import RebalancingEngine Invariants.

Lemma plain_call_Some (c : EngineTrace.Call) (n n' : Network.Net) :
  Network.plain_call c n = Some n' ->
  let found_manager := Network.managers n !! Network.portfolioManager n in
  let found_oracle := Network.oracles n !! Network.yieldOracle n in
  let m := default Network.absent_manager found_manager in
  let o := default Network.absent_oracle found_oracle in
  exists w' : World,
    EngineTrace.call c (mkWorld (Network.engine n) m o) = Ok w'
    /\ n' = Network.mkNet (engine w')
              (Network.portfolioManager n) (Network.yieldOracle n)
              (if Network.absent found_manager then Network.managers n
               else <[Network.portfolioManager n := manager w']>
                      (Network.managers n))
              (if Network.absent found_oracle then Network.oracles n
               else <[Network.yieldOracle n := oracle w']>
                      (Network.oracles n)).
Proof.
  unfold Network.plain_call. intros H. cbn zeta in *.
  destruct (_ || _) in H; [discriminate H|].
  destruct (EngineTrace.call c _) as [w'|] eqn:Hcall; [|discriminate H].
  injection H as <-. by exists w'.
Qed.

Lemma setPortfolioManager_Ok (sender addr : address) (n n' : Network.Net) :
  Network.setPortfolioManager sender addr n = Ok n' ->
  sender = owner (Network.engine n) /\ addr <> 0
  /\ n' = Network.mkNet (Network.engine n) addr (Network.yieldOracle n)
            (Network.managers n) (Network.oracles n).
Proof.
  unfold Network.setPortfolioManager. intros H. do 2 step_Ok H.
  injection H as <-. apply onlyOwner_Ok in Hstep. apply require_Ok in Hstep0.
  apply negb_true_iff, Z.eqb_neq in Hstep0. by repeat split.
Qed.

Lemma setYieldOracle_Ok (sender addr : address) (n n' : Network.Net) :
  Network.setYieldOracle sender addr n = Ok n' ->
  sender = owner (Network.engine n) /\ addr <> 0
  /\ n' = Network.mkNet (Network.engine n) (Network.portfolioManager n) addr
            (Network.managers n) (Network.oracles n).
Proof.
  unfold Network.setYieldOracle. intros H. do 2 step_Ok H.
  injection H as <-. apply onlyOwner_Ok in Hstep. apply require_Ok in Hstep0.
  apply negb_true_iff, Z.eqb_neq in Hstep0. by repeat split.
Qed.

Lemma returned_Some {A : Type} (r : result A) (a : A) :
  Network.returned r = Some a -> r = Ok a.
Proof. destruct r; cbn; congruence. Qed.





End NetworkLifting.



Section NetworkFunds.
Import RebalancingEngine Invariants.

Lemma managers_kept_refl (self : address)
    (ms : gmap Z PortfolioManager.State) :
  managers_kept self ms ms.
Proof.
  intros a. destruct (ms !! a); [|done].
  split; [apply funds_kept_refl | done].
Qed.

Lemma managers_kept_trans (self : address)
    (ms1 ms2 ms3 : gmap Z PortfolioManager.State) :
  managers_kept self ms1 ms2 -> managers_kept self ms2 ms3 ->
  managers_kept self ms1 ms3.
Proof.
  intros H12 H23 a. specialize (H12 a). specialize (H23 a).
  destruct (ms1 !! a) as [m1|], (ms2 !! a) as [m2|], (ms3 !! a) as [m3|];
    try done.
  destruct H12 as [Hf Hnot], H23 as [Hf' Hnot'].
  split; [by apply funds_kept_trans with m2|].
  intros Hno. rewrite Hnot', Hnot; try done. by rewrite Hnot.
Qed.

Lemma engine_call_funds_net (c : Network.EngineCall) (n n' : Network.Net) :
  Network.engine_call c n = Some n' ->
  Network.oracles n' = Network.oracles n
  /\ managers_kept (self (Network.engine n))
       (Network.managers n) (Network.managers n')
  /\ self (Network.engine n') = self (Network.engine n).
Proof.
  destruct c as [c|sender addr|sender addr]; cbn [Network.engine_call];
    intros H.
  - apply plain_call_Some in H as (w' & Hcall & ->).
    cbn zeta in *.
    destruct (engine_call_funds _ _ _ Hcall) as (Ho & Hf & Hself & Hnot).
    cbn [oracle manager engine] in Ho, Hf, Hself, Hnot.
    cbn [Network.oracles Network.managers Network.engine].
    split; [|split; [|exact Hself]].
    + destruct (Network.oracles n !! Network.yieldOracle n) as [o|] eqn:Hfound;
        cbn [Network.absent]; [|reflexivity].
      cbn [default] in Ho. rewrite Ho. by apply insert_id.
    + destruct (Network.managers n !! Network.portfolioManager n) as [m|]
        eqn:Hfound; cbn [Network.absent]; [|apply managers_kept_refl].
      cbn [default] in Hf, Hnot. intros a.
      destruct (decide (a = Network.portfolioManager n)) as [->|Hne].
      * rewrite Hfound, lookup_insert_eq. by split.
      * rewrite lookup_insert_ne by done.
        destruct (Network.managers n !! a); [|done].
        split; [apply funds_kept_refl | done].
  - apply returned_Some, setPortfolioManager_Ok in H as (_ & _ & ->).
    split; [done|]. split; [apply managers_kept_refl | done].
  - apply returned_Some, setYieldOracle_Ok in H as (_ & _ & ->).
    split; [done|]. split; [apply managers_kept_refl | done].
Qed.

Lemma engine_run_funds (cs : list Network.EngineCall) :
  forall n : Network.Net,
    let n' := Network.run (map Network.Engine cs) n in
    Network.oracles n' = Network.oracles n
    /\ managers_kept (self (Network.engine n))
         (Network.managers n) (Network.managers n')
    /\ self (Network.engine n') = self (Network.engine n).
Proof.
  induction cs as [|c cs IH]; intros n; cbn zeta.
  - split; [done|]. split; [apply managers_kept_refl | done].
  - cbn [map Network.run]. unfold Network.step. cbn [Network.call].
    destruct (Network.engine_call c n) as [n1|] eqn:Hcall; [|apply IH].
    destruct (engine_call_funds_net _ _ _ Hcall) as (Ho & Hk & Hself).
    destruct (IH n1) as (Ho' & Hk' & Hself'). rewrite Hself in Hk'.
    split; [congruence|].
    split; [by apply managers_kept_trans with (Network.managers n1)|].
    congruence.
Qed.

End NetworkFunds.

(** X18.  The engine never moves funds.  Whatever calls are made into the
    engine, by whomever, [setPortfolioManager] and [setYieldOracle]
    included, and whatever PortfolioManager or YieldOracle of this
    repository, or address without a contract, its references point to:
    every YieldOracle is left as it is, and of every PortfolioManager the
    pause flag and every user's total value, risk profile and
    auto-rebalance flag; the portfolio of a user who switched
    auto-rebalancing off, or who holds nothing, is not changed at all; and
    a PortfolioManager of which the engine is not an authorised rebalancer
    does not change at all. *)
Theorem engine_never_moves_funds :
  forall (cs : list Network.EngineCall) (n : Network.Net),
    let n' := Network.run (map Network.Engine cs) n in
    Network.oracles n' = Network.oracles n
    /\ Invariants.managers_kept
         (RebalancingEngine.self (Network.engine n))
         (Network.managers n) (Network.managers n').
Proof.
  intros cs n n'. destruct (engine_run_funds cs n) as (Ho & Hk & _).
  split; [exact Ho | exact Hk].
Qed.

Section NetworkPause.
Import RebalancingEngine.


End NetworkPause.



Section NetworkCounting.
Import RebalancingEngine Invariants.


End NetworkCounting.



(** ** PortfolioManager, continued *)

(** X26.  Toggling auto-rebalancing twice restores every portfolio: after
    a successful [toggleAutoRebalance] the flag of the caller is the
    opposite of what it was, nothing else of any portfolio has changed,
    and a second call succeeds and gives back the portfolios as they
    were. *)
Theorem toggleAutoRebalance_twice_restores :
  forall (u : address) (s s1 : PortfolioManager.State),
    PortfolioManager.toggleAutoRebalance u s = Ok s1 ->
    PortfolioManager.portfolio_of s1 u
    = PortfolioManager.with_autoRebalanceEnabled
        (PortfolioManager.portfolio_of s u)
        (negb (PortfolioManager.autoRebalanceEnabled
                 (PortfolioManager.portfolio_of s u)))
    /\ (forall who, who <> u ->
          PortfolioManager.portfolio_of s1 who
          = PortfolioManager.portfolio_of s who)
    /\ exists s2 : PortfolioManager.State,
         PortfolioManager.toggleAutoRebalance u s1 = Ok s2
         /\ forall who : address,
              PortfolioManager.portfolio_of s2 who
              = PortfolioManager.portfolio_of s who.
Proof.
  intros u s s1 H.
  unfold PortfolioManager.toggleAutoRebalance in H. steps_Ok H.
  injection H as <-.
  apply whenNotPaused_Ok in Hstep.
  split; [by rewrite portfolio_of_emit, portfolio_of_set_eq|].
  split.
  { intros who Hwho. rewrite portfolio_of_emit.
    by apply portfolio_of_set_ne. }
  unfold PortfolioManager.toggleAutoRebalance.
  rewrite !portfolio_of_emit, !portfolio_of_set_eq.
  cbn [PortfolioManager.paused PortfolioManager.emit
       PortfolioManager.set_portfolio
       PortfolioManager.with_autoRebalanceEnabled
       PortfolioManager.totalValue PortfolioManager.autoRebalanceEnabled].
  rewrite Hstep, Hstep0. cbn [bind]. rewrite negb_involutive.
  eexists. split; [reflexivity|].
  intros who. rewrite portfolio_of_emit.
  destruct (Z.eq_dec u who) as [->|Hne].
  - rewrite portfolio_of_set_eq.
    by destruct (PortfolioManager.portfolio_of s who).
  - rewrite portfolio_of_set_ne by exact Hne.
    rewrite portfolio_of_emit. by apply portfolio_of_set_ne.
Qed.

(** Alice switches auto-rebalancing off and on again. *)
Lemma toggleAutoRebalance_twice_restores_witness :
  exists s s1 s2 : PortfolioManager.State,
    Scenario.ledger = Ok s
    /\ PortfolioManager.toggleAutoRebalance Scenario.alice s = Ok s1
    /\ PortfolioManager.toggleAutoRebalance Scenario.alice s1 = Ok s2
    /\ PortfolioManager.portfolio_of s2 Scenario.alice
       = PortfolioManager.portfolio_of s Scenario.alice.
Proof.
  run_as Scenario.ledger Scenario.ledger s Hs.
  run_as constr:(do s <- Scenario.ledger;
                 PortfolioManager.toggleAutoRebalance Scenario.alice s)
         (PortfolioManager.toggleAutoRebalance Scenario.alice s) s1 Hs1.
  destruct (toggleAutoRebalance_twice_restores _ _ _ Hs1)
    as (_ & _ & s2 & Hs2 & Hsame).
  exists s, s1, s2. split; [reflexivity|]. split; [exact Hs1|].
  split; [exact Hs2 | apply Hsame].
Defined.

(** X27.  The manager's [executeRebalance] never looks at its
    [fromProtocol] argument: whenever the call succeeds for one value of
    it, it succeeds for any other and leaves the same portfolios; in
    particular the argument is not compared with the user's current
    venue. *)
Theorem executeRebalance_ignores_fromProtocol :
  forall (now : Z) (sender user : address) (from from' to : string)
         (y gas : Z) (s s1 : PortfolioManager.State),
    PortfolioManager.executeRebalance now sender user from to y gas s
    = Ok s1 ->
    exists s2 : PortfolioManager.State,
      PortfolioManager.executeRebalance now sender user from' to y gas s
      = Ok s2
      /\ PortfolioManager.portfolios s2 = PortfolioManager.portfolios s1
      /\ PortfolioManager.paused s2 = PortfolioManager.paused s1
      /\ PortfolioManager.authorizedRebalancers s2
         = PortfolioManager.authorizedRebalancers s1.
Proof.
  intros now sender user from from' to y gas s s1 H.
  unfold PortfolioManager.executeRebalance in *. steps_Ok H.
  injection H as <-.
  repeat (match goal with
          | E : ?m = Ok _ |- context [?m] => rewrite E
          end; cbn [bind]).
  eexists. split; [reflexivity|]. by repeat split.
Qed.

(** Alice's rebalance at no cost succeeds whatever venue is named as the
    one she leaves. *)
Lemma executeRebalance_ignores_fromProtocol_witness :
  exists s s2 : PortfolioManager.State,
    Scenario.ledger = Ok s
    /\ PortfolioManager.executeRebalance 300 Scenario.engineAddress
         Scenario.alice "Nowhere" "Compound" 780 0 s = Ok s2
    /\ PortfolioManager.currentProtocol
         (PortfolioManager.portfolio_of s Scenario.alice) = "Aave".
Proof.
  run_as Scenario.ledger Scenario.ledger s Hs.
  run_as constr:(do s <- Scenario.ledger;
                 PortfolioManager.executeRebalance 300 Scenario.engineAddress
                   Scenario.alice "Aave" "Compound" 780 0 s)
         (PortfolioManager.executeRebalance 300 Scenario.engineAddress
            Scenario.alice "Aave" "Compound" 780 0 s) s1 Hs1.
  destruct (executeRebalance_ignores_fromProtocol 300 Scenario.engineAddress
              Scenario.alice "Aave" "Nowhere" "Compound" 780 0 s s1 Hs1)
    as (s2 & Hs2 & _).
  exists s, s2. split; [reflexivity|]. split; [exact Hs2|].
  by_observing
    constr:((do s <- Scenario.ledger;
             Ok (PortfolioManager.currentProtocol
                   (PortfolioManager.portfolio_of s Scenario.alice)))
            = Ok "Aave").
Defined.

(** ** Pausing the oracle, and the margin of a profitable rebalance *)

Section OraclePause.
Import YieldOracle.

Lemma call_while_paused (now : Z) (c : OracleTrace.Call) (s s' : State) :
  paused s = true ->
  OracleTrace.call now c s = Ok s' ->
  Access.oracle_allowed_when_paused c
  /\ forall p, history_of s' p = history_of s p.
Proof.
  intros Hpaused.
  destruct c; cbn [OracleTrace.call Access.oracle_allowed_when_paused];
    intros H.
  - unfold addProtocol in H. step_Ok H.
    apply _addProtocol_Ok in H as (_ & _ & _ & _ & _ & Hhistory & _).
    split; [done|]. intros q. unfold history_of. by rewrite Hhistory.
  - unfold updateYield in H. do 3 step_Ok H.
    apply whenNotPaused_Ok in Hstep1. congruence.
  - apply deactivateProtocol_Ok in H as (_ & _ & _ & Hhistory & _).
    split; [done|]. intros q. unfold history_of. by rewrite Hhistory.
  - unfold authorizeUpdater in H. step_Ok H. by injection H as <-.
  - unfold pause in H. do 2 step_Ok H. apply whenNotPaused_Ok in Hstep0.
    congruence.
  - unfold unpause in H. do 2 step_Ok H. by injection H as <-.
Qed.

End OraclePause.

(** X28.  A paused oracle takes no quotes: while it is paused
    [updateYield] cannot succeed (nor a second [pause]), so no yield
    history changes; venues can still be registered and retired and
    updaters authorised, these calls having no pause check. *)
Theorem paused_oracle_takes_no_quotes :
  forall (now : Z) (c : OracleTrace.Call) (s s' : YieldOracle.State),
    YieldOracle.paused s = true ->
    OracleTrace.call now c s = Ok s' ->
    Access.oracle_allowed_when_paused c
    /\ forall p, YieldOracle.history_of s' p = YieldOracle.history_of s p.
Proof. intros now c s s'. apply call_while_paused. Qed.

(** Curve is retired while the oracle is paused. *)
Lemma paused_oracle_takes_no_quotes_witness :
  exists s s' : YieldOracle.State,
    Scenario.silenced = Ok s
    /\ YieldOracle.paused s = true
    /\ OracleTrace.call 10
         (OracleTrace.DeactivateProtocol Scenario.admin "Curve" "exploit") s
       = Ok s'
    /\ YieldOracle.history_of s' "Curve" = YieldOracle.history_of s "Curve".
Proof.
  run_as Scenario.silenced Scenario.silenced s Hs.
  run_as constr:(do s <- Scenario.silenced;
                 OracleTrace.call 10
                   (OracleTrace.DeactivateProtocol Scenario.admin "Curve"
                      "exploit") s)
         (OracleTrace.call 10
            (OracleTrace.DeactivateProtocol Scenario.admin "Curve" "exploit")
            s) s' Hs'.
  observe Hpaused
    constr:((do s <- Scenario.silenced; Ok (YieldOracle.paused s)) = Ok true).
  apply Ok_inj in Hpaused.
  exists s, s'. split; [reflexivity|]. split; [exact Hpaused|].
  split; [exact Hs'|].
  by destruct (paused_oracle_takes_no_quotes _ _ _ _ Hpaused Hs') as [_ Hsame].
Defined.

(** X29.  A rebalance the engine finds profitable has a computed profit
    of at least 15% of its gas cost: for a gas cost between 0 and the
    engine's ceiling, when [_isProfitableRebalance] answers true,
    [_calculateProfit] does not revert and returns the yearly gain on the
    portfolio value minus the gas cost, which is at least
    [gas * 15 / 100]. *)
Theorem profitable_rebalance_clears_its_margin :
  forall (u : address) (curYield newYield gas value : Z),
    0 <= gas <= RebalancingEngine.MAX_GAS_COST ->
    RebalancingEngine._isProfitableRebalance u curYield newYield gas value
    = Ok true ->
    exists profit : Z,
      RebalancingEngine._calculateProfit curYield newYield value gas
      = Ok profit
      /\ profit = value * (newYield - curYield) / 10000 - gas
      /\ gas * 15 / 100 <= profit.
Proof.
  intros u curYield newYield gas value [Hlo Hhi] H.
  rewrite _isProfitableRebalance_unfold in H by exact Hhi.
  unfold RebalancingEngine._calculateProfit, checked_sub, checked_mul,
    checked_div.
  destruct (Z.leb_spec newYield curYield) as [Hle|Hlt]; [discriminate H|].
  replace (curYield <=? newYield) with true
    by (symmetry; apply Z.leb_le; lia).
  cbn [bind].
  destruct (value * (newYield - curYield) <=? MAX_UINT256);
    [|discriminate H].
  cbn [bind]. change (10000 =? 0) with false. cbn [bind].
  apply Ok_inj, Z.leb_le in H.
  assert (Hmargin : gas * 115 / 100 = gas + gas * 15 / 100).
  { replace (gas * 115) with (gas * 100 + gas * 15) by lia.
    apply Z.div_add_l. lia. }
  assert (Hpositive : 0 <= gas * 15 / 100)
    by (apply Z.div_pos; lia).
  set (annual := value * (newYield - curYield) / 10000) in *.
  destruct (Z.ltb_spec gas annual) as [Hbelow|Habove].
  - replace (gas <=? annual) with true by (symmetry; apply Z.leb_le; lia).
    exists (annual - gas). split; [reflexivity|]. split; lia.
  - exists 0. split; [reflexivity|]. split; lia.
Qed.

(** Ten ether moved from 320 bp to 780 bp at a cost of 0.005 ether. *)
Lemma profitable_rebalance_clears_its_margin_witness :
  RebalancingEngine._calculateProfit 320 780 (10 * ether) (5 * ether / 1000)
  = Ok 455000000000000000.
Proof.
  destruct (profitable_rebalance_clears_its_margin Scenario.alice 320 780
              (5 * ether / 1000) (10 * ether))
    as (profit & Hprofit & Hvalue & _).
  - split; apply Z.leb_le; reflexivity.
  - reflexivity.
  - rewrite Hprofit, Hvalue. reflexivity.
Defined.
